(** * The workspace analysis service: task registry, corpus builder, parsers

    A shallow embedding of [backend/app/services/ai_processor.py]
    ([AIProcessorService]) together with the schemas of
    [backend/app/models/slack.py] it works on.

    - Python [str] is a [string] whose characters are code points below 256.
    - [datetime] is a [Z]: microseconds since 0001-01-01T00:00:00
      ([datetime.min]); [timedelta] is a [Z] number of microseconds.
    - A raised exception is the left summand of [exn + A].
    - A value typed [Any] (the values of a canvas content block) is a decoded
      JSON value, [json].
    - Everything the service calls but does not define (the Slack fetch, the
      text splitter, the FAISS index, the LLM chains, [json.loads], the
      pydantic result constructor, date formatting, the text of the
      interpreter's own errors) is a field of [Services].
    - The registry is shared by the callers and the threads of the executor,
      without a lock: every assignment a thread makes to it is a transition
      of its own in [step]. *)

From Stdlib Require Import ZArith Ascii String List Lia.
From stdpp Require Import base option list strings pretty gmap fin_maps relations.

Set Warnings "-register-all".
Local Open Scope Z_scope.

(** ** Python strings *)

Module Py.

Definition nl_char : ascii := ascii_of_nat 10.

(** The one-character string written "\n" in the source. *)
Definition nl : string := String nl_char EmptyString.

(** [str.isspace] on one character, for code points below 256: TAB, LF, VT,
    FF, CR, the separators FS GS RS US, SPACE, NEL and NO-BREAK SPACE. *)
Definition is_space (c : ascii) : bool :=
  let n := N_of_ascii c in
  ((9 <=? n) && (n <=? 13) || (28 <=? n) && (n <=? 32)
   || (n =? 133) || (n =? 160))%N.

Fixpoint lstrip (s : string) : string :=
  match s with
  | EmptyString => EmptyString
  | String c r => if is_space c then lstrip r else s
  end.

Fixpoint rstrip (s : string) : string :=
  match s with
  | EmptyString => EmptyString
  | String c r =>
      match rstrip r with
      | EmptyString => if is_space c then EmptyString else String c EmptyString
      | r' => String c r'
      end
  end.

(** [s.strip()] *)
Definition strip (s : string) : string := rstrip (lstrip s).

(** [s.split(sep)] for a one-character separator: every occurrence cuts, and
    empty pieces are kept; the empty string gives one empty piece. *)
Fixpoint split (sep : ascii) (s : string) : list string :=
  match s with
  | EmptyString => [EmptyString]
  | String c r =>
      if Ascii.eqb c sep then EmptyString :: split sep r
      else match split sep r with
           | [] => [String c EmptyString]
           | p :: ps => String c p :: ps
           end
  end.

(** [sep.join(l)] *)
Fixpoint join (sep : string) (l : list string) : string :=
  match l with
  | [] => EmptyString
  | [x] => x
  | x :: r => x +:+ sep +:+ join sep r
  end.

(** The string is empty or holds white space only. *)
Fixpoint blank (s : string) : bool :=
  match s with
  | EmptyString => true
  | String c r => is_space c && blank r
  end.

(** Number of occurrences of a character. *)
Fixpoint count (c : ascii) (s : string) : nat :=
  match s with
  | EmptyString => 0%nat
  | String c' r => ((if Ascii.eqb c' c then 1 else 0) + count c r)%nat
  end.

(** Truth value of a string: [bool(s)]. *)
Definition truthy (s : string) : bool :=
  match s with EmptyString => false | _ => true end.

(** An insertion-ordered [dict] with string keys: assigning to a key that is
    present replaces the value in place, a new key goes to the end. *)
Fixpoint dict_set {V : Type} (k : string) (v : V) (d : list (string * V))
  : list (string * V) :=
  match d with
  | [] => [(k, v)]
  | (k', v') :: r =>
      if String.eqb k' k then (k, v) :: r else (k', v') :: dict_set k v r
  end.

(** The [dict] a sequence of key-value pairs builds, written in order. *)
Definition dict_of {V : Type} (pairs : list (string * V)) : list (string * V) :=
  foldl (fun d kv => dict_set kv.1 kv.2 d) [] pairs.

(** [d.get(k)] on an insertion-ordered [dict]. *)
Fixpoint dict_get {V : Type} (k : string) (d : list (string * V)) : option V :=
  match d with
  | [] => None
  | (k', v) :: r => if String.eqb k' k then Some v else dict_get k r
  end.

(** [s.startswith(p)] *)
Fixpoint startswith (p s : string) : bool :=
  match p, s with
  | EmptyString, _ => true
  | String a p', String b s' => Ascii.eqb a b && startswith p' s'
  | String _ _, EmptyString => false
  end.

(** [p in s] for two strings: [p] occurs in [s]. *)
Fixpoint contains (p s : string) : bool :=
  startswith p s
  || match s with
     | EmptyString => false
     | String _ s' => contains p s'
     end.

(** The one-character strings a string yields when it is iterated. *)
Fixpoint chars (s : string) : list string :=
  match s with
  | EmptyString => []
  | String c r => String c EmptyString :: chars r
  end.

End Py.

(** ** Exceptions *)

(** [ProcessingError] and [IntegrationError] come from [core/errors.py];
    [str(e)] of either is the message it was raised with.  [OverflowError] is
    what date arithmetic raises, [TypeError] and [KeyError] what the
    interpreter raises for an operation on a value that does not support it.
    Anything else a collaborator raises is an [OtherError] carrying its
    [str(e)]. *)
Inductive exn : Type :=
| ProcessingError (msg : string)
| IntegrationError (msg : string)
| OverflowError (msg : string)
| TypeError (msg : string)
| KeyError (msg : string)
| OtherError (msg : string).

Definition str_exn (e : exn) : string :=
  match e with
  | ProcessingError m | IntegrationError m | OverflowError m | TypeError m
  | KeyError m | OtherError m => m
  end.

(** The exception monad of the worker body. *)
Definition result (A : Type) : Type := (exn + A)%type.

Definition ret {A : Type} (a : A) : result A := inr a.
Definition raise {A : Type} (e : exn) : result A := inl e.

Definition bind {A B : Type} (r : result A) (k : A -> result B) : result B :=
  match r with
  | inl e => inl e
  | inr a => k a
  end.

Declare Scope result_scope.
Delimit Scope result_scope with result.
Notation "'do' x <- r ; k" := (bind r (fun x => k))
  (at level 10, x name, r at level 100, k at level 200) : result_scope.

(** [result_for l f]: a [for] loop whose body may raise; the first exception
    stops the loop. *)
Fixpoint result_for {A S : Type} (l : list A) (f : S -> A -> result S) (s : S)
  : result S :=
  match l with
  | [] => ret s
  | a :: r => bind (f s a) (result_for r f)
  end.

(** ** Time *)

Definition datetime : Type := Z.

Definition microseconds_per_day : Z := 86400000000.

(** One past [datetime.max] (9999-12-31T23:59:59.999999). *)
Definition datetime_end : Z := 3652059 * microseconds_per_day.

Definition max_timedelta_days : Z := 999999999.

(** [now - timedelta(days=d)].  [timedelta] takes its day count as a C int
    and refuses more than 999999999 days either way; the difference must be a
    date of the years 1 to 9999. *)
Definition timedelta_days (d : Z) : result Z :=
  if bool_decide (Z.abs d <= max_timedelta_days) then ret d
  else if bool_decide (- 2 ^ 31 <= d < 2 ^ 31) then
    raise (OverflowError
      ("days=" +:+ pretty d +:+ "; must have magnitude <= 999999999"))
  else raise (OverflowError "Python int too large to convert to C int").

Definition minus_days (now : datetime) (d : Z) : result datetime :=
  (do days <- timedelta_days d;
   let t := now - days * microseconds_per_day in
   if bool_decide (0 <= t < datetime_end) then ret t
   else raise (OverflowError "date value out of range"))%result.

(** ** Decoded JSON *)

(** A decoded JSON value, as [json.loads] and the Slack client return it. *)
Inductive json : Type :=
| JNull
| JBool (b : bool)
| JInt (n : Z)
| JFloat (literal : string)
| JStr (s : string)
| JList (items : list json)
| JObject (fields : list (string * json)).

(** ** Schemas of models/slack.py *)

Record SlackUserSchema : Type := {
  user_id : string;
  user_name : string;
  user_real_name : option string;
  user_email : option string;
  user_title : option string;
  user_is_admin : bool
}.

(** A reaction dictionary: name, count, users. *)
Record Reaction : Type := {
  reaction_name : string;
  reaction_count : Z;
  reaction_users : list string
}.

(** An attachment dictionary as [_process_attachments] builds it. *)
Record Attachment : Type := {
  attachment_type : string;
  attachment_title : string;
  attachment_text : string;
  attachment_fallback : string
}.

Inductive SlackMessageSchema : Type := Build_SlackMessageSchema {
  msg_id : string;
  msg_text : string;
  msg_user : string;
  msg_timestamp : datetime;
  msg_reactions : list Reaction;
  msg_replies : list SlackMessageSchema;
  msg_thread_ts : option string;
  msg_attachments : list Attachment
}.

Record SlackChannelSchema : Type := {
  chan_id : string;
  chan_name : string;
  chan_is_private : bool;
  chan_created : datetime;
  chan_creator : option string;
  chan_messages : list SlackMessageSchema
}.

(** A canvas content block, [Dict[str, Any]]: a dictionary from keys to
    decoded JSON values of any kind. *)
Definition Block : Type := gmap string json.

Record SlackCanvasSchema : Type := {
  canvas_id : string;
  canvas_title : string;
  canvas_created : datetime;
  canvas_creator : string;
  canvas_content : list Block;
  canvas_channel_id : option string
}.

Record SlackWorkspaceSchema : Type := {
  ws_id : string;
  ws_name : string;
  ws_domain : string;
  ws_users : list SlackUserSchema;
  ws_channels : list SlackChannelSchema;
  ws_canvases : list SlackCanvasSchema;
  ws_extraction_time : datetime
}.

(** Assignment to [workspace_data.channels] and to [channel.messages]. *)
Definition set_channels (l : list SlackChannelSchema) (w : SlackWorkspaceSchema)
  : SlackWorkspaceSchema :=
  {| ws_id := ws_id w; ws_name := ws_name w; ws_domain := ws_domain w;
     ws_users := ws_users w; ws_channels := l; ws_canvases := ws_canvases w;
     ws_extraction_time := ws_extraction_time w |}.

Definition set_messages (l : list SlackMessageSchema) (c : SlackChannelSchema)
  : SlackChannelSchema :=
  {| chan_id := chan_id c; chan_name := chan_name c;
     chan_is_private := chan_is_private c; chan_created := chan_created c;
     chan_creator := chan_creator c; chan_messages := l |}.

(** ** Documents *)

(** A value of a Document's metadata dictionary. *)
Inductive MetaValue : Type :=
| MStr (s : string)
| MBool (b : bool)
| MNone.

Record Document : Type := {
  page_content : string;
  metadata : gmap string MetaValue
}.

(** The FAISS index: an opaque handle on the documents it was built from. *)
Inductive VectorStore : Type :=
| FaissIndex (docs : list Document).

(** [SlackAIProcessingResultSchema] *)
Record SlackAIProcessingResultSchema : Type := {
  res_workspace_id : string;
  res_summary : string;
  res_channel_summaries : list (string * string);
  res_canvas_summaries : list (string * string);
  res_key_insights : list json;
  res_topics : list json;
  res_processing_time : datetime
}.

(** ** Collaborators *)

(** The five prompt templates of the service; a chain is run on a template and
    the values of its variables. *)
Inductive PromptTemplate : Type :=
| ChannelSummaryPrompt
| CanvasSummaryPrompt
| WorkspaceSummaryPrompt
| KeyInsightsPrompt
| KeyTopicsPrompt.

(** What the service does with the values of a content block. *)
Inductive Operation : Type :=
| Concatenate  (** [value + "\n"] *)
| Iterate      (** [for element in value] *)
| Contains     (** ["text" in value] *)
| Subscript.   (** [value["text"]] *)

Record Services : Type := {
  (** [slack_service.fetch_all_workspace_data] *)
  fetch_all_workspace_data : string -> result SlackWorkspaceSchema;
  (** [text_splitter.split_documents] (chunk_size=1000, chunk_overlap=100) *)
  split_documents : list Document -> list Document;
  (** [FAISS.from_documents(documents, embeddings)] *)
  from_documents : list Document -> result VectorStore;
  (** [LLMChain(llm=self.llm, prompt=prompt).run] on the template's variables *)
  chain_run : PromptTemplate -> list (string * string) -> result string;
  (** [json.loads]; [None] when it raises *)
  json_loads : string -> option json;
  (** the validating constructor of [SlackAIProcessingResultSchema] *)
  validate_result :
    SlackAIProcessingResultSchema -> result SlackAIProcessingResultSchema;
  (** [str(e)] of the [TypeError] the interpreter raises when an operation is
      applied to a value that does not support it *)
  type_error : Operation -> json -> string;
  (** [datetime.isoformat()] *)
  isoformat : datetime -> string;
  (** [datetime.strftime('%Y-%m-%d %H:%M')] *)
  strftime_minutes : datetime -> string;
  (** what [datetime.now()] returns where the cutoff is computed, where the
      result is built, and where the task is closed *)
  now_at_filter : datetime;
  now_at_result : datetime;
  now_at_end : datetime
}.

(** ** Corpus construction: [_prepare_documents] *)

Section Corpus.

Context (env : Services).

(** [user.real_name or user.name] *)
Definition display_name (u : SlackUserSchema) : string :=
  match user_real_name u with
  | Some n => if Py.truthy n then n else user_name u
  | None => user_name u
  end.

(** [{user.id: user.real_name or user.name for user in workspace.users}] *)
Definition user_map (users : list SlackUserSchema) : gmap string string :=
  foldl (fun m u => <[user_id u := display_name u]> m) ∅ users.

(** [user_map.get(uid, "Unknown")] *)
Definition user_name_of (um : gmap string string) (uid : string) : string :=
  default "Unknown" (um !! uid).

Definition message_metadata (um : gmap string string)
    (channel : SlackChannelSchema) (message : SlackMessageSchema)
  : gmap string MetaValue :=
  <["source_type" := MStr "message"]>
  (<["has_reactions" := MBool (0 <? length (msg_reactions message))%nat]>
  (<["has_replies" := MBool (0 <? length (msg_replies message))%nat]>
  (<["timestamp" := MStr (isoformat env (msg_timestamp message))]>
  (<["user_name" := MStr (user_name_of um (msg_user message))]>
  (<["user_id" := MStr (msg_user message)]>
  (<["message_id" := MStr (msg_id message)]>
  (<["channel_name" := MStr (chan_name channel)]>
  (<["channel_id" := MStr (chan_id channel)]> ∅)))))))).

(** [reply_metadata = metadata.copy(); reply_metadata.update({...})] *)
Definition reply_metadata (um : gmap string string)
    (parent_metadata : gmap string MetaValue)
    (message reply : SlackMessageSchema) : gmap string MetaValue :=
  <["source_type" := MStr "reply"]>
  (<["parent_message_id" := MStr (msg_id message)]>
  (<["timestamp" := MStr (isoformat env (msg_timestamp reply))]>
  (<["user_name" := MStr (user_name_of um (msg_user reply))]>
  (<["user_id" := MStr (msg_user reply)]>
  (<["message_id" := MStr (msg_id reply)]> parent_metadata))))).

Definition reply_document (um : gmap string string)
    (parent_metadata : gmap string MetaValue)
    (message reply : SlackMessageSchema) : Document :=
  {| page_content := msg_text reply;
     metadata := reply_metadata um parent_metadata message reply |}.

(** The body of the loop over [channel.messages]: nothing for a message whose
    stripped text is empty, else the message and then each of its replies. *)
Definition message_documents (um : gmap string string)
    (channel : SlackChannelSchema) (message : SlackMessageSchema)
  : list Document :=
  if Py.truthy (Py.strip (msg_text message)) then
    let metadata := message_metadata um channel message in
    {| page_content := msg_text message; metadata := metadata |}
      :: (reply_document um metadata message <$> msg_replies message)
  else [].

Definition channel_documents (um : gmap string string)
    (channel : SlackChannelSchema) : list Document :=
  chan_messages channel ≫= message_documents um channel.

(** [value + "\n"]: concatenation is for two strings. *)
Definition plus_newline (value : json) : result string :=
  match value with
  | JStr text => ret (text +:+ Py.nl)
  | _ => raise (TypeError (type_error env Concatenate value))
  end.

(** What [for element in value] goes through: the items of a list, the keys
    of a dictionary, the characters of a string. *)
Definition elements_of (value : json) : result (list json) :=
  match value with
  | JList items => ret items
  | JObject fields => ret (JStr <$> (Py.dict_of fields).*1)
  | JStr text => ret (JStr <$> Py.chars text)
  | _ => raise (TypeError (type_error env Iterate value))
  end.

Definition is_text (item : json) : bool :=
  match item with
  | JStr text => String.eqb text "text"
  | _ => false
  end.

(** ["text" in element]: a key of a dictionary, a part of a string, an item
    of a list. *)
Definition has_text (element : json) : result bool :=
  match element with
  | JObject fields => ret (bool_decide ("text" ∈ (Py.dict_of fields).*1))
  | JStr text => ret (Py.contains "text" text)
  | JList items => ret (existsb is_text items)
  | _ => raise (TypeError (type_error env Contains element))
  end.

(** [element["text"]]: only a dictionary is indexed by a string. *)
Definition text_of (element : json) : result json :=
  match element with
  | JObject fields =>
      match Py.dict_get "text" (Py.dict_of fields) with
      | Some value => ret value
      | None => raise (KeyError "'text'")
      end
  | _ => raise (TypeError (type_error env Subscript element))
  end.

(** The body of the loop over [block["rich_text"]]. *)
Definition element_lines (acc : string) (element : json) : result string :=
  (do present <- has_text element;
   if (present : bool) then
     do value <- text_of element;
     do line <- plus_newline value;
     ret (acc +:+ line)
   else ret acc)%result.

(** The body of the loop over [canvas.content]: what a block adds to
    [canvas_text]. *)
Definition block_lines (acc : string) (block : Block) : result string :=
  match block !! "text" with
  | Some value => (do line <- plus_newline value; ret (acc +:+ line))%result
  | None =>
      match block !! "rich_text" with
      | Some value =>
          (do elements <- elements_of value;
           result_for elements element_lines acc)%result
      | None => ret acc
      end
  end.

Definition canvas_header (canvas : SlackCanvasSchema) : string :=
  "Canvas: " +:+ canvas_title canvas +:+ Py.nl +:+ Py.nl.

Definition option_meta (o : option string) : MetaValue :=
  match o with Some s => MStr s | None => MNone end.

Definition canvas_metadata (um : gmap string string)
    (canvas : SlackCanvasSchema) : gmap string MetaValue :=
  <["source_type" := MStr "canvas"]>
  (<["timestamp" := MStr (isoformat env (canvas_created canvas))]>
  (<["user_name" := MStr (user_name_of um (canvas_creator canvas))]>
  (<["user_id" := MStr (canvas_creator canvas)]>
  (<["channel_id" := option_meta (canvas_channel_id canvas)]>
  (<["canvas_title" := MStr (canvas_title canvas)]>
  (<["canvas_id" := MStr (canvas_id canvas)]> ∅)))))).

Definition canvas_document (um : gmap string string)
    (canvas : SlackCanvasSchema) : result Document :=
  (do canvas_text <-
     result_for (canvas_content canvas) block_lines (canvas_header canvas);
   ret {| page_content := canvas_text;
          metadata := canvas_metadata um canvas |})%result.

(** The body of the loop over [workspace.canvases]. *)
Definition add_canvas_document (um : gmap string string)
    (documents : list Document) (canvas : SlackCanvasSchema)
  : result (list Document) :=
  (do document <- canvas_document um canvas;
   ret (documents ++ [document]))%result.

(** The list [documents] as it stands after the loop over the channels. *)
Definition message_collection (workspace : SlackWorkspaceSchema)
  : list Document :=
  ws_channels workspace ≫= channel_documents (user_map (ws_users workspace)).

(** The list [documents] as it stands when it is handed to the splitter. *)
Definition collected_documents (workspace : SlackWorkspaceSchema)
  : result (list Document) :=
  result_for (ws_canvases workspace)
    (add_canvas_document (user_map (ws_users workspace)))
    (message_collection workspace).

Definition _prepare_documents (workspace : SlackWorkspaceSchema)
  : result (list Document) :=
  (do documents <- collected_documents workspace;
   ret (split_documents env documents))%result.

End Corpus.

(** ** The summarization steps *)

Section Summaries.

Context (env : Services).

Definition _create_vector_store (documents : list Document)
  : result VectorStore :=
  from_documents env documents.

Definition message_line (msg : SlackMessageSchema) : string :=
  strftime_minutes env (msg_timestamp msg) +:+ " - " +:+ msg_text msg.

Definition _generate_channel_summary (channel : SlackChannelSchema)
  : result string :=
  match chan_messages channel with
  | [] => ret "Empty channel or no recent messages."
  | _ =>
      let message_text :=
        Py.join Py.nl (message_line <$> take 50 (chan_messages channel)) in
      chain_run env ChannelSummaryPrompt
        [("channel_name", chan_name channel); ("message_text", message_text)]
  end.

Definition _generate_canvas_summary (canvas : SlackCanvasSchema)
  : result string :=
  (do canvas_text <-
     result_for (canvas_content canvas) (block_lines env) EmptyString;
   if Py.truthy (Py.strip canvas_text) then
     chain_run env CanvasSummaryPrompt
       [("canvas_title", canvas_title canvas); ("canvas_text", canvas_text)]
   else ret "Empty canvas or content could not be processed.")%result.

(** One entry of the comprehension over [enumerate(channel_summaries.items())]:
    [i] counts every item, kept or not, and [workspace.channels[i]] raises
    IndexError past the end. *)
Definition channel_entry (workspace : SlackWorkspaceSchema)
    (acc : list string) (item : nat * (string * string))
  : result (list string) :=
  let '(i, (channel_id, summary)) := item in
  if bool_decide (channel_id ∈ chan_id <$> ws_channels workspace) then
    match ws_channels workspace !! i with
    | Some c =>
        ret (acc ++ ["CHANNEL: " +:+ chan_name c +:+ Py.nl
                       +:+ "SUMMARY: " +:+ summary])
    | None => raise (OtherError "list index out of range")
    end
  else ret acc.

Definition canvas_entries (workspace : SlackWorkspaceSchema)
    (item : string * string) : list string :=
  let '(cid, summary) := item in
  (fun canvas => "CANVAS: " +:+ canvas_title canvas +:+ Py.nl
                   +:+ "SUMMARY: " +:+ summary)
    <$> filter (fun canvas => canvas_id canvas = cid) (ws_canvases workspace).

Definition indent12 : string := "            ".

Definition instruction_text (custom_instruction : option string) : string :=
  match custom_instruction with
  | Some ((String _ _) as ci) =>
      Py.nl +:+ indent12
      +:+ "Additionally, the user has provided the following specific instructions for your analysis:"
      +:+ Py.nl +:+ indent12 +:+ ci
      +:+ Py.nl +:+ indent12
      +:+ "Please incorporate these instructions into your summary and analysis."
      +:+ Py.nl +:+ indent12
  | _ => EmptyString
  end.

Definition _generate_workspace_summary (workspace : SlackWorkspaceSchema)
    (channel_summaries canvas_summaries : list (string * string))
    (custom_instruction : option string) : result string :=
  (do entries <- result_for (imap pair channel_summaries)
                   (channel_entry workspace) [];
   let combined := Py.join (Py.nl +:+ Py.nl) entries in
   let combined_summaries :=
     match canvas_summaries with
     | [] => combined
     | _ => combined +:+ Py.nl +:+ Py.nl
              +:+ Py.join (Py.nl +:+ Py.nl)
                    (canvas_summaries ≫= canvas_entries workspace)
     end in
   chain_run env WorkspaceSummaryPrompt
     [("workspace_name", ws_name workspace);
      ("combined_summaries", combined_summaries);
      ("instruction_text", instruction_text custom_instruction)])%result.

(** The two-tier decoding of the insights answer: a JSON list as it is;
    anything else, or a failure of [json.loads], gives the pieces of
    [insights_text.strip().split("\n")]. *)
Definition parse_insights (insights_text : string) : list json :=
  match json_loads env insights_text with
  | Some (JList insights) => insights
  | _ => JStr <$> Py.split Py.nl_char (Py.strip insights_text)
  end.

Definition _extract_key_insights (workspace : SlackWorkspaceSchema)
    (overall_summary : string) : result (list json) :=
  (do insights_text <- chain_run env KeyInsightsPrompt
                         [("workspace_name", ws_name workspace);
                          ("overall_summary", overall_summary)];
   ret (parse_insights insights_text))%result.

Definition general_topic : json :=
  JObject [("name", JStr "General");
           ("description", JStr "General discussion");
           ("keywords", JList [JStr "general"])].

Definition parse_topics (topics_text : string) : list json :=
  match json_loads env topics_text with
  | Some (JList topics) => topics
  | _ => [general_topic]
  end.

Definition _identify_topics (vector_store : VectorStore)
    (workspace : SlackWorkspaceSchema) : result (list json) :=
  (do topics_text <- chain_run env KeyTopicsPrompt
                       [("workspace_name", ws_name workspace)];
   ret (parse_topics topics_text))%result.

End Summaries.

(** ** The worker body: the [try] block of [_process_workspace_data] *)

(** [if channels: workspace_data.channels = [c for c in ... if c.id in channels]]:
    [None] and the empty list both leave the channels as they are. *)
Definition filter_channels (channels : option (list string))
    (workspace_data : SlackWorkspaceSchema) : SlackWorkspaceSchema :=
  match channels with
  | Some ((_ :: _) as ids) =>
      set_channels
        (filter (fun c => chan_id c ∈ ids) (ws_channels workspace_data))
        workspace_data
  | _ => workspace_data
  end.

Definition recent_messages (cutoff_date : datetime)
    (channel : SlackChannelSchema) : SlackChannelSchema :=
  set_messages
    (filter (fun m => cutoff_date <= msg_timestamp m) (chan_messages channel))
    channel.

(** [if max_age_days: ...]: [None] and [0] both skip the filter. *)
Definition filter_by_age (now : datetime) (max_age_days : option Z)
    (workspace_data : SlackWorkspaceSchema) : result SlackWorkspaceSchema :=
  match max_age_days with
  | Some d =>
      if bool_decide (d = 0) then ret workspace_data
      else
        (do cutoff_date <- minus_days now d;
         ret (set_channels
                (recent_messages cutoff_date <$> ws_channels workspace_data)
                workspace_data))%result
  | None => ret workspace_data
  end.

(** The arguments [start_processing_task] hands to the executor. *)
Record WorkItem : Type := {
  wi_task_id : string;
  wi_workspace_id : string;
  wi_channels : option (list string);
  wi_include_canvases : bool;
  wi_max_age_days : option Z;
  wi_custom_instruction : option string
}.

Section Worker.

Context (env : Services).

Definition channel_summary_step (acc : list (string * string))
    (channel : SlackChannelSchema) : result (list (string * string)) :=
  match chan_messages channel with
  | [] => ret acc
  | _ =>
      (do summary <- _generate_channel_summary env channel;
       ret (Py.dict_set (chan_id channel) summary acc))%result
  end.

Definition canvas_summary_step (acc : list (string * string))
    (canvas : SlackCanvasSchema) : result (list (string * string)) :=
  (do summary <- _generate_canvas_summary env canvas;
   ret (Py.dict_set (canvas_id canvas) summary acc))%result.

(** [canvas_summaries]: filled only under
    [if include_canvases and workspace_data.canvases]. *)
Definition canvas_summaries_of (include_canvases : bool)
    (workspace_data : SlackWorkspaceSchema) : result (list (string * string)) :=
  match include_canvases, ws_canvases workspace_data with
  | true, ((_ :: _) as canvases) => result_for canvases canvas_summary_step []
  | _, _ => ret []
  end.

(** Everything between the first status write and the final ones: the value
    is the result to store, or the exception the [except] clause receives. *)
Definition pipeline (item : WorkItem) : result SlackAIProcessingResultSchema :=
  (do fetched <- fetch_all_workspace_data env (wi_workspace_id item);
   let selected := filter_channels (wi_channels item) fetched in
   do workspace_data <-
     filter_by_age (now_at_filter env) (wi_max_age_days item) selected;
   do documents <- _prepare_documents env workspace_data;
   match documents with
   | [] => raise (ProcessingError "No data to process after filtering")
   | _ =>
     do vector_store <- _create_vector_store env documents;
     do channel_summaries <-
       result_for (ws_channels workspace_data) channel_summary_step [];
     do canvas_summaries <-
       canvas_summaries_of (wi_include_canvases item) workspace_data;
     do overall_summary <-
       _generate_workspace_summary env workspace_data channel_summaries
         canvas_summaries (wi_custom_instruction item);
     do key_insights <- _extract_key_insights env workspace_data overall_summary;
     do topics <- _identify_topics env vector_store workspace_data;
     validate_result env
       {| res_workspace_id := wi_workspace_id item;
          res_summary := overall_summary;
          res_channel_summaries := channel_summaries;
          res_canvas_summaries := canvas_summaries;
          res_key_insights := key_insights;
          res_topics := topics;
          res_processing_time := now_at_result env |}
   end)%result.

End Worker.

(** ** The task registry *)

Record Parameters : Type := {
  par_channels : option (list string);
  par_include_canvases : bool;
  par_max_age_days : option Z;
  par_custom_instruction : option string
}.

(** One entry of [processing_tasks]. *)
Record Task : Type := {
  task_workspace_id : string;
  task_status : string;
  task_started_at : datetime;
  task_completed_at : option datetime;
  task_parameters : Parameters;
  task_results : option SlackAIProcessingResultSchema;
  task_error : option string
}.

Definition set_status (st : string) (t : Task) : Task :=
  {| task_workspace_id := task_workspace_id t; task_status := st;
     task_started_at := task_started_at t;
     task_completed_at := task_completed_at t;
     task_parameters := task_parameters t; task_results := task_results t;
     task_error := task_error t |}.

Definition set_completed_at (now : datetime) (t : Task) : Task :=
  {| task_workspace_id := task_workspace_id t; task_status := task_status t;
     task_started_at := task_started_at t; task_completed_at := Some now;
     task_parameters := task_parameters t; task_results := task_results t;
     task_error := task_error t |}.

Definition set_results (r : SlackAIProcessingResultSchema) (t : Task) : Task :=
  {| task_workspace_id := task_workspace_id t; task_status := task_status t;
     task_started_at := task_started_at t;
     task_completed_at := task_completed_at t;
     task_parameters := task_parameters t; task_results := Some r;
     task_error := task_error t |}.

Definition set_error (e : string) (t : Task) : Task :=
  {| task_workspace_id := task_workspace_id t; task_status := task_status t;
     task_started_at := task_started_at t;
     task_completed_at := task_completed_at t;
     task_parameters := task_parameters t; task_results := task_results t;
     task_error := Some e |}.

(** A thread of the executor inside [_process_workspace_data]: in the body,
    after its first statement; or past the body, with the exception or the
    result it ended with, the time it will write as completion time, and the
    number of closing assignments it has made. *)
Inductive Thread : Type :=
| Working (item : WorkItem)
| Closing (item : WorkItem) (now : datetime)
    (outcome : result SlackAIProcessingResultSchema) (written : nat).

Definition thread_item (thread : Thread) : WorkItem :=
  match thread with
  | Working item | Closing item _ _ _ => item
  end.

(** The service object: the registry, the work the executor has accepted and
    not begun, and the threads that are on a task. *)
Record Service : Type := {
  processing_tasks : gmap string Task;
  submitted : list WorkItem;
  running : list Thread
}.

Definition max_workers : nat := 2.

Definition new_service : Service :=
  {| processing_tasks := ∅; submitted := []; running := [] |}.

(** [start_processing_task]; [task_id] is what [str(uuid.uuid4())] returned
    and [now] what [datetime.now()] returned. *)
Definition start_processing_task (task_id : string) (now : datetime)
    (workspace_id : string) (channels : option (list string))
    (include_canvases : bool) (max_age_days : option Z)
    (custom_instruction : option string) (s : Service) : string * Service :=
  let task :=
    {| task_workspace_id := workspace_id;
       task_status := "queued";
       task_started_at := now;
       task_completed_at := None;
       task_parameters :=
         {| par_channels := channels;
            par_include_canvases := include_canvases;
            par_max_age_days := max_age_days;
            par_custom_instruction := custom_instruction |};
       task_results := None;
       task_error := None |} in
  let item :=
    {| wi_task_id := task_id; wi_workspace_id := workspace_id;
       wi_channels := channels; wi_include_canvases := include_canvases;
       wi_max_age_days := max_age_days;
       wi_custom_instruction := custom_instruction |} in
  (task_id,
   {| processing_tasks := <[task_id := task]> (processing_tasks s);
      submitted := submitted s ++ [item];
      running := running s |}).

(** What [get_task_status] returns. *)
Record StatusView : Type := {
  view_task_id : string;
  view_status : string;
  view_workspace_id : string;
  view_started_at : datetime;
  view_completed_at : option datetime;
  view_error : option string
}.

(** The two errors of the read operations. *)
Definition NotFoundError (task_id : string) : exn :=
  ProcessingError ("Task " +:+ task_id +:+ " not found").

Definition NotReadyError (task_id : string) : exn :=
  ProcessingError ("Task " +:+ task_id +:+ " not completed yet").

Definition get_task_status (task_id : string) (s : Service)
  : result StatusView * Service :=
  match processing_tasks s !! task_id with
  | None => (raise (NotFoundError task_id), s)
  | Some task =>
      (ret {| view_task_id := task_id;
              view_status := task_status task;
              view_workspace_id := task_workspace_id task;
              view_started_at := task_started_at task;
              view_completed_at := task_completed_at task;
              view_error := task_error task |}, s)
  end.

Definition get_task_results (task_id : string) (s : Service)
  : result (option SlackAIProcessingResultSchema) * Service :=
  match processing_tasks s !! task_id with
  | None => (raise (NotFoundError task_id), s)
  | Some task =>
      if bool_decide (task_status task = "completed")
      then (ret (task_results task), s)
      else (raise (NotReadyError task_id), s)
  end.

(** The first statement of the worker: [tasks[task_id]["status"] = "processing"]. *)
Definition mark_processing (task_id : string) (tasks : gmap string Task)
  : gmap string Task :=
  alter (set_status "processing") task_id tasks.

(** The last three statements of the [try] block (status, completed_at,
    results), or the three of the [except] clause (status, error,
    completed_at), in the order in which they are made. *)
Definition closing_writes (now : datetime)
    (outcome : result SlackAIProcessingResultSchema) : list (Task -> Task) :=
  match outcome with
  | inr res => [set_status "completed"; set_completed_at now; set_results res]
  | inl e => [set_status "failed"; set_error (str_exn e); set_completed_at now]
  end.

(** The task's entry after the first [written] of them. *)
Definition written_task (now : datetime)
    (outcome : result SlackAIProcessingResultSchema) (written : nat) (t : Task)
  : Task :=
  foldl (fun t write => write t) t (take written (closing_writes now outcome)).

(** The task's entry after all three. *)
Definition close_task (now : datetime)
    (outcome : result SlackAIProcessingResultSchema) (t : Task) : Task :=
  match outcome with
  | inr res => set_results res (set_completed_at now (set_status "completed" t))
  | inl e => set_completed_at now (set_error (str_exn e) (set_status "failed" t))
  end.

Definition store_outcome (task_id : string) (now : datetime)
    (outcome : result SlackAIProcessingResultSchema) (tasks : gmap string Task)
  : gmap string Task :=
  alter (close_task now outcome) task_id tasks.

(** [_process_workspace_data] run from its first statement to its last.  For
    a [task_id] that is not in the registry the first assignment raises
    KeyError, the [except] clause raises it again, and nothing is written. *)
Definition _process_workspace_data (env : Services) (item : WorkItem)
    (tasks : gmap string Task) : gmap string Task :=
  match tasks !! wi_task_id item with
  | None => tasks
  | Some _ =>
      store_outcome (wi_task_id item) (now_at_end env) (pipeline env item)
        (mark_processing (wi_task_id item) tasks)
  end.

(** ** The service as a transition system *)

(** One transition of the service object.  A submission draws a task id that
    is not in the registry (a fresh uuid4).  The executor starts the oldest
    accepted item when one of its [max_workers] threads is free, and the
    thread's first statement is one transition.  The body of the [try] block
    does not write to the registry: the thread leaves it with a result or
    with an exception.  Each of the three closing assignments is a transition
    of its own, so that the other threads, submissions and reads can come
    between any two of them; after the third the thread is done.  A
    submission is one transition: between the insertion of the entry and the
    call of the executor nothing can name the task, its id being known to
    the caller alone.  The reads change nothing.  The environment [env] of a
    run is whatever the collaborators answered in it. *)
Inductive step : Service -> Service -> Prop :=
| step_submit s task_id now workspace_id channels include_canvases
    max_age_days custom_instruction :
    processing_tasks s !! task_id = None ->
    step s (start_processing_task task_id now workspace_id channels
              include_canvases max_age_days custom_instruction s).2
| step_status s task_id :
    step s (get_task_status task_id s).2
| step_results s task_id :
    step s (get_task_results task_id s).2
| step_begin s item rest :
    submitted s = item :: rest ->
    (length (running s) < max_workers)%nat ->
    step s {| processing_tasks :=
                mark_processing (wi_task_id item) (processing_tasks s);
              submitted := rest;
              running := running s ++ [Working item] |}
| step_body s env before item after :
    running s = before ++ Working item :: after ->
    step s {| processing_tasks := processing_tasks s;
              submitted := submitted s;
              running :=
                before
                ++ Closing item (now_at_end env) (pipeline env item) 0
                   :: after |}
| step_write s before item now outcome written write after :
    running s = before ++ Closing item now outcome written :: after ->
    closing_writes now outcome !! written = Some write ->
    step s {| processing_tasks :=
                alter write (wi_task_id item) (processing_tasks s);
              submitted := submitted s;
              running :=
                before ++ Closing item now outcome (S written) :: after |}
| step_done s before item now outcome after :
    running s = before ++ Closing item now outcome 3 :: after ->
    step s {| processing_tasks := processing_tasks s;
              submitted := submitted s;
              running := before ++ after |}.

Definition reachable (s : Service) : Prop := rtc step new_service s.

(** The chain queued -> processing -> completed | failed. *)
Definition status_next (a b : string) : Prop :=
  (a = "queued" /\ b = "processing")
  \/ (a = "processing" /\ (b = "completed" \/ b = "failed")).

Definition terminal (st : string) : Prop :=
  st = "completed" \/ st = "failed".

(** [settled t t']: the entry [t'] has the status of [t] and everything that
    is written in [t]. *)
Definition settled (t t' : Task) : Prop :=
  task_status t' = task_status t
  /\ task_workspace_id t' = task_workspace_id t
  /\ task_started_at t' = task_started_at t
  /\ task_parameters t' = task_parameters t
  /\ (forall r, task_results t = Some r -> task_results t' = Some r)
  /\ (forall e, task_error t = Some e -> task_error t' = Some e)
  /\ (forall c, task_completed_at t = Some c ->
        task_completed_at t' = Some c).

Definition pending_ids (s : Service) : list string :=
  wi_task_id <$> (submitted s ++ (thread_item <$> running s)).

(** What a registry entry looks like in each phase of its task. *)
Definition fresh_fields (t : Task) : Prop :=
  task_completed_at t = None /\ task_results t = None /\ task_error t = None.

Definition closed_task (t : Task) : Prop :=
  (task_status t = "completed" /\ is_Some (task_results t)
     /\ task_error t = None /\ is_Some (task_completed_at t))
  \/ (task_status t = "failed" /\ task_results t = None
     /\ is_Some (task_error t) /\ is_Some (task_completed_at t)).

(** The entry of a task whose thread is in the pool: as the first statement
    left it, with the closing assignments made so far. *)
Definition thread_entry (thread : Thread) (t : Task) : Prop :=
  match thread with
  | Working _ => task_status t = "processing" /\ fresh_fields t
  | Closing _ now outcome written =>
      (written <= 3)%nat
      /\ exists t0, task_status t0 = "processing" /\ fresh_fields t0
                    /\ t = written_task now outcome written t0
  end.

Record service_inv (s : Service) : Prop := {
  inv_nodup : NoDup (pending_ids s);
  inv_submitted : forall item, item ∈ submitted s ->
    exists t, processing_tasks s !! wi_task_id item = Some t
              /\ task_status t = "queued" /\ fresh_fields t;
  inv_running : forall thread, thread ∈ running s ->
    exists t, processing_tasks s !! wi_task_id (thread_item thread) = Some t
              /\ thread_entry thread t;
  inv_closed : forall task_id t,
    processing_tasks s !! task_id = Some t ->
    task_id ∉ pending_ids s -> closed_task t;
  inv_workers : (length (running s) <= max_workers)%nat
}.

(** ** Sample data *)

Module Demo.

Definition day (n : Z) : datetime := n * microseconds_per_day.

Definition now : datetime := day 738000.

(** Seven days before [now]. *)
Definition cutoff : datetime := day 737993.

Definition alice : SlackUserSchema :=
  {| user_id := "U1"; user_name := "alice"; user_real_name := Some "Alice A";
     user_email := None; user_title := None; user_is_admin := false |}.

Definition message (id text : string) (timestamp : datetime)
    (replies : list SlackMessageSchema) : SlackMessageSchema :=
  {| msg_id := id; msg_text := text; msg_user := "U1";
     msg_timestamp := timestamp; msg_reactions := []; msg_replies := replies;
     msg_thread_ts := None; msg_attachments := [] |}.

(** A reply written twenty days ago, and one with no text. *)
Definition old_reply : SlackMessageSchema :=
  message "r1" "old reply" (day 737980) [].

Definition empty_reply : SlackMessageSchema :=
  message "r2" EmptyString (day 737999) [].

(** A message of yesterday with those two replies. *)
Definition recent_message : SlackMessageSchema :=
  message "m1" "hello" (day 737999) [old_reply; empty_reply].

(** A message of ten days ago. *)
Definition old_message : SlackMessageSchema :=
  message "m2" "stale news" (day 737990) [].

(** A message of spaces only, with a reply that has text. *)
Definition answer : SlackMessageSchema :=
  message "r3" "answer" (day 737999) [].

Definition blank_message : SlackMessageSchema :=
  message "m3" "   " (day 737999) [answer].

Definition channel (id name : string) (messages : list SlackMessageSchema)
  : SlackChannelSchema :=
  {| chan_id := id; chan_name := name; chan_is_private := false;
     chan_created := day 730000; chan_creator := Some "U1";
     chan_messages := messages |}.

Definition general : SlackChannelSchema :=
  channel "C1" "general" [recent_message; old_message].

Definition random : SlackChannelSchema := channel "C2" "random" [].

Definition quiet : SlackChannelSchema := channel "C3" "quiet" [blank_message].

(** A canvas with no content blocks. *)
Definition plan : SlackCanvasSchema :=
  {| canvas_id := "F1"; canvas_title := "Plan"; canvas_created := day 737000;
     canvas_creator := "U1"; canvas_content := [];
     canvas_channel_id := None |}.

(** A canvas with a plain block, a rich-text block of two elements, one of
    them without text, and a block without text. *)
Definition notes : SlackCanvasSchema :=
  {| canvas_id := "F2"; canvas_title := "Notes"; canvas_created := day 737000;
     canvas_creator := "U1";
     canvas_content :=
       [ {[ "text" := JStr "Agenda" ]};
         {[ "rich_text" :=
              JList [JObject [("type", JStr "text"); ("text", JStr "item one")];
                     JObject [("type", JStr "divider")]] ]};
         {[ "type" := JStr "image" ]} ];
     canvas_channel_id := Some "C1" |}.

(** A canvas whose only block has a number where a text is expected. *)
Definition miscounted : SlackCanvasSchema :=
  {| canvas_id := "F3"; canvas_title := "Count"; canvas_created := day 737000;
     canvas_creator := "U1";
     canvas_content := [ {[ "text" := JInt 3 ]} ];
     canvas_channel_id := None |}.

Definition workspace (channels : list SlackChannelSchema)
    (canvases : list SlackCanvasSchema) : SlackWorkspaceSchema :=
  {| ws_id := "T1"; ws_name := "Acme"; ws_domain := "acme";
     ws_users := [alice]; ws_channels := channels; ws_canvases := canvases;
     ws_extraction_time := now |}.

Definition threads : SlackWorkspaceSchema := workspace [general; random] [].

Definition only_blank : SlackWorkspaceSchema := workspace [quiet] [].

Definition only_canvas : SlackWorkspaceSchema := workspace [random] [plan].

Definition nothing : SlackWorkspaceSchema := workspace [random] [].

(** Collaborators that always answer: the fetch returns [w], the splitter
    leaves the documents as they are, every chain answers [answer], the
    answer does not decode as JSON, and the result is accepted as built. *)
Definition services (w : SlackWorkspaceSchema) (answer : string) : Services :=
  {| fetch_all_workspace_data := fun _ => ret w;
     split_documents := fun documents => documents;
     from_documents := fun documents => ret (FaissIndex documents);
     chain_run := fun _ _ => ret answer;
     json_loads := fun _ => None;
     validate_result := ret;
     type_error := fun _ _ => "unsupported operand";
     isoformat := pretty;
     strftime_minutes := pretty;
     now_at_filter := now;
     now_at_result := now;
     now_at_end := now |}.

(** The same, with a completion service that refuses the insights call. *)
Definition services_down (w : SlackWorkspaceSchema) : Services :=
  {| fetch_all_workspace_data := fun _ => ret w;
     split_documents := fun documents => documents;
     from_documents := fun documents => ret (FaissIndex documents);
     chain_run := fun template _ =>
       match template with
       | KeyInsightsPrompt => raise (OtherError "insufficient_quota")
       | _ => ret "ok"
       end;
     json_loads := fun _ => None;
     validate_result := ret;
     type_error := fun _ _ => "unsupported operand";
     isoformat := pretty;
     strftime_minutes := pretty;
     now_at_filter := now;
     now_at_result := now;
     now_at_end := now |}.

Definition work (include_canvases : bool) : WorkItem :=
  {| wi_task_id := "t1"; wi_workspace_id := "T1"; wi_channels := None;
     wi_include_canvases := include_canvases; wi_max_age_days := None;
     wi_custom_instruction := None |}.

Definition line_one_line_two : string :=
  "line one" +:+ Py.nl +:+ "line two".

Definition line_blank_line : string :=
  "line one" +:+ Py.nl +:+ Py.nl +:+ "line two".

(** The service after one submission, after its worker's first statement,
    and after its worker has finished on the [only_blank] workspace. *)
Definition accepted : Service :=
  (start_processing_task "t1" now "T1" None true None None new_service).2.

Definition started : Service :=
  {| processing_tasks := mark_processing "t1" (processing_tasks accepted);
     submitted := [];
     running := running accepted ++ [Working (work true)] |}.

Definition finished : Service :=
  {| processing_tasks :=
       store_outcome "t1" now (pipeline (services only_blank "ok") (work true))
         (processing_tasks started);
     submitted := submitted started;
     running := [] ++ [] |}.

(** The service while the worker of the sample task, run on the workspace
    [w], makes its closing assignments: [closing w n] is the state after the
    first [n] of them. *)
Definition closing (w : SlackWorkspaceSchema) (written : nat) : Service :=
  {| processing_tasks :=
       alter (written_task now (pipeline (services w "ok") (work true)) written)
         "t1" (processing_tasks started);
     submitted := [];
     running :=
       [Closing (work true) now (pipeline (services w "ok") (work true))
          written] |}.

End Demo.

(** ** The Slack integration service: [services/slack_integration.py] *)

Module SlackIntegration.

(** What a call on the Slack client gives: a response, a [SlackApiError]
    (kept as its [e.response['error']]), or any other exception. *)
Inductive outcome (A : Type) : Type :=
| Answer (a : A)
| SlackApiError (error : string)
| Raised (e : exn).

Arguments Answer {A} a.
Arguments SlackApiError {A} error.
Arguments Raised {A} e.

Definition and_then {A B : Type} (o : outcome A) (k : A -> outcome B)
  : outcome B :=
  match o with
  | Answer a => k a
  | SlackApiError error => SlackApiError error
  | Raised e => Raised e
  end.

(** A call of one of the service's own methods inside a [try] block. *)
Definition called {A : Type} (r : result A) : outcome A :=
  match r with
  | inr a => Answer a
  | inl e => Raised e
  end.

(** [try: body  except SlackApiError as e: raise wrap(e.response['error'])] *)
Definition except_api {A : Type} (wrap : string -> exn) (body : outcome A)
  : result A :=
  match body with
  | Answer a => ret a
  | SlackApiError error => raise (wrap error)
  | Raised e => raise e
  end.

(** A [for] loop that appends to a list and whose body may raise. *)
Fixpoint collect {A B : Type} (l : list A) (f : A -> outcome (list B))
    (acc : list B) : outcome (list B) :=
  match l with
  | [] => Answer acc
  | a :: r => and_then (f a) (fun bs => collect r f (acc ++ bs))
  end.

(** *** The responses of the Web API, as far as the service reads them *)

Record RawProfile : Type := {
  profile_email : option string;
  profile_title : option string
}.

Record RawMember : Type := {
  member_id : string;
  member_name : string;
  member_real_name : option string;
  member_is_bot : option bool;
  member_deleted : option bool;
  member_profile : option RawProfile;
  member_is_admin : option bool
}.

Record RawChannel : Type := {
  rawchan_id : string;
  rawchan_name : string;
  rawchan_is_private : bool;
  rawchan_created : Z;
  rawchan_creator : option string
}.

Record RawReaction : Type := {
  rawreact_name : string;
  rawreact_count : Z;
  rawreact_users : option (list string)
}.

Record RawAttachment : Type := {
  rawatt_type : option string;
  rawatt_title : option string;
  rawatt_text : option string;
  rawatt_fallback : option string
}.

Record RawFile : Type := {
  rawfile_name : option string;
  rawfile_filetype : option string;
  rawfile_size : option Z;
  rawfile_url_private : option string
}.

Record RawMessage : Type := {
  raw_ts : string;
  raw_text : string;
  raw_user : option string;
  raw_subtype : option string;
  raw_thread_ts : option string;
  raw_reply_count : option Z;
  raw_reactions : option (list RawReaction);
  raw_attachments : option (list RawAttachment);
  raw_files : option (list RawFile)
}.

Record RawCanvas : Type := {
  rawcanvas_id : string;
  rawcanvas_title : string;
  rawcanvas_date_created : Z;
  rawcanvas_created_by : string;
  rawcanvas_channel_id : option string
}.

(** The response of [canvas_get]: "content" and, inside it, "blocks" may be
    absent. *)
Record RawCanvasInfo : Type := {
  info_content : option (option (list Block))
}.

Record TeamInfo : Type := {
  team_name : string;
  team_domain : string
}.

(** A [WebClient]: the methods the service calls. *)
Record WebClient : Type := {
  auth_test : outcome string;
  team_info : string -> outcome TeamInfo;
  users_list : outcome (list RawMember);
  conversations_list : string -> outcome (list RawChannel);
  conversations_history : string -> Z -> outcome (list RawMessage);
  conversations_replies : string -> string -> outcome (list RawMessage);
  canvas_list : outcome (option (list RawCanvas));
  canvas_get : string -> outcome RawCanvasInfo
}.

(** What the service takes from Python itself: [datetime.fromtimestamp(float(x))]
    on a "ts" string and on an integer. *)
Record Platform : Type := {
  fromtimestamp_text : string -> datetime;
  fromtimestamp_int : Z -> datetime
}.

(** *** Attachments *)

Record FileInfo : Type := {
  file_name : string;
  file_filetype : string;
  file_size : Z;
  file_url_private : string
}.

(** A processed attachment: the four text keys, and the "file" key when the
    message has files. *)
Record ProcessedAttachment : Type := {
  pa_fields : Attachment;
  pa_file : option FileInfo
}.

Definition file_info (file : RawFile) : FileInfo :=
  {| file_name := default EmptyString (rawfile_name file);
     file_filetype := default EmptyString (rawfile_filetype file);
     file_size := default 0 (rawfile_size file);
     file_url_private := default EmptyString (rawfile_url_private file) |}.

(** The loop [for file in message["files"]: processed_attachment["file"] = ...]
    assigns the same key each time round. *)
Definition attached_file (message : RawMessage) : option FileInfo :=
  match raw_files message with
  | Some files => foldl (fun _ file => Some (file_info file)) None files
  | None => None
  end.

Definition process_attachment (message : RawMessage)
    (attachment : RawAttachment) : ProcessedAttachment :=
  {| pa_fields :=
       {| attachment_type := default "unknown" (rawatt_type attachment);
          attachment_title := default EmptyString (rawatt_title attachment);
          attachment_text := default EmptyString (rawatt_text attachment);
          attachment_fallback :=
            default EmptyString (rawatt_fallback attachment) |};
     pa_file := attached_file message |}.

Definition _process_attachments (message : RawMessage)
  : list ProcessedAttachment :=
  match raw_attachments message with
  | None => []
  | Some attachments => process_attachment message <$> attachments
  end.

Section Fetch.

Context (platform : Platform).

(** *** Users *)

(** [member.get("is_bot", False) or member.get("deleted", False)] *)
Definition skipped_member (member : RawMember) : bool :=
  default false (member_is_bot member)
  || default false (member_deleted member).

Definition user_of (member : RawMember) : SlackUserSchema :=
  {| user_id := member_id member;
     user_name := member_name member;
     user_real_name := Some (default EmptyString (member_real_name member));
     user_email :=
       Some (default EmptyString (member_profile member ≫= profile_email));
     user_title :=
       Some (default EmptyString (member_profile member ≫= profile_title));
     user_is_admin := default false (member_is_admin member) |}.

Definition fetch_users (client : WebClient) : result (list SlackUserSchema) :=
  except_api
    (fun error => IntegrationError ("Failed to fetch Slack users: " +:+ error))
    (and_then (users_list client) (fun members =>
       Answer (user_of <$> filter (fun m => skipped_member m = false) members))).

(** *** Channels *)

Definition channel_of (channel : RawChannel) : SlackChannelSchema :=
  {| chan_id := rawchan_id channel;
     chan_name := rawchan_name channel;
     chan_is_private := rawchan_is_private channel;
     chan_created := fromtimestamp_int platform (rawchan_created channel);
     chan_creator := Some (default EmptyString (rawchan_creator channel));
     chan_messages := [] |}.

(** The inner [try]: a [SlackApiError] on the private listing is logged and
    the channels gathered so far are returned. *)
Definition with_private_channels (client : WebClient)
    (channels : list SlackChannelSchema) : outcome (list SlackChannelSchema) :=
  match conversations_list client "private_channel" with
  | Answer private => Answer (channels ++ (channel_of <$> private))
  | SlackApiError _ => Answer channels
  | Raised e => Raised e
  end.

Definition fetch_channels (client : WebClient)
  : result (list SlackChannelSchema) :=
  except_api
    (fun error =>
       IntegrationError ("Failed to fetch Slack channels: " +:+ error))
    (and_then (conversations_list client "public_channel") (fun public =>
       with_private_channels client (channel_of <$> public))).

(** *** Messages *)

Definition reaction_of (reaction : RawReaction) : Reaction :=
  {| reaction_name := rawreact_name reaction;
     reaction_count := rawreact_count reaction;
     reaction_users := default [] (rawreact_users reaction) |}.

(** ["subtype" in msg and msg["subtype"] in ["channel_join", "channel_leave"]] *)
Definition join_or_leave (msg : RawMessage) : bool :=
  match raw_subtype msg with
  | Some subtype => bool_decide (subtype ∈ ["channel_join"; "channel_leave"])
  | None => false
  end.

(** [msg.get("thread_ts") and msg.get("reply_count", 0) > 0] *)
Definition has_thread (msg : RawMessage) : bool :=
  match raw_thread_ts msg with
  | Some thread_ts => Py.truthy thread_ts && (0 <? default 0 (raw_reply_count msg))
  | None => false
  end.

Definition reply_of (reply : RawMessage) : SlackMessageSchema :=
  {| msg_id := raw_ts reply;
     msg_text := raw_text reply;
     msg_user := default EmptyString (raw_user reply);
     msg_timestamp := fromtimestamp_text platform (raw_ts reply);
     msg_reactions := [];
     msg_replies := [];
     msg_thread_ts := Some (default EmptyString (raw_thread_ts reply));
     msg_attachments := pa_fields <$> _process_attachments reply |}.

(** The replies of a thread: [thread["messages"][1:]]. *)
Definition thread_replies (client : WebClient) (channel_id : string)
    (msg : RawMessage) : outcome (list SlackMessageSchema) :=
  match raw_thread_ts msg with
  | Some thread_ts =>
      if has_thread msg then
        and_then (conversations_replies client channel_id thread_ts)
          (fun thread => Answer (reply_of <$> drop 1 thread))
      else Answer []
  | None => Answer []
  end.

Definition message_of (msg : RawMessage) (replies : list SlackMessageSchema)
  : SlackMessageSchema :=
  {| msg_id := raw_ts msg;
     msg_text := raw_text msg;
     msg_user := default EmptyString (raw_user msg);
     msg_timestamp := fromtimestamp_text platform (raw_ts msg);
     msg_reactions :=
       match raw_reactions msg with
       | Some reactions => reaction_of <$> reactions
       | None => []
       end;
     msg_replies := replies;
     msg_thread_ts := Some (default EmptyString (raw_thread_ts msg));
     msg_attachments := pa_fields <$> _process_attachments msg |}.

(** The body of the loop over [response["messages"]]. *)
Definition fetch_message (client : WebClient) (channel_id : string)
    (msg : RawMessage) : outcome (list SlackMessageSchema) :=
  if join_or_leave msg then Answer []
  else and_then (thread_replies client channel_id msg)
         (fun replies => Answer [message_of msg replies]).

Definition fetch_messages (client : WebClient) (channel_id : string)
    (limit : Z) : result (list SlackMessageSchema) :=
  except_api
    (fun error =>
       IntegrationError ("Failed to fetch Slack messages: " +:+ error))
    (and_then (conversations_history client channel_id limit) (fun messages =>
       collect messages (fetch_message client channel_id) [])).

(** *** Canvases *)

(** [canvas_info.get("content", {}).get("blocks", [])] *)
Definition canvas_blocks (info : RawCanvasInfo) : list Block :=
  match info_content info with
  | Some (Some blocks) => blocks
  | _ => []
  end.

Definition canvas_of (canvas : RawCanvas) (info : RawCanvasInfo)
  : SlackCanvasSchema :=
  {| canvas_id := rawcanvas_id canvas;
     canvas_title := rawcanvas_title canvas;
     canvas_created :=
       fromtimestamp_int platform (rawcanvas_date_created canvas);
     canvas_creator := rawcanvas_created_by canvas;
     canvas_content := canvas_blocks info;
     canvas_channel_id :=
       Some (default EmptyString (rawcanvas_channel_id canvas)) |}.

Definition fetch_canvas (client : WebClient) (canvas : RawCanvas)
  : outcome (list SlackCanvasSchema) :=
  and_then (canvas_get client (rawcanvas_id canvas))
    (fun info => Answer [canvas_of canvas info]).

(** [fetch_canvases]: the [except] clause logs the [SlackApiError] and
    returns the empty list, whether the listing failed or the reading of one
    canvas. *)
Definition fetch_canvases (client : WebClient)
  : result (list SlackCanvasSchema) :=
  match and_then (canvas_list client) (fun listed =>
          collect (default [] listed) (fetch_canvas client) []) with
  | Answer canvases => ret canvases
  | SlackApiError _ => ret []
  | Raised e => raise e
  end.

(** *** The whole workspace *)

Definition new_workspace (workspace_id : string) (info : TeamInfo)
    (users : list SlackUserSchema) (channels : list SlackChannelSchema)
    (canvases : list SlackCanvasSchema) (now : datetime)
  : SlackWorkspaceSchema :=
  {| ws_id := workspace_id; ws_name := team_name info;
     ws_domain := team_domain info; ws_users := users;
     ws_channels := channels; ws_canvases := canvases;
     ws_extraction_time := now |}.

(** [for channel in channels: channel.messages = self.fetch_messages(...)] *)
Definition with_messages (client : WebClient) (channel : SlackChannelSchema)
  : outcome (list SlackChannelSchema) :=
  and_then (called (fetch_messages client (chan_id channel) 1000))
    (fun messages => Answer [set_messages messages channel]).

Definition fetch_all_workspace_data (clients : gmap string WebClient)
    (now : datetime) (workspace_id : string) : result SlackWorkspaceSchema :=
  match clients !! workspace_id with
  | None =>
      raise (IntegrationError
               ("Workspace " +:+ workspace_id +:+ " not registered"))
  | Some client =>
      except_api
        (fun error =>
           IntegrationError
             ("Failed to fetch Slack workspace data: " +:+ error))
        (and_then (team_info client workspace_id) (fun info =>
         and_then (called (fetch_users client)) (fun users =>
         and_then (called (fetch_channels client)) (fun channels =>
         and_then (collect channels (with_messages client) []) (fun channels =>
         and_then (called (fetch_canvases client)) (fun canvases =>
         Answer (new_workspace workspace_id info users channels canvases
                   now)))))))
  end.

(** [register_workspace]; [connect token] is [WebClient(token=token)]. *)
Definition register_workspace (connect : string -> WebClient)
    (bot_token : string) (clients : gmap string WebClient)
  : result string * gmap string WebClient :=
  match auth_test (connect bot_token) with
  | Answer workspace_id =>
      (ret workspace_id, <[workspace_id := connect bot_token]> clients)
  | SlackApiError error =>
      (raise (IntegrationError
                ("Failed to connect to Slack API: " +:+ error)), clients)
  | Raised e => (raise e, clients)
  end.

(** [__init__]: [bot_token] is [os.environ.get("SLACK_BOT_TOKEN")]; whatever
    the registration of the default workspace raises is logged and dropped. *)
Definition __init__ (connect : string -> WebClient) (bot_token : option string)
  : gmap string WebClient :=
  match bot_token with
  | Some default_bot_token =>
      if Py.truthy default_bot_token
      then (register_workspace connect default_bot_token ∅).2
      else ∅
  | None => ∅
  end.

End Fetch.

End SlackIntegration.

(** ** The request layer: [api/routes/slack.py] *)

Module Routes.

Record HTTPException : Type := {
  status_code : nat;
  detail : string
}.

(** What a route's [try] block can raise: an exception of the services, or an
    [HTTPException] the route raised itself. *)
Inductive thrown : Type :=
| FromService (e : exn)
| FromRoute (h : HTTPException).

(** A route either raises an [HTTPException] or returns its answer. *)
Definition response (A : Type) : Type := (HTTPException + A)%type.

Section Handlers.

(** [str(e)] of an [HTTPException], as the web framework defines it. *)
Context (str_http : HTTPException -> string).

Definition str_thrown (t : thrown) : string :=
  match t with
  | FromService e => str_exn e
  | FromRoute h => str_http h
  end.

(** [except Exception as e: raise HTTPException(500, prefix + str(e))] *)
Definition internal_error {A : Type} (prefix : string) (t : thrown)
  : response A :=
  inl {| status_code := 500; detail := prefix +:+ str_thrown t |}.


(** [SlackAIProcessingRequestSchema] *)
Record SlackAIProcessingRequestSchema : Type := {
  request_workspace_id : string;
  request_process_channels : list string;
  request_process_canvases : bool;
  request_max_message_age_days : option Z;
  request_instruction : option string
}.

(** The dictionary [process_workspace_data] answers with. *)
Record ProcessingStarted : Type := {
  started_task_id : string;
  started_status : string;
  started_message : string
}.

(** POST /slack/process; [task_id] and [now] are what the service draws. *)
Definition process_workspace_data
    (clients : gmap string SlackIntegration.WebClient)
    (task_id : string) (now : datetime)
    (request : SlackAIProcessingRequestSchema) (s : Service)
  : response ProcessingStarted * Service :=
  match clients !! request_workspace_id request with
  | None =>
      (internal_error "Failed to start processing: "
         (FromRoute
            {| status_code := 404;
               detail := "Workspace " +:+ request_workspace_id request
                           +:+ " not found" |}), s)
  | Some _ =>
      let started :=
        start_processing_task task_id now (request_workspace_id request)
          (Some (request_process_channels request))
          (request_process_canvases request)
          (request_max_message_age_days request)
          (request_instruction request) s in
      (inr {| started_task_id := started.1;
              started_status := "processing";
              started_message := "AI processing started in the background" |},
       started.2)
  end.



(** POST /slack/extract: an [IntegrationError] becomes a 400 with its
    message, anything else a 500. *)
Definition extract_workspace_data (platform : SlackIntegration.Platform)
    (clients : gmap string SlackIntegration.WebClient) (now : datetime)
    (workspace_id : string) : response SlackWorkspaceSchema :=
  match SlackIntegration.fetch_all_workspace_data platform clients now
          workspace_id with
  | inr workspace_data => inr workspace_data
  | inl (IntegrationError msg) => inl {| status_code := 400; detail := msg |}
  | inl e =>
      inl {| status_code := 500;
             detail := "Failed to extract workspace data: " +:+ str_exn e |}
  end.

(** The dictionary [connect_slack_workspace] answers with. *)
Record Connected : Type := {
  connected_workspace_id : string;
  connected_message : string
}.

(** POST /slack/connect: only [IntegrationError] is handled (a 400); any
    other exception leaves the route as it is. *)
Definition connect_slack_workspace (connect : string -> SlackIntegration.WebClient)
    (bot_token : string) (clients : gmap string SlackIntegration.WebClient)
  : (thrown + Connected) * gmap string SlackIntegration.WebClient :=
  let registered :=
    SlackIntegration.register_workspace connect bot_token clients in
  match registered.1 with
  | inr workspace_id =>
      (inr {| connected_workspace_id := workspace_id;
              connected_message :=
                "Successfully connected to Slack workspace" |}, registered.2)
  | inl (IntegrationError msg) =>
      (inl (FromRoute {| status_code := 400; detail := msg |}), registered.2)
  | inl e => (inl (FromService e), registered.2)
  end.

End Handlers.

End Routes.

(** ** Sample data for the integration service *)

Module Fixture.

Definition platform : SlackIntegration.Platform :=
  {| SlackIntegration.fromtimestamp_text := fun _ => Demo.now;
     SlackIntegration.fromtimestamp_int := fun _ => Demo.day 730000 |}.

(** The collaborators of [Demo.services], with the fetch done by the
    integration service on [registered]. *)
Definition services (registered : gmap string SlackIntegration.WebClient) : Services :=
  {| fetch_all_workspace_data :=
       SlackIntegration.fetch_all_workspace_data platform registered Demo.now;
     split_documents := fun documents => documents;
     from_documents := fun documents => ret (FaissIndex documents);
     chain_run := fun _ _ => ret "ok";
     json_loads := fun _ => None;
     validate_result := ret;
     type_error := fun _ _ => "unsupported operand";
     isoformat := pretty;
     strftime_minutes := pretty;
     now_at_filter := Demo.now;
     now_at_result := Demo.now;
     now_at_end := Demo.now |}.

Import SlackIntegration.

Definition raw_message (ts text : string) (subtype thread_ts : option string)
    (reply_count : option Z) : RawMessage :=
  {| raw_ts := ts; raw_text := text; raw_user := Some "U1";
     raw_subtype := subtype; raw_thread_ts := thread_ts;
     raw_reply_count := reply_count; raw_reactions := None;
     raw_attachments := None; raw_files := None |}.

(** A thread parent with one reply, and a join notice. *)
Definition parent : RawMessage :=
  raw_message "100.1" "shall we?" None (Some "100.1") (Some 1).

Definition reply : RawMessage :=
  raw_message "100.2" "yes" None (Some "100.1") None.

Definition joined : RawMessage :=
  raw_message "99.0" "alice joined" (Some "channel_join") None None.

Definition member (id name : string) (bot : option bool) : RawMember :=
  {| member_id := id; member_name := name; member_real_name := None;
     member_is_bot := bot; member_deleted := None; member_profile := None;
     member_is_admin := None |}.

Definition general : RawChannel :=
  {| rawchan_id := "C1"; rawchan_name := "general";
     rawchan_is_private := false; rawchan_created := 1700000000;
     rawchan_creator := None |}.

(** A client whose token may not list private channels; [canvases] is the
    answer of the canvas listing. *)
Definition client (canvases : outcome (option (list RawCanvas))) : WebClient :=
  {| auth_test := Answer "T1";
     team_info := fun _ => Answer {| team_name := "Acme"; team_domain := "acme" |};
     users_list := Answer [member "U1" "alice" None; member "B1" "bot" (Some true)];
     conversations_list := fun types =>
       if String.eqb types "public_channel" then Answer [general]
       else SlackApiError "missing_scope";
     conversations_history := fun _ _ => Answer [joined; parent];
     conversations_replies := fun _ _ => Answer [parent; reply];
     canvas_list := canvases;
     canvas_get := fun _ => SlackApiError "canvas_not_found" |}.

Definition clients (canvases : outcome (option (list RawCanvas)))
  : gmap string WebClient :=
  {[ "T1" := client canvases ]}.

(** A workspace whose first channel has no message and whose second has. *)
Definition shifted : SlackWorkspaceSchema :=
  Demo.workspace [Demo.random; Demo.general] [].

End Fixture.

(** * Properties *)

(** ** The exception monad *)

Lemma bind_ret_inv {A B : Type} (r : result A) (k : A -> result B) (b : B) :
  bind r k = ret b -> exists a, r = ret a /\ k a = ret b.
Proof. destruct r as [e|a]; [done|]. simpl. eauto. Qed.

(** ** The registry *)

Section Registry.

Implicit Types (s : Service) (t : Task) (tasks : gmap string Task).

Lemma get_task_status_pure task_id s : (get_task_status task_id s).2 = s.
Proof. unfold get_task_status. by destruct (processing_tasks s !! task_id). Qed.

Lemma get_task_results_pure task_id s : (get_task_results task_id s).2 = s.
Proof.
  unfold get_task_results.
  destruct (processing_tasks s !! task_id); [case_bool_decide|]; done.
Qed.

Lemma alter_entry (write : Task -> Task) task_id tasks i :
  alter write task_id tasks !! i =
  if decide (task_id = i) then write <$> tasks !! i else tasks !! i.
Proof.
  destruct (decide (task_id = i)) as [->|Hne].
  - by rewrite lookup_alter_eq.
  - by rewrite lookup_alter_ne.
Qed.

Lemma mark_processing_lookup task_id tasks i :
  mark_processing task_id tasks !! i =
  if decide (task_id = i) then set_status "processing" <$> tasks !! i
  else tasks !! i.
Proof. apply alter_entry. Qed.

Lemma store_outcome_lookup task_id now outcome tasks i :
  store_outcome task_id now outcome tasks !! i =
  if decide (task_id = i) then close_task now outcome <$> tasks !! i
  else tasks !! i.
Proof. apply alter_entry. Qed.

Lemma close_task_closed now outcome t :
  fresh_fields t -> closed_task (close_task now outcome t).
Proof.
  intros (Hc & Hr & He). destruct outcome as [e|res]; [right|left]; simpl;
    rewrite ?Hr, ?He; eauto.
Qed.

(** The three closing assignments, one after the other, are [close_task]. *)
Lemma written_task_all now outcome t :
  written_task now outcome 3 t = close_task now outcome t.
Proof. by destruct outcome. Qed.

Lemma written_task_next now outcome written write t :
  closing_writes now outcome !! written = Some write ->
  written_task now outcome (S written) t
  = write (written_task now outcome written t).
Proof.
  destruct outcome; destruct written as [|[|[|n]]]; simpl; intros H;
    try discriminate H; by injection H as <-.
Qed.

Lemma closing_writes_bound now outcome written write :
  closing_writes now outcome !! written = Some write -> (written < 3)%nat.
Proof.
  intros H%lookup_lt_Some. by destruct outcome.
Qed.

(** What an entry looks like while its thread makes the closing
    assignments: the status is written first. *)
Lemma written_task_fields now outcome written t :
  task_status t = "processing" -> fresh_fields t -> (written <= 3)%nat ->
  let t' := written_task now outcome written t in
  task_workspace_id t' = task_workspace_id t
  /\ task_started_at t' = task_started_at t
  /\ task_parameters t' = task_parameters t
  /\ task_status t' =
     match written, outcome with
     | O, _ => "processing"
     | _, inr _ => "completed"
     | _, inl _ => "failed"
     end
  /\ task_completed_at t' =
     match outcome with
     | inr _ => if (2 <=? written)%nat then Some now else None
     | inl _ => if (3 <=? written)%nat then Some now else None
     end
  /\ task_results t' =
     match outcome with
     | inr res => if (3 <=? written)%nat then Some res else None
     | inl _ => None
     end
  /\ task_error t' =
     match outcome with
     | inr _ => None
     | inl e => if (2 <=? written)%nat then Some (str_exn e) else None
     end.
Proof.
  intros Hst (Hc & Hr & He) Hw.
  destruct outcome; destruct written as [|[|[|[|n]]]]; try lia; simpl;
    by rewrite ?Hst, ?Hc, ?Hr, ?He.
Qed.

Lemma nodup_fmap_middle {A B : Type} (f : A -> B) (l1 l2 : list A) (x : A) :
  NoDup (f <$> (l1 ++ x :: l2)) ->
  NoDup (f <$> (l1 ++ l2)) /\ forall y, y ∈ l1 ++ l2 -> f y <> f x.
Proof.
  rewrite !fmap_app, fmap_cons.
  intros (H1 & H2 & (H4 & H5)%NoDup_cons)%NoDup_app. split.
  - apply NoDup_app. split_and!; [done| |done].
    intros z Hz Hz'. apply (H2 z Hz). by right.
  - intros y [Hy|Hy]%elem_of_app Heq.
    + apply (H2 (f y)); [apply list_elem_of_fmap; eauto|]. rewrite Heq. by left.
    + apply H4. rewrite <- Heq. apply list_elem_of_fmap; eauto.
Qed.

Lemma pending_ids_elem s task_id :
  task_id ∈ pending_ids s <->
  (exists item, wi_task_id item = task_id /\ item ∈ submitted s)
  \/ (exists thread, wi_task_id (thread_item thread) = task_id
                     /\ thread ∈ running s).
Proof.
  unfold pending_ids. rewrite list_elem_of_fmap. split.
  - intros (item & -> & [Hin|Hin]%elem_of_app); [left; eauto|right].
    apply list_elem_of_fmap in Hin as (thread & -> & Hin). eauto.
  - intros [(item & <- & Hin)|(thread & <- & Hin)].
    + exists item. split; [done|]. apply elem_of_app. by left.
    + exists (thread_item thread). split; [done|]. apply elem_of_app. right.
      apply list_elem_of_fmap. eauto.
Qed.

Lemma pending_registered s task_id :
  service_inv s -> task_id ∈ pending_ids s ->
  is_Some (processing_tasks s !! task_id).
Proof.
  intros Hinv [(item & <- & Hin)|(thread & <- & Hin)]%pending_ids_elem.
  - destruct (inv_submitted s Hinv item Hin) as (t & -> & _). eauto.
  - destruct (inv_running s Hinv thread Hin) as (t & -> & _). eauto.
Qed.

(** A thread of the pool and the rest of the pending work are on different
    tasks. *)
Lemma running_others s before thread after :
  NoDup (pending_ids s) -> running s = before ++ thread :: after ->
  NoDup (wi_task_id <$> (submitted s ++ (thread_item <$> (before ++ after))))
  /\ (forall item, item ∈ submitted s ->
        wi_task_id item <> wi_task_id (thread_item thread))
  /\ (forall th, th ∈ before ++ after ->
        wi_task_id (thread_item th) <> wi_task_id (thread_item thread)).
Proof.
  unfold pending_ids. intros Hnd Hrun. rewrite Hrun in Hnd.
  rewrite (fmap_app thread_item), fmap_cons, (assoc_L (++)) in Hnd.
  destruct (nodup_fmap_middle wi_task_id _ _ _ Hnd) as [Hnd' Hdiff].
  split_and!.
  - by rewrite (fmap_app thread_item), (assoc_L (++)).
  - intros item Hin. apply Hdiff. apply elem_of_app. left.
    apply elem_of_app. by left.
  - intros th [Hin|Hin]%elem_of_app; apply Hdiff.
    + apply elem_of_app. left. apply elem_of_app. right.
      apply list_elem_of_fmap. eauto.
    + apply elem_of_app. right. apply list_elem_of_fmap. eauto.
Qed.

Lemma thread_items_replace before th th' after :
  thread_item th' = thread_item th ->
  thread_item <$> (before ++ th' :: after)
  = thread_item <$> (before ++ th :: after).
Proof. intros H. by rewrite !fmap_app, !fmap_cons, H. Qed.

Lemma elem_of_middle {A : Type} (x y : A) (l1 l2 : list A) :
  x ∈ l1 ++ y :: l2 <-> x = y \/ x ∈ l1 ++ l2.
Proof. rewrite !elem_of_app, elem_of_cons. tauto. Qed.

Lemma inv_new : service_inv new_service.
Proof.
  split; simpl.
  - constructor.
  - intros item Hin. by apply elem_of_nil in Hin.
  - intros item Hin. by apply elem_of_nil in Hin.
  - intros task_id t Hl. by rewrite lookup_empty in Hl.
  - unfold max_workers. lia.
Qed.

(** A transition that rewrites the entry of one thread's task and puts the
    thread in a new position keeps the invariant. *)
Lemma inv_thread_moves s before thread thread' after (write : Task -> Task) :
  service_inv s -> running s = before ++ thread :: after ->
  thread_item thread' = thread_item thread ->
  (forall t, thread_entry thread t -> thread_entry thread' (write t)) ->
  service_inv
    {| processing_tasks :=
         alter write (wi_task_id (thread_item thread)) (processing_tasks s);
       submitted := submitted s;
       running := before ++ thread' :: after |}.
Proof.
  intros Hinv Hrun Hitem Hentry.
  destruct (running_others s before thread after (inv_nodup s Hinv) Hrun)
    as (Hnd & Hsub & Hoth).
  assert (Hpend : forall i,
    i ∈ pending_ids {| processing_tasks :=
                          alter write (wi_task_id (thread_item thread))
                            (processing_tasks s);
                        submitted := submitted s;
                        running := before ++ thread' :: after |}
    <-> i ∈ pending_ids s).
  { intros i. unfold pending_ids. cbn [submitted running].
    by rewrite Hrun, (thread_items_replace before thread thread' after). }
  split; cbn [processing_tasks submitted running].
  - pose proof (inv_nodup s Hinv) as H. unfold pending_ids in *.
    cbn [submitted running].
    by rewrite (thread_items_replace before thread thread' after), <- Hrun.
  - intros item Hin.
    destruct (inv_submitted s Hinv item Hin) as (t & Ht & Hst).
    exists t. split; [|done]. rewrite alter_entry, decide_False; [done|].
    intros Heq. by eapply Hsub.
  - intros th [->|Hin]%elem_of_middle.
    + destruct (inv_running s Hinv thread) as (t & Ht & Hte).
      { rewrite Hrun. apply elem_of_middle. by left. }
      exists (write t). rewrite Hitem, alter_entry, decide_True, Ht by done.
      split; [done|]. by apply Hentry.
    + destruct (inv_running s Hinv th) as (t & Ht & Hte).
      { rewrite Hrun. apply elem_of_middle. by right. }
      exists t. split; [|done]. rewrite alter_entry, decide_False; [done|].
      intros Heq. by eapply Hoth.
  - intros i t Hl Hni. rewrite alter_entry in Hl.
    destruct (decide (wi_task_id (thread_item thread) = i)) as [<-|Hne].
    + exfalso. apply Hni, Hpend, pending_ids_elem. right. exists thread.
      split; [done|]. rewrite Hrun. apply elem_of_middle. by left.
    + apply (inv_closed s Hinv i t Hl). intros Hin. by apply Hni, Hpend.
  - pose proof (inv_workers s Hinv) as Hw. rewrite Hrun in Hw.
    rewrite length_app in *. simpl in *. lia.
Qed.

Lemma alter_same (tasks : gmap string Task) task_id :
  alter (fun t => t) task_id tasks = tasks.
Proof.
  apply map_eq. intros i. rewrite alter_entry.
  destruct (decide (task_id = i)); [|done]. by destruct (tasks !! i).
Qed.

Lemma inv_step s s' : service_inv s -> step s s' -> service_inv s'.
Proof.
  intros Hinv Hstep. destruct Hstep as
    [s task_id now wid chs inc age ci Hfresh | s task_id | s task_id
    | s item rest Hq Hfree | s env before item after Hrun
    | s before item now outcome written write after Hrun Hwrite
    | s before item now outcome after Hrun].
  - (* submit *)
    set (item := {| wi_task_id := task_id; wi_workspace_id := wid;
                    wi_channels := chs; wi_include_canvases := inc;
                    wi_max_age_days := age; wi_custom_instruction := ci |}).
    assert (Hnew : task_id ∉ pending_ids s).
    { intros Hin. destruct (pending_registered s task_id Hinv Hin) as [t Ht].
      congruence. }
    assert (Hother : forall i, i ∈ pending_ids s -> task_id <> i).
    { intros i Hin ->. done. }
    split; simpl.
    + unfold pending_ids; simpl. rewrite <- (assoc_L (++)). simpl.
      rewrite fmap_app, fmap_cons. apply NoDup_app.
      pose proof (inv_nodup s Hinv) as Hnd. unfold pending_ids in Hnd.
      rewrite fmap_app in Hnd. apply NoDup_app in Hnd as (Hn1 & Hn2 & Hn3).
      split_and!; [done| |].
      * intros i Hi [->|Hi']%elem_of_cons; [|by eapply Hn2].
        apply Hnew. unfold pending_ids. rewrite fmap_app, elem_of_app. by left.
      * apply NoDup_cons. split; [|done].
        intros Hi. apply Hnew. unfold pending_ids.
        rewrite fmap_app, elem_of_app. by right.
    + intros item' [Hin| ->%list_elem_of_singleton]%elem_of_app.
      * destruct (inv_submitted s Hinv item' Hin) as (t & Ht & Hst).
        exists t. split; [|done]. rewrite lookup_insert_ne; [done|].
        apply Hother, pending_ids_elem. eauto.
      * eexists. rewrite lookup_insert_eq. repeat split.
    + intros thread Hin.
      destruct (inv_running s Hinv thread Hin) as (t & Ht & Hst).
      exists t. split; [|done]. rewrite lookup_insert_ne; [done|].
      apply Hother, pending_ids_elem. eauto.
    + intros i t Hl Hni. destruct (decide (task_id = i)) as [->|Hne].
      * exfalso. apply Hni, pending_ids_elem. left. exists item.
        split; [done|]. simpl. apply elem_of_app. right. by left.
      * rewrite lookup_insert_ne in Hl by done.
        apply (inv_closed s Hinv i t Hl). intros Hin. apply Hni.
        apply pending_ids_elem in Hin as [(it & Hid & Hw)|(th & Hid & Hw)];
          apply pending_ids_elem; [left|right; eauto].
        exists it. split; [done|]. simpl. apply elem_of_app. by left.
    + apply (inv_workers s Hinv).
  - by rewrite get_task_status_pure.
  - by rewrite get_task_results_pure.
  - (* the worker's first statement *)
    pose proof (inv_nodup s Hinv) as Hnd. unfold pending_ids in Hnd.
    rewrite Hq in Hnd.
    destruct (nodup_fmap_middle wi_task_id []
                (rest ++ (thread_item <$> running s)) item Hnd)
      as [Hnd' Hdiff]. simpl in Hnd', Hdiff.
    destruct (inv_submitted s Hinv item) as (t0 & Ht0 & Hst0 & Hfr0).
    { rewrite Hq. by left. }
    split; simpl.
    + unfold pending_ids; simpl. rewrite (fmap_app thread_item). simpl.
      rewrite (assoc_L (++)).
      rewrite fmap_app. apply NoDup_app. split_and!; [done| |].
      * intros i Hi ->%list_elem_of_singleton.
        apply list_elem_of_fmap in Hi as (y & Hy & Hin). by eapply Hdiff.
      * apply NoDup_singleton.
    + intros item' Hin.
      destruct (inv_submitted s Hinv item') as (t & Ht & Hst).
      { rewrite Hq. by right. }
      exists t. split; [|done]. rewrite mark_processing_lookup.
      rewrite decide_False; [done|].
      intros Heq. eapply Hdiff; [|by symmetry]. apply elem_of_app. by left.
    + intros thread [Hin| ->%list_elem_of_singleton]%elem_of_app.
      * destruct (inv_running s Hinv thread Hin) as (t & Ht & Hst).
        exists t. split; [|done]. rewrite mark_processing_lookup.
        rewrite decide_False; [done|].
        intros Heq. eapply Hdiff; [|by symmetry]. apply elem_of_app. right.
        apply list_elem_of_fmap. eauto.
      * exists (set_status "processing" t0). simpl.
        rewrite mark_processing_lookup, decide_True, Ht0 by done. done.
    + intros i t Hl Hni. rewrite mark_processing_lookup in Hl.
      destruct (decide (wi_task_id item = i)) as [<-|Hne].
      * exfalso. apply Hni, pending_ids_elem. right. exists (Working item).
        split; [done|]. simpl. apply elem_of_app. right. by left.
      * apply (inv_closed s Hinv i t Hl). intros Hin. apply Hni.
        apply pending_ids_elem in Hin as [(it & Hid & Hw)|(th & Hid & Hw)];
          apply pending_ids_elem.
        -- rewrite Hq in Hw. apply elem_of_cons in Hw as [->|Hw]; [done|].
           left. eauto.
        -- right. exists th. split; [done|]. simpl. apply elem_of_app.
           by left.
    + rewrite length_app. simpl. unfold max_workers in *. lia.
  - (* the body is left *)
    rewrite <- (alter_same (processing_tasks s) (wi_task_id item)).
    apply (inv_thread_moves s before (Working item)
             (Closing item (now_at_end env) (pipeline env item) 0) after
             (fun t => t)); [done..|].
    intros t [Hst Hfr]. split; [lia|]. by exists t.
  - (* one closing assignment *)
    apply (inv_thread_moves s before (Closing item now outcome written)
             (Closing item now outcome (S written)) after write); [done..|].
    intros t (Hle & t0 & Hst & Hfr & ->). split.
    + apply closing_writes_bound in Hwrite. lia.
    + exists t0. split_and!; [done..|]. symmetry. by apply written_task_next.
  - (* the thread is done *)
    destruct (running_others s before _ after (inv_nodup s Hinv) Hrun)
      as (Hnd & Hsub & Hoth).
    destruct (inv_running s Hinv (Closing item now outcome 3))
      as (t & Ht & _ & t0 & Hst0 & Hfr0 & ->).
    { rewrite Hrun. apply elem_of_middle. by left. }
    split; cbn [processing_tasks submitted running].
    + done.
    + apply (inv_submitted s Hinv).
    + intros th Hin. apply (inv_running s Hinv). rewrite Hrun.
      apply elem_of_middle. by right.
    + intros i t Hl Hni.
      destruct (decide (wi_task_id item = i)) as [<-|Hne].
      * simpl in Ht. rewrite Ht in Hl. injection Hl as <-.
        rewrite written_task_all. by apply close_task_closed.
      * apply (inv_closed s Hinv i t Hl). intros Hin. apply Hni.
        apply pending_ids_elem in Hin as [(it & Hid & Hw)|(th & Hid & Hw)];
          apply pending_ids_elem; [left; eauto|right].
        exists th. split; [done|]. cbn [running]. rewrite Hrun in Hw.
        apply elem_of_middle in Hw as [->|Hw]; [done|done].
    + pose proof (inv_workers s Hinv) as Hw. rewrite Hrun in Hw.
      rewrite length_app in *. simpl in Hw. lia.
Qed.

Lemma reachable_inv s : reachable s -> service_inv s.
Proof.
  intros Hr. unfold reachable in Hr.
  apply (rtc_ind_r (R := step) service_inv new_service); [apply inv_new| |done].
  intros y z _ Hstep Hy. by eapply inv_step.
Qed.

Lemma process_workspace_data_entry env item tasks t :
  tasks !! wi_task_id item = Some t ->
  _process_workspace_data env item tasks !! wi_task_id item =
  Some (close_task (now_at_end env) (pipeline env item)
          (set_status "processing" t)).
Proof.
  intros Hl. unfold _process_workspace_data. rewrite Hl.
  rewrite store_outcome_lookup, decide_True by done.
  rewrite mark_processing_lookup, decide_True by done. by rewrite Hl.
Qed.

Lemma settled_refl t : settled t t.
Proof. by repeat split. Qed.

Lemma settled_trans t1 t2 t3 : settled t1 t2 -> settled t2 t3 -> settled t1 t3.
Proof.
  intros (H1 & H2 & H3 & H4 & H5 & H6 & H7) (G1 & G2 & G3 & G4 & G5 & G6 & G7).
  split_and!; [congruence..| | |]; eauto.
Qed.

(** What one closing assignment does to the entry it is made on. *)
Lemma closing_write_entry now outcome written write t0 :
  task_status t0 = "processing" -> fresh_fields t0 ->
  closing_writes now outcome !! written = Some write ->
  (task_status (write (written_task now outcome written t0))
   = task_status (written_task now outcome written t0)
   \/ status_next (task_status (written_task now outcome written t0))
        (task_status (write (written_task now outcome written t0))))
  /\ (terminal (task_status (written_task now outcome written t0)) ->
      settled (written_task now outcome written t0)
        (write (written_task now outcome written t0))).
Proof.
  intros Hst (Hc & Hr & He) Hw. unfold settled, terminal, status_next.
  destruct outcome; destruct written as [|[|[|n]]]; simpl in Hw;
    try discriminate Hw; injection Hw as <-; unfold written_task; simpl;
    rewrite ?Hst, ?Hc, ?Hr, ?He;
    (split; [first [by left
                   |right; right; split; [done|]; first [by left|by right]]
            |intros [Ht|Ht]; try discriminate Ht; by split_and!]).
Qed.

(** What one transition does to one registry entry. *)
Lemma step_entry s s' task_id :
  service_inv s -> step s s' ->
  match processing_tasks s !! task_id with
  | None =>
      forall t', processing_tasks s' !! task_id = Some t' ->
                 task_status t' = "queued"
  | Some t =>
      exists t', processing_tasks s' !! task_id = Some t'
        /\ (task_status t' = task_status t
            \/ status_next (task_status t) (task_status t'))
        /\ (terminal (task_status t) -> settled t t')
        /\ (task_id ∉ pending_ids s -> t' = t /\ task_id ∉ pending_ids s')
  end.
Proof.
  intros Hinv Hstep. destruct Hstep as
    [s id0 now wid chs inc age ci Hfresh | s id0 | s id0
    | s item rest Hq Hfree | s env before item after Hrun
    | s before item now outcome written write after Hrun Hwrite
    | s before item now outcome after Hrun]; cbn [processing_tasks].
  - simpl. destruct (decide (id0 = task_id)) as [->|Hne].
    + rewrite Hfresh, lookup_insert_eq. by intros t' [= <-].
    + rewrite lookup_insert_ne by done.
      destruct (processing_tasks s !! task_id) as [t|] eqn:Hl; [|done].
      exists t. split_and!; [done|by left|intros; apply settled_refl|].
      intros Hout. split; [done|].
      intros [(it & Hid & Hw)|(th & Hid & Hw)]%pending_ids_elem;
        apply Hout, pending_ids_elem.
      * simpl in Hw. apply elem_of_app in Hw as [Hw|Hw]; [left; eauto|].
        apply list_elem_of_singleton in Hw as ->. done.
      * right. eauto.
  - rewrite get_task_status_pure.
    destruct (processing_tasks s !! task_id) as [t|]; [|done].
    exists t. split_and!; [done|by left|intros; apply settled_refl|done].
  - rewrite get_task_results_pure.
    destruct (processing_tasks s !! task_id) as [t|]; [|done].
    exists t. split_and!; [done|by left|intros; apply settled_refl|done].
  - rewrite mark_processing_lookup.
    destruct (decide (wi_task_id item = task_id)) as [<-|Hne].
    + destruct (inv_submitted s Hinv item) as (t & -> & Hst & _).
      { rewrite Hq. by left. }
      simpl. eexists. split; [done|]. rewrite Hst. split_and!.
      * right. left. done.
      * intros [?|?]; discriminate.
      * intros Hout. exfalso. apply Hout, pending_ids_elem. left.
        exists item. split; [done|]. rewrite Hq. by left.
    + destruct (processing_tasks s !! task_id) as [t|]; [|done].
      exists t. split_and!; [done|by left|intros; apply settled_refl|].
      intros Hout. split; [done|].
      intros [(it & Hid & Hw)|(th & Hid & Hw)]%pending_ids_elem;
        apply Hout, pending_ids_elem.
      * left. exists it. split; [done|]. rewrite Hq. by right.
      * simpl in Hw. apply elem_of_app in Hw as [Hw|Hw]; [right; eauto|].
        apply list_elem_of_singleton in Hw as ->. done.
  - destruct (processing_tasks s !! task_id) as [t|]; [|done].
    exists t. split_and!; [done|by left|intros; apply settled_refl|].
    intros Hout. split; [done|].
    intros [(it & Hid & Hw)|(th & Hid & Hw)]%pending_ids_elem;
      apply Hout, pending_ids_elem; [left; eauto|right].
    simpl in Hw. apply elem_of_middle in Hw as [->|Hw].
    + exists (Working item). split; [done|]. rewrite Hrun.
      apply elem_of_middle. by left.
    + exists th. split; [done|]. rewrite Hrun. apply elem_of_middle. by right.
  - rewrite alter_entry.
    destruct (decide (wi_task_id item = task_id)) as [<-|Hne].
    + destruct (inv_running s Hinv (Closing item now outcome written))
        as (t & Ht & _ & t0 & Hst0 & Hfr0 & ->).
      { rewrite Hrun. apply elem_of_middle. by left. }
      simpl in Ht. rewrite Ht. simpl. eexists. split; [done|].
      destruct (closing_write_entry now outcome written write t0 Hst0 Hfr0
                  Hwrite) as [Hmove Hset].
      split_and!; [done|done|].
      intros Hout. exfalso. apply Hout, pending_ids_elem. right.
      exists (Closing item now outcome written). split; [done|].
      rewrite Hrun. apply elem_of_middle. by left.
    + destruct (processing_tasks s !! task_id) as [t|]; [|done].
      exists t. split_and!; [done|by left|intros; apply settled_refl|].
      intros Hout. split; [done|].
      intros [(it & Hid & Hw)|(th & Hid & Hw)]%pending_ids_elem;
        apply Hout, pending_ids_elem; [left; eauto|right].
      simpl in Hw. apply elem_of_middle in Hw as [->|Hw].
      * exists (Closing item now outcome written). split; [done|].
        rewrite Hrun. apply elem_of_middle. by left.
      * exists th. split; [done|]. rewrite Hrun. apply elem_of_middle.
        by right.
  - destruct (processing_tasks s !! task_id) as [t|]; [|done].
    exists t. split_and!; [done|by left|intros; apply settled_refl|].
    intros Hout. split; [done|].
    intros [(it & Hid & Hw)|(th & Hid & Hw)]%pending_ids_elem;
      apply Hout, pending_ids_elem; [left; eauto|right].
    exists th. split; [done|]. rewrite Hrun. apply elem_of_middle. by right.
Qed.

(** Once the status of an entry is completed or failed it stays, and what
    is written in the entry stays; once the task's thread is done the whole
    entry stays. *)
Lemma terminal_entry_settled s s' task_id t :
  reachable s -> rtc step s s' ->
  processing_tasks s !! task_id = Some t -> terminal (task_status t) ->
  exists t', processing_tasks s' !! task_id = Some t' /\ settled t t'.
Proof.
  intros Hreach Hsteps. revert t Hreach.
  induction Hsteps as [s|s s1 s' Hstep Hsteps IH]; intros t Hreach Hl Hterm.
  - exists t. split; [done|apply settled_refl].
  - pose proof (step_entry s s1 task_id (reachable_inv s Hreach) Hstep) as H.
    rewrite Hl in H. destruct H as (t1 & Ht1 & _ & Hset & _).
    specialize (Hset Hterm).
    destruct (IH t1) as (t' & Ht' & Hset').
    + by eapply rtc_r.
    + done.
    + destruct Hset as [-> _]. done.
    + exists t'. split; [done|]. by eapply settled_trans.
Qed.

Lemma finished_entry_frozen s s' task_id t :
  reachable s -> rtc step s s' ->
  processing_tasks s !! task_id = Some t -> task_id ∉ pending_ids s ->
  processing_tasks s' !! task_id = Some t /\ task_id ∉ pending_ids s'.
Proof.
  intros Hreach Hsteps. revert Hreach.
  induction Hsteps as [s|s s1 s' Hstep Hsteps IH]; [done|].
  intros Hreach Hl Hout.
  pose proof (step_entry s s1 task_id (reachable_inv s Hreach) Hstep) as H.
  rewrite Hl in H. destruct H as (t1 & Ht1 & _ & _ & Hfrozen).
  destruct (Hfrozen Hout) as [-> Hout1]. apply IH; [|done..].
  by eapply rtc_r.
Qed.

Lemma reachable_statuses s task_id t :
  reachable s -> processing_tasks s !! task_id = Some t ->
  task_status t ∈ ["queued"; "processing"; "completed"; "failed"].
Proof.
  intros Hinv%reachable_inv Hl.
  destruct (decide (task_id ∈ pending_ids s)) as [Hin|Hout].
  - apply pending_ids_elem in Hin as [(item & <- & Hin)|(thread & <- & Hin)].
    + destruct (inv_submitted s Hinv item Hin) as (t' & Ht' & Hst & _).
      assert (t' = t) as -> by congruence. rewrite Hst. set_solver.
    + destruct (inv_running s Hinv thread Hin) as (t' & Ht' & Hte).
      assert (t' = t) as -> by congruence.
      destruct thread as [item|item now outcome written]; simpl in Hte.
      * destruct Hte as [-> _]. set_solver.
      * destruct Hte as (Hle & t0 & Hst0 & Hfr0 & ->).
        destruct (written_task_fields now outcome written t0 Hst0 Hfr0 Hle)
          as (_ & _ & _ & -> & _).
        destruct written, outcome; set_solver.
  - destruct (inv_closed s Hinv task_id t Hl Hout) as [(-> & _)|(-> & _)];
      set_solver.
Qed.

(** The worker's transitions on one task, one after the other: the body,
    then the closing assignments. *)
Lemma closing_run s env before item after written :
  running s = before ++ Working item :: after -> (written <= 3)%nat ->
  rtc step s
    {| processing_tasks :=
         alter (written_task (now_at_end env) (pipeline env item) written)
           (wi_task_id item) (processing_tasks s);
       submitted := submitted s;
       running :=
         before
         ++ Closing item (now_at_end env) (pipeline env item) written
            :: after |}.
Proof.
  intros Hrun. induction written as [|n IH]; intros Hle.
  - apply rtc_once.
    change (written_task (now_at_end env) (pipeline env item) 0)
      with (fun t : Task => t).
    rewrite alter_same. by apply step_body.
  - eapply rtc_r; [apply IH; lia|].
    destruct (lookup_lt_is_Some_2
                (closing_writes (now_at_end env) (pipeline env item)) n)
      as [write Hwrite].
    { destruct (pipeline env item); simpl; lia. }
    replace (alter (written_task (now_at_end env) (pipeline env item) (S n))
               (wi_task_id item) (processing_tasks s))
      with (alter write (wi_task_id item)
              (alter (written_task (now_at_end env) (pipeline env item) n)
                 (wi_task_id item) (processing_tasks s))).
    + by refine (step_write _ before item _ _ n write after _ _).
    + apply map_eq. intros i. rewrite !alter_entry.
      destruct (decide (wi_task_id item = i)); [|done].
      destruct (processing_tasks s !! i); simpl; [|done].
      f_equal. symmetry. by apply written_task_next.
Qed.

(** They end in the state [_process_workspace_data] leaves. *)
Lemma worker_run s env before item after :
  running s = before ++ Working item :: after ->
  rtc step s
    {| processing_tasks :=
         store_outcome (wi_task_id item) (now_at_end env) (pipeline env item)
           (processing_tasks s);
       submitted := submitted s;
       running := before ++ after |}.
Proof.
  intros Hrun. eapply rtc_r; [apply (closing_run s env before item after 3);
                               [done|lia]|].
  replace (store_outcome (wi_task_id item) (now_at_end env) (pipeline env item)
             (processing_tasks s))
    with (alter (written_task (now_at_end env) (pipeline env item) 3)
            (wi_task_id item) (processing_tasks s)).
  - by refine (step_done _ before item (now_at_end env) (pipeline env item)
                 after _).
  - unfold store_outcome. apply alter_ext. intros t _.
    apply written_task_all.
Qed.

(** C1, as the code has it.  In every reachable state of the service each
    task's status is one of queued, processing, completed, failed; a task
    enters the registry as queued; every transition leaves a task's status
    where it is or moves it one step along queued -> processing ->
    completed | failed; once a task's status is completed or failed, no
    sequence of transitions changes the status, and none changes a
    completion time, a result or an error that is written in the entry; once
    the task's thread is done, no sequence of transitions changes the entry
    at all; and [_process_workspace_data], run on an accepted task, writes
    processing first and leaves the task completed or failed. *)
Theorem task_status_state_machine s :
  reachable s ->
  (forall task_id t, processing_tasks s !! task_id = Some t ->
     task_status t ∈ ["queued"; "processing"; "completed"; "failed"])
  /\ (forall s' task_id, step s s' ->
        match processing_tasks s !! task_id with
        | None =>
            forall t', processing_tasks s' !! task_id = Some t' ->
                       task_status t' = "queued"
        | Some t =>
            exists t', processing_tasks s' !! task_id = Some t'
              /\ (task_status t' = task_status t
                  \/ status_next (task_status t) (task_status t'))
        end)
  /\ (forall s' task_id t, rtc step s s' ->
        processing_tasks s !! task_id = Some t -> terminal (task_status t) ->
        exists t', processing_tasks s' !! task_id = Some t'
                   /\ settled t t'
                   /\ (task_id ∉ pending_ids s -> t' = t))
  /\ (forall env item, item ∈ submitted s ->
        exists t t',
          processing_tasks s !! wi_task_id item = Some t
          /\ task_status t = "queued"
          /\ mark_processing (wi_task_id item) (processing_tasks s)
               !! wi_task_id item = Some (set_status "processing" t)
          /\ _process_workspace_data env item (processing_tasks s)
               !! wi_task_id item = Some t'
          /\ terminal (task_status t')).
Proof.
  intros Hreach. split_and!.
  - intros task_id t. by apply reachable_statuses.
  - intros s' task_id Hstep.
    pose proof (step_entry s s' task_id (reachable_inv s Hreach) Hstep) as H.
    destruct (processing_tasks s !! task_id) as [t|]; [|done].
    destruct H as (t' & Ht' & Hmove & _). eauto.
  - intros s' task_id t Hsteps Hl Hterm.
    destruct (terminal_entry_settled s s' task_id t Hreach Hsteps Hl Hterm)
      as (t' & Ht' & Hset).
    exists t'. split_and!; [done..|]. intros Hout.
    destruct (finished_entry_frozen s s' task_id t Hreach Hsteps Hl Hout)
      as [Hl' _]. congruence.
  - intros env item Hin.
    destruct (inv_submitted s (reachable_inv s Hreach) item Hin)
      as (t & Ht & Hst & _).
    exists t. eexists. split_and!; [done..| | |].
    + by rewrite mark_processing_lookup, decide_True, Ht.
    + by apply process_workspace_data_entry.
    + unfold terminal. destruct (pipeline env item); simpl; eauto.
Qed.

(** C2. [start_processing_task] is total: for every submission it returns
    the task id it drew, having put an entry with status queued (no result, no
    error, no completion time) in the registry and the work item at the end of
    the executor's queue; [get_task_status] on the returned id in the state it
    leaves succeeds and reports queued. *)
Theorem submit_creates_queued_task task_id now workspace_id channels
    include_canvases max_age_days custom_instruction s :
  let submission :=
    start_processing_task task_id now workspace_id channels include_canvases
      max_age_days custom_instruction s in
  submission.1 = task_id
  /\ (exists t, processing_tasks submission.2 !! submission.1 = Some t
        /\ task_status t = "queued" /\ task_results t = None
        /\ task_error t = None /\ task_completed_at t = None)
  /\ (exists item, submitted submission.2 = submitted s ++ [item]
        /\ wi_task_id item = submission.1)
  /\ running submission.2 = running s
  /\ exists view,
       get_task_status submission.1 submission.2 = (ret view, submission.2)
       /\ view_status view = "queued" /\ view_error view = None
       /\ view_completed_at view = None.
Proof.
  simpl. split_and!.
  - done.
  - eexists. rewrite lookup_insert_eq. by split_and!.
  - eexists. by split.
  - done.
  - unfold get_task_status. simpl. rewrite lookup_insert_eq.
    eexists. by split_and!.
Qed.



End Registry.

(** ** The empty corpus *)

(** The worker's first statement and its closing assignments, taken one
    after the other, are the whole function. *)
Lemma process_workspace_data_steps env item tasks :
  is_Some (tasks !! wi_task_id item) ->
  _process_workspace_data env item tasks =
  store_outcome (wi_task_id item) (now_at_end env) (pipeline env item)
    (mark_processing (wi_task_id item) tasks).
Proof. intros [t Ht]. unfold _process_workspace_data. by rewrite Ht. Qed.

Lemma pipeline_empty_corpus env item fetched workspace_data :
  fetch_all_workspace_data env (wi_workspace_id item) = ret fetched ->
  filter_by_age (now_at_filter env) (wi_max_age_days item)
    (filter_channels (wi_channels item) fetched) = ret workspace_data ->
  _prepare_documents env workspace_data = ret [] ->
  pipeline env item =
  raise (ProcessingError "No data to process after filtering").
Proof.
  intros Hfetch Hage Hdocs. unfold pipeline.
  rewrite Hfetch. simpl. rewrite Hage. simpl. by rewrite Hdocs.
Qed.

(** C5. When the data is fetched and filtered and the corpus built from it is
    empty, the worker body raises the "No data to process after filtering"
    error; [_process_workspace_data] then leaves the task failed with that
    message as its error and its results untouched; and in the running
    service the worker's transitions lead to the state in which the task is
    failed with no results, is no longer queued or running anywhere (it is
    not run again), and keeps that entry for ever. *)
Theorem empty_corpus_fails_task env item fetched workspace_data :
  fetch_all_workspace_data env (wi_workspace_id item) = ret fetched ->
  filter_by_age (now_at_filter env) (wi_max_age_days item)
    (filter_channels (wi_channels item) fetched) = ret workspace_data ->
  _prepare_documents env workspace_data = ret [] ->
  pipeline env item =
    raise (ProcessingError "No data to process after filtering")
  /\ (forall tasks t, tasks !! wi_task_id item = Some t ->
        exists t',
          _process_workspace_data env item tasks !! wi_task_id item = Some t'
          /\ task_status t' = "failed"
          /\ task_error t' = Some "No data to process after filtering"
          /\ task_results t' = task_results t
          /\ task_completed_at t' = Some (now_at_end env))
  /\ (forall s before after,
        reachable s -> running s = before ++ Working item :: after ->
        let s' :=
          {| processing_tasks :=
               store_outcome (wi_task_id item) (now_at_end env)
                 (pipeline env item) (processing_tasks s);
             submitted := submitted s;
             running := before ++ after |} in
        rtc step s s'
        /\ exists t',
          processing_tasks s' !! wi_task_id item = Some t'
          /\ task_status t' = "failed"
          /\ task_error t' = Some "No data to process after filtering"
          /\ task_results t' = None
          /\ (wi_task_id item ∉ pending_ids s')
          /\ forall s'', rtc step s' s'' ->
               processing_tasks s'' !! wi_task_id item = Some t').
Proof.
  intros Hfetch Hage Hdocs.
  pose proof (pipeline_empty_corpus env item _ _ Hfetch Hage Hdocs) as Hp.
  split_and!; [done| |].
  - intros tasks t Hl. eexists. split.
    + by apply process_workspace_data_entry.
    + rewrite Hp. by split_and!.
  - intros s before after Hreach Hrun s'.
    pose proof (reachable_inv s Hreach) as Hinv.
    destruct (inv_running s Hinv (Working item))
      as (t & Ht & Hst & _ & Hres & _).
    { rewrite Hrun. apply elem_of_app. right. by left. }
    assert (Hsteps : rtc step s s') by (by apply worker_run).
    assert (Hreach' : reachable s') by (unfold reachable; by etrans).
    split; [done|].
    exists (close_task (now_at_end env) (pipeline env item) t).
    assert (Hl' : processing_tasks s' !! wi_task_id item =
                  Some (close_task (now_at_end env) (pipeline env item) t)).
    { simpl in *. by rewrite store_outcome_lookup, decide_True, Ht. }
    assert (Hout : wi_task_id item ∉ pending_ids s').
    { destruct (running_others s before _ after (inv_nodup s Hinv) Hrun)
        as (_ & Hsub & Hoth).
      intros [(it & Hid & Hw)|(th & Hid & Hw)]%pending_ids_elem.
      - by eapply Hsub.
      - by eapply Hoth. }
    split_and!; [done|rewrite Hp; done|rewrite Hp; done|rewrite Hp; done
                |done|].
    intros s'' Hsteps'.
    by destruct (finished_entry_frozen s' s'' _ _ Hreach' Hsteps' Hl' Hout).
Qed.

(** ** Python string operations *)

Section Strings.

Import Py.

Lemma lstrip_blank s : blank s = true -> lstrip s = EmptyString.
Proof.
  induction s as [|c r IH]; simpl; [done|].
  intros [Hc Hr]%andb_prop. rewrite Hc. by apply IH.
Qed.

Lemma lstrip_not_blank s :
  blank s = false ->
  exists c r, lstrip s = String c r /\ is_space c = false.
Proof.
  induction s as [|c r IH]; simpl; [done|].
  destruct (is_space c) eqn:Hc; simpl; eauto.
Qed.

Lemma rstrip_keeps_head c r :
  is_space c = false -> exists r', rstrip (String c r) = String c r'.
Proof. intros Hc. simpl. rewrite Hc. destruct (rstrip r); eauto. Qed.

(** The test [if not text.strip()] is the test for a blank text. *)
Lemma strip_truthy s : truthy (strip s) = negb (blank s).
Proof.
  unfold strip. destruct (blank s) eqn:Hb; simpl.
  - by rewrite lstrip_blank.
  - destruct (lstrip_not_blank s Hb) as (c & r & -> & Hc).
    by destruct (rstrip_keeps_head c r Hc) as [r' ->].
Qed.

Lemma split_length sep s : length (split sep s) = S (count sep s).
Proof.
  induction s as [|c r IH]; simpl; [done|].
  destruct (Ascii.eqb c sep); simpl; [by rewrite IH|].
  destruct (split sep r) as [|p ps]; simpl in *; [done|lia].
Qed.

Lemma split_join sep s : join (String sep EmptyString) (split sep s) = s.
Proof.
  induction s as [|c r IH]; simpl; [done|].
  destruct (Ascii.eqb c sep) eqn:Hc.
  - apply Ascii.eqb_eq in Hc as ->.
    destruct (split sep r) as [|p ps] eqn:Hs.
    + pose proof (split_length sep r) as Hl. by rewrite Hs in Hl.
    + simpl. simpl in IH. by rewrite IH.
  - destruct (split sep r) as [|p ps] eqn:Hs.
    + pose proof (split_length sep r) as Hl. by rewrite Hs in Hl.
    + rewrite <- IH. simpl. by destruct ps.
Qed.

Lemma split_pieces sep s p : p ∈ split sep s -> count sep p = 0%nat.
Proof.
  revert p. induction s as [|c r IH]; simpl; intros p.
  - by intros ->%list_elem_of_singleton.
  - destruct (Ascii.eqb c sep) eqn:Hc.
    + intros [->|Hin]%elem_of_cons; [done|by apply IH].
    + destruct (split sep r) as [|q qs] eqn:Hs.
      * intros ->%list_elem_of_singleton. simpl. by rewrite Hc.
      * intros [->|Hin]%elem_of_cons.
        -- simpl. rewrite Hc. simpl. apply IH. by left.
        -- apply IH. by right.
Qed.

End Strings.

(** ** The corpus *)

Section CorpusProperties.

Context (env : Services).

Lemma append_cons x (a b : string) : String x a +:+ b = String x (a +:+ b).
Proof. reflexivity. Qed.

Lemma append_nil_r (a : string) : a +:+ EmptyString = a.
Proof. induction a as [|x a IH]; [done|]. by rewrite append_cons, IH. Qed.

Lemma append_assoc (a b c : string) : (a +:+ b) +:+ c = a +:+ b +:+ c.
Proof. induction a as [|x a IH]; [done|]. by rewrite !append_cons, IH. Qed.

(** A loop that only appends to a text returns a text that begins with the
    one it started from. *)
Lemma result_for_extend {A : Type} (f : string -> A -> result string) l acc
    text :
  (forall acc a text, f acc a = ret text -> exists rest, text = acc +:+ rest) ->
  result_for l f acc = ret text -> exists rest, text = acc +:+ rest.
Proof.
  intros Hf. revert acc. induction l as [|a l IH]; intros acc; simpl.
  - intros [= <-]. exists EmptyString. by rewrite append_nil_r.
  - intros (mid & Hmid & Hrest)%bind_ret_inv.
    destruct (Hf _ _ _ Hmid) as [r1 ->]. destruct (IH _ Hrest) as [r2 ->].
    eexists. by rewrite append_assoc.
Qed.

Lemma element_lines_extend acc element text :
  element_lines env acc element = ret text -> exists rest, text = acc +:+ rest.
Proof.
  unfold element_lines. intros (present & Hp & H)%bind_ret_inv.
  destruct present.
  - apply bind_ret_inv in H as (value & Hv & H).
    apply bind_ret_inv in H as (line & Hl & [= <-]). eauto.
  - injection H as <-. exists EmptyString. by rewrite append_nil_r.
Qed.

Lemma block_lines_extend acc block text :
  block_lines env acc block = ret text -> exists rest, text = acc +:+ rest.
Proof.
  unfold block_lines. destruct (block !! "text") as [value|].
  - intros (line & Hl & [= <-])%bind_ret_inv. eauto.
  - destruct (block !! "rich_text") as [value|].
    + intros (elements & He & H)%bind_ret_inv.
      eapply result_for_extend; [|done]. apply element_lines_extend.
    + intros [= <-]. exists EmptyString. by rewrite append_nil_r.
Qed.

(** A canvas Document opens with the header, whatever the blocks hold. *)
Lemma canvas_document_text um canvas document :
  canvas_document env um canvas = ret document ->
  metadata document = canvas_metadata env um canvas
  /\ exists rest,
       page_content document =
       "Canvas: " +:+ canvas_title canvas +:+ Py.nl +:+ Py.nl +:+ rest.
Proof.
  unfold canvas_document. intros (text & Ht & [= <-])%bind_ret_inv.
  split; [done|]. cbn [page_content].
  destruct (result_for_extend (block_lines env) _ _ _ block_lines_extend Ht)
    as [rest ->].
  exists rest. unfold canvas_header. by rewrite !append_assoc.
Qed.

Lemma message_documents_blank um channel message :
  Py.blank (msg_text message) = true ->
  message_documents env um channel message = [].
Proof. intros Hb. unfold message_documents. by rewrite strip_truthy, Hb. Qed.

Lemma message_documents_text um channel message :
  Py.blank (msg_text message) = false ->
  message_documents env um channel message =
  {| page_content := msg_text message;
     metadata := message_metadata env um channel message |}
    :: (reply_document env um (message_metadata env um channel message) message
          <$> msg_replies message).
Proof. intros Hb. unfold message_documents. by rewrite strip_truthy, Hb. Qed.

Lemma not_blank_not_empty s : Py.blank s = false -> s <> EmptyString.
Proof. by intros Hb ->. Qed.

Lemma reply_source_type um parent message reply :
  reply_metadata env um parent message reply !! "source_type"
  = Some (MStr "reply").
Proof. unfold reply_metadata. by rewrite lookup_insert_eq. Qed.

(** C4. With a non-empty list of channel ids, the channels left on the
    snapshot are exactly those of the snapshot whose id is in the list, in
    their order, and nothing else on the snapshot changes; with an empty list,
    or none, the snapshot is left as it is, all channels included. *)
Theorem channel_filter_retains channels w :
  (forall ids, channels = Some ids -> ids <> [] ->
     ws_channels (filter_channels channels w)
       = filter (fun c => chan_id c ∈ ids) (ws_channels w)
     /\ (forall c, c ∈ ws_channels (filter_channels channels w)
                   <-> c ∈ ws_channels w /\ chan_id c ∈ ids)
     /\ ws_canvases (filter_channels channels w) = ws_canvases w
     /\ ws_users (filter_channels channels w) = ws_users w)
  /\ (channels = Some [] \/ channels = None -> filter_channels channels w = w).
Proof.
  split.
  - intros ids -> Hne. destruct ids as [|i ids]; [done|].
    unfold filter_channels. cbn [ws_channels ws_canvases ws_users set_channels].
    split_and!; [reflexivity| |reflexivity|reflexivity].
    intros c. rewrite list_elem_of_filter. tauto.
  - by intros [->| ->].
Qed.

Lemma message_collection_elem w d :
  d ∈ message_collection env w <->
  exists c m, c ∈ ws_channels w /\ m ∈ chan_messages c
              /\ d ∈ message_documents env (user_map (ws_users w)) c m.
Proof.
  unfold message_collection, channel_documents.
  rewrite list_elem_of_bind. setoid_rewrite list_elem_of_bind. split.
  - intros (c & (m & Hd & Hm) & Hc). eauto.
  - intros (c & m & Hc & Hm & Hd). eauto.
Qed.

(** The loop over the canvases appends one Document per canvas to the list
    the loop over the channels left, or raises. *)
Lemma add_canvas_documents um canvases documents all :
  result_for canvases (add_canvas_document env um) documents = ret all ->
  exists canvas_documents,
    all = documents ++ canvas_documents
    /\ Forall2 (fun canvas document =>
                  canvas_document env um canvas = ret document)
         canvases canvas_documents.
Proof.
  revert documents. induction canvases as [|canvas l IH]; intros documents;
    simpl.
  - intros [= <-]. exists []. by rewrite app_nil_r.
  - intros (mid & Hmid & Hrest)%bind_ret_inv.
    unfold add_canvas_document in Hmid.
    apply bind_ret_inv in Hmid as (document & Hdoc & [= <-]).
    destruct (IH _ Hrest) as (rest & -> & Hall).
    exists (document :: rest). split; [by rewrite <- (assoc_L (++))|].
    by constructor.
Qed.

Lemma collected_documents_parts w all :
  collected_documents env w = ret all ->
  exists canvas_documents,
    all = message_collection env w ++ canvas_documents
    /\ Forall2 (fun canvas document =>
                  canvas_document env (user_map (ws_users w)) canvas
                  = ret document)
         (ws_canvases w) canvas_documents.
Proof. apply add_canvas_documents. Qed.

Lemma collected_documents_messages w all d :
  collected_documents env w = ret all -> d ∈ message_collection env w ->
  d ∈ all.
Proof.
  intros (canvas_documents & -> & _)%collected_documents_parts Hd.
  apply elem_of_app. by left.
Qed.

(** C10. Every reply of a message with non-blank text has, in the list of
    Documents the loop over the channels builds (and so in the list handed to
    the splitter), a Document whose text is the reply's and whose metadata
    takes message_id, user_id, user_name, timestamp, parent_message_id and
    source_type from the reply (parent_message_id being the parent's id),
    while has_replies and has_reactions, like channel_id and channel_name,
    are the values computed for the parent message. *)
Theorem reply_metadata_from_parent w c m r :
  c ∈ ws_channels w -> m ∈ chan_messages c -> r ∈ msg_replies m ->
  Py.blank (msg_text m) = false ->
  let um := user_map (ws_users w) in
  let d := reply_document env um (message_metadata env um c m) m r in
  d ∈ message_collection env w
  /\ (forall all, collected_documents env w = ret all -> d ∈ all)
  /\ page_content d = msg_text r
  /\ metadata d !! "has_replies"
       = Some (MBool (0 <? length (msg_replies m))%nat)
  /\ metadata d !! "has_replies"
       = message_metadata env um c m !! "has_replies"
  /\ metadata d !! "has_reactions"
       = Some (MBool (0 <? length (msg_reactions m))%nat)
  /\ metadata d !! "has_reactions"
       = message_metadata env um c m !! "has_reactions"
  /\ metadata d !! "message_id" = Some (MStr (msg_id r))
  /\ metadata d !! "user_id" = Some (MStr (msg_user r))
  /\ metadata d !! "user_name" = Some (MStr (user_name_of um (msg_user r)))
  /\ metadata d !! "timestamp" = Some (MStr (isoformat env (msg_timestamp r)))
  /\ metadata d !! "parent_message_id" = Some (MStr (msg_id m))
  /\ metadata d !! "source_type" = Some (MStr "reply")
  /\ metadata d !! "channel_id" = Some (MStr (chan_id c))
  /\ metadata d !! "channel_name" = Some (MStr (chan_name c)).
Proof.
  intros Hc Hm Hr Hb um d.
  assert (Hd : d ∈ message_collection env w).
  { apply message_collection_elem. exists c, m. split_and!; [done..|].
    rewrite message_documents_text by done. right.
    apply list_elem_of_fmap. eauto. }
  split; [done|]. split.
  - intros all Hall. by eapply collected_documents_messages.
  - subst d. unfold reply_document, reply_metadata, message_metadata.
    cbn [page_content metadata]. split_and!; by simplify_map_eq.
Qed.

Lemma minus_days_value now d cutoff :
  minus_days now d = ret cutoff -> cutoff = now - d * microseconds_per_day.
Proof.
  unfold minus_days, timedelta_days.
  repeat (case_bool_decide; cbn [bind ret raise]); try done.
  by intros [= <-].
Qed.

Lemma recent_messages_elem cutoff c m :
  m ∈ chan_messages (recent_messages cutoff c)
  <-> m ∈ chan_messages c /\ cutoff <= msg_timestamp m.
Proof.
  unfold recent_messages. cbn [chan_messages set_messages].
  rewrite list_elem_of_filter. tauto.
Qed.

Lemma channel_documents_recent um cutoff c :
  channel_documents env um (recent_messages cutoff c) =
  filter (fun m => cutoff <= msg_timestamp m) (chan_messages c)
    ≫= message_documents env um c.
Proof. reflexivity. Qed.

(** C7, as the code has it.  When max_age_days is a number of days other
    than 0 for which the cutoff [now - max_age_days] is a representable date,
    each channel keeps exactly its top-level messages whose timestamp is not
    before the cutoff, each as it was, its replies included; the documents of
    a channel are then those of its kept messages, so a dropped message takes
    its replies with it; and every reply of a kept message with non-blank
    text has its Document in the list the loop over the channels builds, and
    so in the list handed to the splitter, whatever the reply's own
    timestamp: replies are not checked against the cutoff. *)
Theorem age_filter_by_parent now d w cutoff :
  d <> 0 -> minus_days now d = ret cutoff ->
  cutoff = now - d * microseconds_per_day
  /\ exists w',
      filter_by_age now (Some d) w = ret w'
      /\ ws_channels w' = (recent_messages cutoff <$> ws_channels w)
      /\ ws_canvases w' = ws_canvases w /\ ws_users w' = ws_users w
      /\ (forall c m, m ∈ chan_messages (recent_messages cutoff c)
                      <-> m ∈ chan_messages c /\ cutoff <= msg_timestamp m)
      /\ (forall um c,
            channel_documents env um (recent_messages cutoff c) =
            filter (fun m => cutoff <= msg_timestamp m) (chan_messages c)
              ≫= message_documents env um c)
      /\ (forall c m r,
            c ∈ ws_channels w -> m ∈ chan_messages c ->
            cutoff <= msg_timestamp m -> Py.blank (msg_text m) = false ->
            r ∈ msg_replies m ->
            let document :=
              reply_document env (user_map (ws_users w))
                (message_metadata env (user_map (ws_users w)) c m) m r in
            document ∈ message_collection env w'
            /\ forall all, collected_documents env w' = ret all ->
                           document ∈ all).
Proof.
  intros Hd Hcut. split; [by apply minus_days_value|].
  eexists. unfold filter_by_age. rewrite bool_decide_eq_false_2 by done.
  rewrite Hcut. cbn [bind]. split; [reflexivity|].
  cbn [ws_channels ws_canvases ws_users set_channels].
  split_and!; [done..| | |].
  - apply recent_messages_elem.
  - intros um c. apply channel_documents_recent.
  - intros c m r Hc Hm Hts Hb Hr.
    match goal with |- ?document ∈ message_collection env ?w' /\ _ =>
      assert (Hin : document ∈ message_collection env w') end.
    { apply message_collection_elem.
      exists (recent_messages cutoff c), m.
      cbn [ws_channels ws_users set_channels]. split_and!.
      + apply list_elem_of_fmap. eauto.
      + by apply recent_messages_elem.
      + rewrite message_documents_text by done. right.
        apply list_elem_of_fmap. eauto. }
    split; [done|]. intros all Hall. by eapply collected_documents_messages.
Qed.

End CorpusProperties.

(** ** Decoding the insights answer *)

Section Insights.

Context (env : Services).

Lemma parse_insights_list text insights :
  json_loads env text = Some (JList insights) ->
  parse_insights env text = insights.
Proof. intros H. unfold parse_insights. by rewrite H. Qed.

Lemma parse_insights_fallback text :
  (forall insights, json_loads env text <> Some (JList insights)) ->
  parse_insights env text = (JStr <$> Py.split Py.nl_char (Py.strip text)).
Proof.
  intros H. unfold parse_insights.
  destruct (json_loads env text) as [[]|] eqn:Hj; try done.
  by destruct (H items).
Qed.

(** C9, as the code has it.  When [json.loads] decodes the answer to a list,
    the insights are that list; in every other case (it raises, or decodes to
    something that is not a list) they are the pieces of the stripped answer
    cut at each line break, one insight per piece, empty pieces included:
    there is one more insight than there are line breaks, and joining the
    insights with line breaks gives the stripped answer back.  "line one\nline
    two" that does not decode gives the two insights "line one" and "line
    two".  The decoding itself never raises: whenever the completion call
    returns a text, [_extract_key_insights] returns its decoding.  When the
    completion call raises, [_extract_key_insights] raises the same
    exception; and when that happens in a worker body whose earlier steps
    have all returned, the body ends with that exception and
    [_process_workspace_data] leaves the task failed with its text as
    error. *)
Theorem insights_two_tier text :
  (forall insights, json_loads env text = Some (JList insights) ->
     parse_insights env text = insights)
  /\ ((forall insights, json_loads env text <> Some (JList insights)) ->
       parse_insights env text = (JStr <$> Py.split Py.nl_char (Py.strip text))
       /\ length (parse_insights env text)
          = S (Py.count Py.nl_char (Py.strip text))
       /\ Py.join Py.nl (Py.split Py.nl_char (Py.strip text)) = Py.strip text)
  /\ (json_loads env Demo.line_one_line_two = None ->
       parse_insights env Demo.line_one_line_two
       = [JStr "line one"; JStr "line two"])
  /\ (forall workspace overall_summary,
       chain_run env KeyInsightsPrompt
         [("workspace_name", ws_name workspace);
          ("overall_summary", overall_summary)] = ret text ->
       _extract_key_insights env workspace overall_summary
       = ret (parse_insights env text))
  /\ (forall workspace overall_summary e,
       chain_run env KeyInsightsPrompt
         [("workspace_name", ws_name workspace);
          ("overall_summary", overall_summary)] = raise e ->
       _extract_key_insights env workspace overall_summary = raise e)
  /\ (forall item fetched workspace_data documents store channel_summaries
             canvas_summaries overall_summary e,
       fetch_all_workspace_data env (wi_workspace_id item) = ret fetched ->
       filter_by_age (now_at_filter env) (wi_max_age_days item)
         (filter_channels (wi_channels item) fetched) = ret workspace_data ->
       _prepare_documents env workspace_data = ret documents ->
       documents <> [] ->
       _create_vector_store env documents = ret store ->
       result_for (ws_channels workspace_data) (channel_summary_step env) []
       = ret channel_summaries ->
       canvas_summaries_of env (wi_include_canvases item) workspace_data
       = ret canvas_summaries ->
       _generate_workspace_summary env workspace_data channel_summaries
         canvas_summaries (wi_custom_instruction item) = ret overall_summary ->
       chain_run env KeyInsightsPrompt
         [("workspace_name", ws_name workspace_data);
          ("overall_summary", overall_summary)] = raise e ->
       pipeline env item = raise e
       /\ forall tasks t, tasks !! wi_task_id item = Some t ->
            exists t',
              _process_workspace_data env item tasks !! wi_task_id item
              = Some t'
              /\ task_status t' = "failed"
              /\ task_error t' = Some (str_exn e)
              /\ task_results t' = task_results t).
Proof.
  split_and!.
  - apply parse_insights_list.
  - intros H. rewrite parse_insights_fallback by done. split_and!.
    + done.
    + by rewrite length_fmap, split_length.
    + apply split_join.
  - intros H. rewrite parse_insights_fallback; [done|]. by rewrite H.
  - intros workspace overall_summary H. unfold _extract_key_insights.
    by rewrite H.
  - intros workspace overall_summary e H. unfold _extract_key_insights.
    by rewrite H.
  - intros item fetched workspace_data documents store channel_summaries
      canvas_summaries overall_summary e Hfetch Hage Hdocs Hne Hstore Hch Hcv
      Hov Hrun.
    assert (Hp : pipeline env item = raise e).
    { unfold pipeline. rewrite Hfetch. cbn [bind ret]. rewrite Hage.
      cbn [bind ret]. rewrite Hdocs. cbn [bind ret].
      destruct documents as [|d l]; [done|].
      rewrite Hstore. cbn [bind ret]. rewrite Hch. cbn [bind ret].
      rewrite Hcv. cbn [bind ret]. rewrite Hov. cbn [bind ret].
      unfold _extract_key_insights. by rewrite Hrun. }
    split; [done|]. intros tasks t Hl. eexists. split.
    + by apply process_workspace_data_entry.
    + rewrite Hp. by split_and!.
Qed.

End Insights.

(** ** The inclusion flag and the corpus *)

(** C6, evaluated.  The workspace has one channel without messages and one
    canvas, and the task is submitted with include_canvases false.  The canvas
    summaries stay empty, as the flag asks; but the canvas is in the corpus all
    the same: its Document is the only one, so the corpus is not empty and the
    task completes, where the same workspace without the canvas fails with "No
    data to process after filtering". *)
Theorem canvas_documents_ignore_flag :
  wi_include_canvases (Demo.work false) = false
  /\ (forall env,
       canvas_document env (user_map [Demo.alice]) Demo.plan
       = ret {| page_content := "Canvas: Plan" +:+ Py.nl +:+ Py.nl;
                metadata :=
                  canvas_metadata env (user_map [Demo.alice]) Demo.plan |}
       /\ collected_documents env Demo.only_canvas =
          ret [{| page_content := "Canvas: Plan" +:+ Py.nl +:+ Py.nl;
                  metadata :=
                    canvas_metadata env (user_map [Demo.alice]) Demo.plan |}]
       /\ canvas_summaries_of env false Demo.only_canvas = ret [])
  /\ (exists res,
       pipeline (Demo.services Demo.only_canvas "ok") (Demo.work false)
       = ret res /\ res_canvas_summaries res = [])
  /\ pipeline (Demo.services Demo.nothing "ok") (Demo.work false)
     = raise (ProcessingError "No data to process after filtering").
Proof.
  split_and!.
  - reflexivity.
  - intros env. split_and!; reflexivity.
  - eexists. split; [vm_compute; reflexivity|reflexivity].
  - vm_compute. reflexivity.
Qed.

(** C8, evaluated.  The test for an empty text is made on the top-level
    message alone, and it decides for the replies too: a message whose text is
    blank gives no Document, and neither does any of its replies; a message
    with text gives its Document and one Document per reply, the reply's text
    taken as it is.  On the workspace whose only message is blank and has one
    reply, "answer", nothing is collected, the splitter is handed the empty
    list, and with a splitter that makes nothing of nothing the task fails for
    want of data although the reply has text.  And on the [threads]
    workspace the reply without text has its Document, with empty text, in
    the list handed to the splitter. *)
Theorem replies_follow_parent_text :
  (forall env um c m,
     Py.blank (msg_text m) = true -> message_documents env um c m = [])
  /\ (forall env um c m r,
       Py.blank (msg_text m) = false -> r ∈ msg_replies m ->
       reply_document env um (message_metadata env um c m) m r
         ∈ message_documents env um c m
       /\ page_content (reply_document env um (message_metadata env um c m) m r)
          = msg_text r)
  /\ (Py.blank (msg_text Demo.answer) = false
      /\ msg_replies Demo.blank_message = [Demo.answer]
      /\ chan_messages Demo.quiet = [Demo.blank_message]
      /\ ws_channels Demo.only_blank = [Demo.quiet]
      /\ (forall env, collected_documents env Demo.only_blank = ret [])
      /\ (forall env,
            _prepare_documents env Demo.only_blank
            = ret (split_documents env []))
      /\ pipeline (Demo.services Demo.only_blank "ok") (Demo.work true)
         = raise (ProcessingError "No data to process after filtering"))
  /\ (msg_text Demo.empty_reply = EmptyString
      /\ Demo.empty_reply ∈ msg_replies Demo.recent_message
      /\ Py.blank (msg_text Demo.recent_message) = false
      /\ forall env, exists all d,
           collected_documents env Demo.threads = ret all
           /\ d ∈ all
           /\ page_content d = EmptyString
           /\ metadata d !! "message_id" = Some (MStr "r2")
           /\ metadata d !! "source_type" = Some (MStr "reply")).
Proof.
  split_and!.
  - intros env um c m. apply message_documents_blank.
  - intros env um c m r Hb Hr. rewrite message_documents_text by done.
    split; [|done]. right. apply list_elem_of_fmap. eauto.
  - reflexivity.
  - reflexivity.
  - reflexivity.
  - reflexivity.
  - intros env. reflexivity.
  - intros env. reflexivity.
  - vm_compute. reflexivity.
  - reflexivity.
  - simpl. right. left.
  - reflexivity.
  - intros env. eexists. eexists. split; [reflexivity|]. split_and!.
    + cbn. right. right. left.
    + reflexivity.
    + reflexivity.
    + reflexivity.
Qed.

(** ** Worked examples *)

Example strip_example :
  Py.strip "  a b  " = "a b" /\ Py.strip "   " = EmptyString
  /\ Py.strip (Py.nl +:+ "x" +:+ Py.nl) = "x".
Proof. by vm_compute. Qed.

Example split_example :
  Py.split Py.nl_char EmptyString = [EmptyString]
  /\ Py.split Py.nl_char Demo.line_one_line_two = ["line one"; "line two"]
  /\ Py.split Py.nl_char ("a" +:+ Py.nl) = ["a"; EmptyString].
Proof. by vm_compute. Qed.

Example dict_set_example :
  Py.dict_set "b" 3 (Py.dict_set "a" 2 (Py.dict_set "b" 1 []))
  = [("b", 3); ("a", 2)].
Proof. reflexivity. Qed.

Example instruction_text_example :
  instruction_text None = EmptyString
  /\ instruction_text (Some EmptyString) = EmptyString
  /\ instruction_text (Some "focus") <> EmptyString.
Proof. by vm_compute. Qed.

Example minus_days_example :
  minus_days Demo.now 7 = ret Demo.cutoff
  /\ minus_days Demo.now 1000000000 =
     raise (OverflowError "days=1000000000; must have magnitude <= 999999999")
  /\ minus_days Demo.now 738001 =
     raise (OverflowError "date value out of range").
Proof. by vm_compute. Qed.

Example age_filter_example :
  exists w, filter_by_age Demo.now (Some 7) Demo.threads = ret w
            /\ ws_channels w =
               [Demo.channel "C1" "general" [Demo.recent_message]; Demo.random].
Proof. eexists. split; [vm_compute; reflexivity|reflexivity]. Qed.

Example channel_filter_example :
  ws_channels (filter_channels (Some ["C2"]) Demo.threads) = [Demo.random]
  /\ ws_channels (filter_channels (Some []) Demo.threads)
     = [Demo.general; Demo.random].
Proof. split; reflexivity. Qed.

(** What the loop over [canvas.content] makes of the values it meets. *)
Example block_values_example env :
  block_lines env EmptyString {[ "text" := JStr "a" ]} = ret ("a" +:+ Py.nl)
  /\ block_lines env EmptyString {[ "text" := JInt 3 ]}
     = raise (TypeError (type_error env Concatenate (JInt 3)))
  /\ block_lines env EmptyString
       (<[ "rich_text" := JList [JObject [("text", JStr "b")]] ]>
          {[ "text" := JStr "a" ]})
     = ret ("a" +:+ Py.nl)
  /\ block_lines env EmptyString {[ "rich_text" := JStr "a text b" ]}
     = ret EmptyString
  /\ block_lines env EmptyString {[ "rich_text" := JList [JStr "x"] ]}
     = ret EmptyString
  /\ block_lines env EmptyString {[ "rich_text" := JList [JStr "text"] ]}
     = raise (TypeError (type_error env Subscript (JStr "text")))
  /\ block_lines env EmptyString
       {[ "rich_text" := JObject [("my text", JInt 1)] ]}
     = raise (TypeError (type_error env Subscript (JStr "my text")))
  /\ block_lines env EmptyString {[ "rich_text" := JObject [("k", JInt 1)] ]}
     = ret EmptyString
  /\ block_lines env EmptyString {[ "rich_text" := JNull ]}
     = raise (TypeError (type_error env Iterate JNull))
  /\ block_lines env EmptyString {[ "rich_text" := JList [JNull] ]}
     = raise (TypeError (type_error env Contains JNull))
  /\ block_lines env EmptyString
       {[ "rich_text" := JList [JObject [("text", JNull)]] ]}
     = raise (TypeError (type_error env Concatenate JNull)).
Proof. split_and!; vm_compute; reflexivity. Qed.

Example canvas_text_example env um :
  canvas_document env um Demo.notes
  = ret {| page_content :=
             "Canvas: Notes" +:+ Py.nl +:+ Py.nl +:+ "Agenda" +:+ Py.nl
             +:+ "item one" +:+ Py.nl;
           metadata := canvas_metadata env um Demo.notes |}
  /\ canvas_document env um Demo.miscounted
     = raise (TypeError (type_error env Concatenate (JInt 3)))
  /\ _generate_canvas_summary env Demo.miscounted
     = raise (TypeError (type_error env Concatenate (JInt 3))).
Proof. split_and!; reflexivity. Qed.

(** A block that cannot be read fails the task, with include_canvases false
    as well. *)
Example unreadable_canvas_example :
  pipeline (Demo.services (Demo.workspace [Demo.general] [Demo.miscounted]) "ok")
    (Demo.work false)
  = raise (TypeError "unsupported operand").
Proof. vm_compute. reflexivity. Qed.

Example finished_example :
  exists t, processing_tasks Demo.finished !! "t1" = Some t
            /\ task_status t = "failed"
            /\ task_error t = Some "No data to process after filtering".
Proof. eexists. split; [vm_compute; reflexivity|split; reflexivity]. Qed.

(** ** Instances and counterexamples *)

Lemma demo_started_reachable : reachable Demo.started.
Proof.
  unfold reachable. eapply rtc_l.
  { apply (step_submit new_service "t1" Demo.now "T1" None true None None).
    reflexivity. }
  eapply rtc_l.
  { apply (step_begin _ (Demo.work true) []); [reflexivity|].
    unfold max_workers. simpl. lia. }
  apply rtc_refl.
Qed.

Lemma demo_finished_reachable : reachable Demo.finished.
Proof.
  unfold reachable. etrans; [apply demo_started_reachable|].
  exact (worker_run Demo.started (Demo.services Demo.only_blank "ok")
           [] (Demo.work true) [] eq_refl).
Qed.

Lemma demo_closing_reachable w written :
  (written <= 3)%nat -> reachable (Demo.closing w written).
Proof.
  intros Hle. unfold reachable. etrans; [apply demo_started_reachable|].
  exact (closing_run Demo.started (Demo.services w "ok") [] (Demo.work true)
           [] written eq_refl Hle).
Qed.

(** The state machine theorem at the state in which the sample task has
    failed and its thread is done: from there on its entry stays what it
    is. *)
Lemma task_status_state_machine_witness :
  reachable Demo.finished
  /\ forall s' task_id t,
       rtc step Demo.finished s' ->
       processing_tasks Demo.finished !! task_id = Some t ->
       terminal (task_status t) ->
       exists t', processing_tasks s' !! task_id = Some t'
                  /\ settled t t'
                  /\ (task_id ∉ pending_ids Demo.finished -> t' = t).
Proof.
  split; [apply demo_finished_reachable|].
  exact (proj1 (proj2 (proj2 (task_status_state_machine Demo.finished
                                demo_finished_reachable)))).
Defined.

(** The empty-corpus theorem on the workspace whose only message is blank. *)
Lemma empty_corpus_fails_task_witness :
  let env := Demo.services Demo.only_blank "ok" in
  fetch_all_workspace_data env "T1" = ret Demo.only_blank
  /\ filter_by_age (now_at_filter env) None (filter_channels None Demo.only_blank)
     = ret Demo.only_blank
  /\ _prepare_documents env Demo.only_blank = ret []
  /\ pipeline env (Demo.work true)
     = raise (ProcessingError "No data to process after filtering")
  /\ exists t', processing_tasks Demo.finished !! "t1" = Some t'
                /\ task_status t' = "failed"
                /\ task_error t' = Some "No data to process after filtering"
                /\ task_results t' = None.
Proof.
  intros env.
  assert (H1 : fetch_all_workspace_data env (wi_workspace_id (Demo.work true))
               = ret Demo.only_blank) by reflexivity.
  assert (H2 : filter_by_age (now_at_filter env)
                 (wi_max_age_days (Demo.work true))
                 (filter_channels (wi_channels (Demo.work true)) Demo.only_blank)
               = ret Demo.only_blank) by reflexivity.
  assert (H3 : _prepare_documents env Demo.only_blank = ret []) by reflexivity.
  destruct (empty_corpus_fails_task env (Demo.work true) Demo.only_blank
              Demo.only_blank H1 H2 H3) as (Hp & _ & Hrun).
  split_and!; [exact H1|exact H2|exact H3|exact Hp|].
  destruct (Hrun Demo.started [] [] demo_started_reachable eq_refl)
    as (_ & t' & Hl & Hst & Herr & Hres & _).
  exists t'. split_and!; [exact Hl|exact Hst|exact Herr|exact Hres].
Defined.

(** The age filter theorem with seven days on the [threads] workspace. *)
Lemma age_filter_by_parent_witness :
  7 <> 0
  /\ minus_days Demo.now 7 = ret Demo.cutoff
  /\ exists w', filter_by_age Demo.now (Some 7) Demo.threads = ret w'
                /\ ws_channels w'
                   = (recent_messages Demo.cutoff <$> ws_channels Demo.threads).
Proof.
  assert (H1 : 7 <> 0) by lia.
  assert (H2 : minus_days Demo.now 7 = ret Demo.cutoff) by reflexivity.
  destruct (age_filter_by_parent (Demo.services Demo.threads "ok") Demo.now 7
              Demo.threads Demo.cutoff H1 H2) as (_ & w' & Hf & Hc & _).
  split_and!; [exact H1|exact H2|]. exists w'. split; [exact Hf|exact Hc].
Defined.

(** The reply metadata theorem on the old reply of yesterday's message. *)
Lemma reply_metadata_from_parent_witness :
  let env := Demo.services Demo.threads "ok" in
  let um := user_map (ws_users Demo.threads) in
  let d := reply_document env um
             (message_metadata env um Demo.general Demo.recent_message)
             Demo.recent_message Demo.old_reply in
  Demo.general ∈ ws_channels Demo.threads
  /\ Demo.recent_message ∈ chan_messages Demo.general
  /\ Demo.old_reply ∈ msg_replies Demo.recent_message
  /\ Py.blank (msg_text Demo.recent_message) = false
  /\ d ∈ message_collection env Demo.threads
  /\ (exists all, collected_documents env Demo.threads = ret all /\ d ∈ all)
  /\ metadata d !! "has_replies" = Some (MBool true)
  /\ metadata d !! "has_reactions" = Some (MBool false)
  /\ metadata d !! "message_id" = Some (MStr "r1")
  /\ metadata d !! "parent_message_id" = Some (MStr "m1").
Proof.
  intros env um d.
  assert (H1 : Demo.general ∈ ws_channels Demo.threads) by (simpl; left).
  assert (H2 : Demo.recent_message ∈ chan_messages Demo.general)
    by (simpl; left).
  assert (H3 : Demo.old_reply ∈ msg_replies Demo.recent_message)
    by (simpl; left).
  assert (H4 : Py.blank (msg_text Demo.recent_message) = false) by reflexivity.
  destruct (reply_metadata_from_parent env Demo.threads Demo.general
              Demo.recent_message Demo.old_reply H1 H2 H3 H4)
    as (Hin & Hall & _ & Hrep & _ & Hreact & _ & Hid & _ & _ & _ & Hpar & _).
  split_and!;
    [exact H1|exact H2|exact H3|exact H4|exact Hin| |exact Hrep|exact Hreact
    |exact Hid|exact Hpar].
  exists (message_collection env Demo.threads).
  split; [reflexivity|exact (Hall _ eq_refl)].
Defined.

(** C1 as stated fails.  The sample task, run on the [threads] workspace,
    completes.  After the first closing assignment of its worker the status
    is completed, a terminal one, while the entry has neither completion time
    nor results, and a read of the results returns [None]; the next two
    assignments change the entry: the one writes the completion time, the
    other the results.  On the workspace without data the task fails, and
    the error is written into the entry after the status failed. *)
Lemma terminal_entry_still_written :
  (exists res t1 t2 t3,
     pipeline (Demo.services Demo.threads "ok") (Demo.work true) = ret res
     /\ reachable (Demo.closing Demo.threads 1)
     /\ step (Demo.closing Demo.threads 1) (Demo.closing Demo.threads 2)
     /\ step (Demo.closing Demo.threads 2) (Demo.closing Demo.threads 3)
     /\ processing_tasks (Demo.closing Demo.threads 1) !! "t1" = Some t1
     /\ processing_tasks (Demo.closing Demo.threads 2) !! "t1" = Some t2
     /\ processing_tasks (Demo.closing Demo.threads 3) !! "t1" = Some t3
     /\ task_status t1 = "completed" /\ terminal (task_status t1)
     /\ task_completed_at t1 = None /\ task_results t1 = None
     /\ get_task_results "t1" (Demo.closing Demo.threads 1)
        = (ret None, Demo.closing Demo.threads 1)
     /\ task_status t2 = "completed"
     /\ task_completed_at t2 = Some Demo.now /\ task_results t2 = None
     /\ task_status t3 = "completed" /\ task_results t3 = Some res
     /\ t1 <> t2 /\ t2 <> t3)
  /\ (exists t1 t2,
        reachable (Demo.closing Demo.only_blank 1)
        /\ step (Demo.closing Demo.only_blank 1)
             (Demo.closing Demo.only_blank 2)
        /\ processing_tasks (Demo.closing Demo.only_blank 1) !! "t1" = Some t1
        /\ processing_tasks (Demo.closing Demo.only_blank 2) !! "t1" = Some t2
        /\ task_status t1 = "failed" /\ terminal (task_status t1)
        /\ task_error t1 = None
        /\ task_status t2 = "failed"
        /\ task_error t2 = Some "No data to process after filtering").
Proof.
  assert (Hstep : forall w n, (n < 3)%nat ->
            step (Demo.closing w n) (Demo.closing w (S n))).
  { intros w n Hn.
    destruct (lookup_lt_is_Some_2
                (closing_writes Demo.now
                   (pipeline (Demo.services w "ok") (Demo.work true))) n)
      as [write Hwrite].
    { destruct (pipeline (Demo.services w "ok") (Demo.work true)); simpl; lia. }
    unfold Demo.closing at 2.
    replace (alter (written_task Demo.now
                      (pipeline (Demo.services w "ok") (Demo.work true)) (S n))
               "t1" (processing_tasks Demo.started))
      with (alter write "t1"
              (processing_tasks (Demo.closing w n))).
    - by refine (step_write (Demo.closing w n) [] (Demo.work true) _ _ n write
                   [] _ _).
    - apply map_eq. intros i. cbn [Demo.closing processing_tasks].
      rewrite !alter_entry. destruct (decide ("t1" = i)); [|done].
      destruct (processing_tasks Demo.started !! i); simpl; [|done].
      f_equal. symmetry. by apply written_task_next. }
  split.
  - eexists _, _, _, _. split; [vm_compute; reflexivity|].
    split; [apply demo_closing_reachable; lia|].
    split; [apply Hstep; lia|]. split; [apply Hstep; lia|].
    split; [vm_compute; reflexivity|]. split; [vm_compute; reflexivity|].
    split; [vm_compute; reflexivity|].
    split_and!; try reflexivity; try (by right); try (by left);
      discriminate.
  - eexists _, _. split; [apply demo_closing_reachable; lia|].
    split; [apply Hstep; lia|].
    split; [vm_compute; reflexivity|]. split; [vm_compute; reflexivity|].
    split_and!; try reflexivity; by right.
Qed.

(** C7 as stated fails.  With max_age_days 7, yesterday's message is kept
    and so is its reply written twenty days ago, thirteen days before the
    cutoff: no reply is checked against the cutoff.  With max_age_days 0 the
    filter is skipped altogether, and a message ten days older than the
    cutoff [now - 0 days] stays.  With a max_age_days that reaches back before
    the year 1 the cutoff cannot be computed and the body raises. *)
Lemma replies_escape_age_filter :
  (minus_days Demo.now 7 = ret Demo.cutoff
   /\ msg_timestamp Demo.old_reply < Demo.cutoff
   /\ exists w',
       filter_by_age Demo.now (Some 7) Demo.threads = ret w'
       /\ forall env, exists all d,
            collected_documents env w' = ret all
            /\ d ∈ all
            /\ page_content d = msg_text Demo.old_reply
            /\ metadata d !! "message_id" = Some (MStr (msg_id Demo.old_reply))
            /\ metadata d !! "source_type" = Some (MStr "reply"))
  /\ (minus_days Demo.now 0 = ret Demo.now
      /\ filter_by_age Demo.now (Some 0) Demo.threads = ret Demo.threads
      /\ Demo.old_message ∈ chan_messages Demo.general
      /\ Demo.general ∈ ws_channels Demo.threads
      /\ msg_timestamp Demo.old_message < Demo.now)
  /\ filter_by_age Demo.now (Some 738001) Demo.threads
     = raise (OverflowError "date value out of range").
Proof.
  split; [|split].
  - split_and!; [reflexivity|by vm_compute|].
    eexists. split; [vm_compute; reflexivity|].
    intros env. eexists. eexists. split; [reflexivity|]. split_and!.
    + cbn. right. left.
    + reflexivity.
    + reflexivity.
    + reflexivity.
  - split_and!; [reflexivity|reflexivity| | |by vm_compute].
    + simpl. right. left.
    + simpl. left.
  - reflexivity.
Qed.

(** C9 as stated fails.  An answer with a blank line between two lines,
    which does not decode as a JSON list, gives three insights, the middle
    one the empty string: empty lines are not left out.  And when the
    completion call of the step raises (every other call answering), the step
    raises too, the pipeline ends with that exception and the task fails. *)
Lemma insights_keep_blank_lines :
  (forall env,
     (forall insights,
        json_loads env Demo.line_blank_line <> Some (JList insights)) ->
     parse_insights env Demo.line_blank_line
     = [JStr "line one"; JStr EmptyString; JStr "line two"])
  /\ parse_insights (Demo.services Demo.threads "ok") Demo.line_blank_line
     = [JStr "line one"; JStr EmptyString; JStr "line two"]
  /\ _extract_key_insights (Demo.services_down Demo.threads) Demo.threads "ok"
     = raise (OtherError "insufficient_quota")
  /\ pipeline (Demo.services_down Demo.threads) (Demo.work true)
     = raise (OtherError "insufficient_quota")
  /\ exists t,
       _process_workspace_data (Demo.services_down Demo.threads)
         (Demo.work true) (processing_tasks Demo.accepted) !! "t1" = Some t
       /\ task_status t = "failed"
       /\ task_error t = Some "insufficient_quota".
Proof.
  split_and!.
  - intros env H. by rewrite parse_insights_fallback.
  - reflexivity.
  - reflexivity.
  - vm_compute. reflexivity.
  - eexists. split; [vm_compute; reflexivity|split; reflexivity].
Qed.

(** * Further properties of the service *)

(** ** Dictionaries filled by a loop *)

Section Dictionaries.

Context {V : Type}.

Implicit Types (d : list (string * V)).

Lemma dict_set_keys k v d :
  (Py.dict_set k v d).*1 = if bool_decide (k ∈ d.*1) then d.*1 else d.*1 ++ [k].
Proof.
  induction d as [|[k' v'] r IH]; cbn [Py.dict_set].
  - rewrite bool_decide_eq_false_2; [done|]. apply not_elem_of_nil.
  - rewrite (fmap_cons fst (k', v') r). cbn [fst].
    destruct (String.eqb k' k) eqn:Hk.
    + apply String.eqb_eq in Hk as ->. rewrite fmap_cons. cbn [fst].
      rewrite bool_decide_eq_true_2; [done|]. by left.
    + apply String.eqb_neq in Hk. rewrite fmap_cons, IH. cbn [fst].
      destruct (decide (k ∈ r.*1)) as [Hin|Hout].
      * rewrite !bool_decide_eq_true_2; [done| |done]. by right.
      * rewrite !bool_decide_eq_false_2; [done| |done].
        intros [->|Hin]%elem_of_cons; done.
Qed.

Lemma dict_set_elem k v d kv :
  kv ∈ Py.dict_set k v d -> kv = (k, v) \/ kv ∈ d.
Proof.
  induction d as [|[k' v'] r IH]; simpl.
  - intros ->%list_elem_of_singleton. by left.
  - destruct (String.eqb k' k).
    + intros [->|Hin]%elem_of_cons; [by left|]. right. by right.
    + intros [->|Hin]%elem_of_cons; [right; by left|].
      destruct (IH Hin) as [->|Hr]; [by left|]. right. by right.
Qed.

Lemma dict_set_nodup k v d : NoDup d.*1 -> NoDup (Py.dict_set k v d).*1.
Proof.
  intros Hnd. rewrite dict_set_keys. case_bool_decide; [done|].
  apply NoDup_app. split_and!; [done| |apply NoDup_singleton].
  by intros x Hx ->%list_elem_of_singleton.
Qed.

Lemma dict_set_key_elem k v d x :
  x ∈ (Py.dict_set k v d).*1 <-> x = k \/ x ∈ d.*1.
Proof.
  rewrite dict_set_keys. case_bool_decide as Hk.
  - split; [by right|]. by intros [->|?].
  - rewrite elem_of_app, list_elem_of_singleton. tauto.
Qed.

Lemma dict_set_length k v d :
  (length (Py.dict_set k v d) <= S (length d))%nat.
Proof.
  induction d as [|[k' v'] r IH]; simpl; [lia|].
  destruct (String.eqb k' k); simpl; lia.
Qed.

End Dictionaries.

(** A loop that, for the items it does not skip, computes a value and assigns
    it under the item's key. *)
Lemma dict_loop {A : Type} (key : A -> string) (skip : A -> bool)
    (gen : A -> result string) (step : list (string * string) -> A ->
                                       result (list (string * string)))
    (l : list A) (acc d : list (string * string)) :
  (forall acc a, step acc a =
     if skip a then ret acc
     else bind (gen a) (fun v => ret (Py.dict_set (key a) v acc))) ->
  NoDup acc.*1 ->
  result_for l step acc = ret d ->
  NoDup d.*1
  /\ (forall k, k ∈ d.*1 <->
        k ∈ acc.*1 \/ exists a, a ∈ l /\ key a = k /\ skip a = false)
  /\ (forall k v, (k, v) ∈ d ->
        (k, v) ∈ acc
        \/ exists a, a ∈ l /\ key a = k /\ skip a = false /\ gen a = ret v)
  /\ (length d <= length acc + length l)%nat.
Proof.
  intros Hstep. revert acc. induction l as [|a l IH]; intros acc Hnd; simpl.
  - intros [= <-]. split_and!; [done| |by left|lia].
    intros k. split; [by left|]. intros [?|(a & Ha & _)]; [done|].
    by apply elem_of_nil in Ha.
  - rewrite Hstep. destruct (skip a) eqn:Hskip; simpl.
    + intros Hrun. destruct (IH acc Hnd Hrun) as (H1 & H2 & H3 & H4).
      split_and!; [done| | |lia].
      * intros k. rewrite H2. split.
        -- intros [?|(b & Hb & Hk & Hs)]; [by left|right].
           exists b. split_and!; [by right|done..].
        -- intros [?|(b & [->|Hb]%elem_of_cons & Hk & Hs)]; [by left|congruence|].
           right. eauto.
      * intros k v Hkv. destruct (H3 k v Hkv) as [?|(b & Hb & Hk & Hs & Hg)];
          [by left|right]. exists b. split_and!; [by right|done..].
    + destruct (gen a) as [e|v] eqn:Hgen; simpl; [done|].
      intros Hrun.
      destruct (IH (Py.dict_set (key a) v acc) (dict_set_nodup _ _ _ Hnd) Hrun)
        as (H1 & H2 & H3 & H4).
      pose proof (dict_set_length (key a) v acc). split_and!; [done| | |lia].
      * intros k. rewrite H2, dict_set_key_elem. split.
        -- intros [[->|?]|(b & Hb & Hk & Hs)].
           ++ right. exists a. split_and!; [by left|done..].
           ++ by left.
           ++ right. exists b. split_and!; [by right|done..].
        -- intros [?|(b & [->|Hb]%elem_of_cons & Hk & Hs)].
           ++ left. by right.
           ++ left. by left.
           ++ right. eauto.
      * intros k v' Hkv.
        destruct (H3 k v' Hkv) as [Hset|(b & Hb & Hk & Hs & Hg)].
        -- destruct (dict_set_elem _ _ _ _ Hset) as [[= -> ->]|?]; [|by left].
           right. exists a. split_and!; [by left|done..].
        -- right. exists b. split_and!; [by right|done..].
Qed.

(** ** The summarization steps *)

Section Steps.

Context (env : Services).


Lemma take_app_long {A : Type} (n : nat) (l extra : list A) :
  (n <= length l)%nat -> take n (l ++ extra) = take n l.
Proof. intros H. by rewrite take_app_le. Qed.

(** X2. A channel without messages gets the fixed text "Empty channel or no
    recent messages." and no completion call is made; otherwise the prompt
    holds one line per message for the first 50 messages of the channel and
    no more, so messages after the 50th never change the summary. *)
Theorem channel_summary_window channel :
  (chan_messages channel = [] ->
     _generate_channel_summary env channel
     = ret "Empty channel or no recent messages.")
  /\ (chan_messages channel <> [] ->
       exists lines,
         lines = (message_line env <$> take 50 (chan_messages channel))
         /\ length lines = Nat.min 50 (length (chan_messages channel))
         /\ _generate_channel_summary env channel
            = chain_run env ChannelSummaryPrompt
                [("channel_name", chan_name channel);
                 ("message_text", Py.join Py.nl lines)])
  /\ (forall extra,
       (50 <= length (chan_messages channel))%nat ->
       _generate_channel_summary env
         (set_messages (chan_messages channel ++ extra) channel)
       = _generate_channel_summary env channel).
Proof.
  split_and!.
  - intros H. unfold _generate_channel_summary. by rewrite H.
  - intros H. eexists. split; [reflexivity|]. split.
    + by rewrite length_fmap, length_take.
    + unfold _generate_channel_summary.
      by destruct (chan_messages channel).
  - intros extra Hlen. unfold _generate_channel_summary.
    cbn [chan_messages chan_name set_messages].
    rewrite take_app_long by done.
    destruct (chan_messages channel) as [|m l] eqn:Hm; [simpl in Hlen; lia|].
    done.
Qed.

Lemma channel_summary_step_shape acc channel :
  channel_summary_step env acc channel =
  if bool_decide (chan_messages channel = []) then ret acc
  else bind (_generate_channel_summary env channel)
         (fun v => ret (Py.dict_set (chan_id channel) v acc)).
Proof.
  unfold channel_summary_step. by destruct (chan_messages channel).
Qed.

Lemma channel_summaries_cover_core channels summaries :
  result_for channels (channel_summary_step env) [] = ret summaries ->
  NoDup summaries.*1
  /\ (forall k, k ∈ summaries.*1 <->
        exists c, c ∈ channels /\ chan_id c = k /\ chan_messages c <> [])
  /\ (forall k v, (k, v) ∈ summaries ->
        exists c, c ∈ channels /\ chan_id c = k /\ chan_messages c <> []
                  /\ _generate_channel_summary env c = ret v)
  /\ (length summaries <= length channels)%nat.
Proof.
  intros Hrun.
  destruct (dict_loop chan_id (fun c => bool_decide (chan_messages c = []))
              (_generate_channel_summary env) (channel_summary_step env)
              channels [] summaries channel_summary_step_shape
              (NoDup_nil_2) Hrun) as (H1 & H2 & H3 & H4).
  split_and!; [done| | |simpl in H4; lia].
  - intros k. rewrite H2. split.
    + intros [Hin|(c & Hc & Hk & Hs)]; [by apply elem_of_nil in Hin|].
      exists c. split_and!; [done..|]. by apply bool_decide_eq_false in Hs.
    + intros (c & Hc & Hk & Hs). right. exists c. split_and!; [done..|].
      by apply bool_decide_eq_false.
  - intros k v Hkv.
    destruct (H3 k v Hkv) as [Hin|(c & Hc & Hk & Hs & Hg)];
      [by apply elem_of_nil in Hin|].
    exists c. split_and!; [done..| |done]. by apply bool_decide_eq_false in Hs.
Qed.

(** X3. When the loop over the channels ends without an exception, the
    summary dictionary has one key per channel id that has messages, each key
    once; the channels without messages have no entry (unless another channel
    with messages shares their id); and every value is what the channel
    summary returned for a channel with that id. *)
Theorem channel_summaries_cover channels summaries :
  result_for channels (channel_summary_step env) [] = ret summaries ->
  NoDup summaries.*1
  /\ (forall k, k ∈ summaries.*1 <->
        exists c, c ∈ channels /\ chan_id c = k /\ chan_messages c <> [])
  /\ (forall k v, (k, v) ∈ summaries ->
        exists c, c ∈ channels /\ chan_id c = k /\ chan_messages c <> []
                  /\ _generate_channel_summary env c = ret v)
  /\ (length summaries <= length channels)%nat.
Proof. exact (channel_summaries_cover_core channels summaries). Qed.

Lemma canvas_summary_step_shape acc canvas :
  canvas_summary_step env acc canvas =
  if false then ret acc
  else bind (_generate_canvas_summary env canvas)
         (fun v => ret (Py.dict_set (canvas_id canvas) v acc)).
Proof. reflexivity. Qed.

Lemma textless_blocks_add_nothing acc content :
  (forall b, b ∈ content ->
     b !! "text" = None
     /\ forall value, b !! "rich_text" = Some value ->
          exists elements,
            elements_of env value = ret elements
            /\ forall e, e ∈ elements -> has_text env e = ret false) ->
  result_for content (block_lines env) acc = ret acc.
Proof.
  revert acc. induction content as [|b l IH]; intros acc H; [done|].
  cbn [result_for]. assert (block_lines env acc b = ret acc) as ->.
  { destruct (H b) as [Ht Hr]; [by left|]. unfold block_lines. rewrite Ht.
    destruct (b !! "rich_text") as [value|]; [|done].
    destruct (Hr value eq_refl) as (elements & -> & Hel). cbn [bind ret].
    clear -Hel. revert acc.
    induction elements as [|e r IHr]; intros acc; [done|].
    cbn [result_for]. unfold element_lines at 1.
    rewrite (Hel e) by (by left). cbn [bind ret].
    apply IHr. intros e' He'. apply Hel. by right. }
  cbn [bind ret]. apply IH. intros b' Hb'. apply H. by right.
Qed.

(** X4. Canvas summaries are produced only when include_canvases is true and
    the workspace has canvases: otherwise the dictionary is empty and no call
    is made.  When they are produced, the dictionary has exactly the canvas
    ids as keys, each once.  A canvas whose extracted text is blank, in
    particular one whose blocks have neither a "text" key nor a rich-text
    element with one, gets the fixed text "Empty canvas or content could not
    be processed." without a completion call.  A first block whose "text" is
    not a string makes the step raise the interpreter's TypeError. *)
Theorem canvas_summaries_gate include_canvases workspace :
  (include_canvases = false \/ ws_canvases workspace = [] ->
     canvas_summaries_of env include_canvases workspace = ret [])
  /\ (forall summaries,
       canvas_summaries_of env true workspace = ret summaries ->
       NoDup summaries.*1
       /\ (forall k, k ∈ summaries.*1 <->
             exists canvas, canvas ∈ ws_canvases workspace
                            /\ canvas_id canvas = k)
       /\ (forall k v, (k, v) ∈ summaries ->
             exists canvas, canvas ∈ ws_canvases workspace
                            /\ canvas_id canvas = k
                            /\ _generate_canvas_summary env canvas = ret v))
  /\ (forall canvas canvas_text,
       result_for (canvas_content canvas) (block_lines env) EmptyString
       = ret canvas_text ->
       Py.blank canvas_text = true ->
       _generate_canvas_summary env canvas
       = ret "Empty canvas or content could not be processed.")
  /\ (forall canvas,
       (forall b, b ∈ canvas_content canvas ->
          b !! "text" = None
          /\ forall value, b !! "rich_text" = Some value ->
               exists elements,
                 elements_of env value = ret elements
                 /\ forall e, e ∈ elements -> has_text env e = ret false) ->
       _generate_canvas_summary env canvas
       = ret "Empty canvas or content could not be processed.")
  /\ (forall canvas block rest value,
       canvas_content canvas = block :: rest ->
       block !! "text" = Some value -> (forall text, value <> JStr text) ->
       _generate_canvas_summary env canvas
       = raise (TypeError (type_error env Concatenate value))).
Proof.
  split_and!.
  - intros [-> | H]; [done|]. unfold canvas_summaries_of. rewrite H.
    by destruct include_canvases.
  - intros summaries Hrun.
    assert (Hloop : result_for (ws_canvases workspace)
                      (canvas_summary_step env) [] = ret summaries).
    { unfold canvas_summaries_of in Hrun.
      destruct (ws_canvases workspace); [|done]. by injection Hrun as <-. }
    destruct (dict_loop canvas_id (fun _ => false)
                (_generate_canvas_summary env) (canvas_summary_step env)
                (ws_canvases workspace) [] summaries canvas_summary_step_shape
                (NoDup_nil_2) Hloop) as (H1 & H2 & H3 & _).
    split_and!; [done| |].
    + intros k. rewrite H2. split.
      * intros [Hin|(c & Hc & Hk & _)]; [by apply elem_of_nil in Hin|]. eauto.
      * intros (c & Hc & Hk). right. eauto.
    + intros k v Hkv.
      destruct (H3 k v Hkv) as [Hin|(c & Hc & Hk & _ & Hg)];
        [by apply elem_of_nil in Hin|]. eauto.
  - intros canvas canvas_text Ht Hb. unfold _generate_canvas_summary.
    rewrite Ht. cbn [bind ret]. by rewrite strip_truthy, Hb.
  - intros canvas H. unfold _generate_canvas_summary.
    by rewrite textless_blocks_add_nothing.
  - intros canvas block rest value Hc Ht Hv. unfold _generate_canvas_summary.
    rewrite Hc. cbn [result_for]. unfold block_lines at 1. rewrite Ht.
    destruct value; try done. by destruct (Hv s).
Qed.

Lemma channel_entries_by_position workspace summaries n acc :
  (forall kv, kv ∈ summaries -> kv.1 ∈ chan_id <$> ws_channels workspace) ->
  (n + length summaries <= length (ws_channels workspace))%nat ->
  result_for (imap (fun i x => ((n + i)%nat, x)) summaries)
    (channel_entry workspace) acc
  = ret (acc ++ zip_with
                  (fun name summary =>
                     "CHANNEL: " +:+ name +:+ Py.nl +:+ "SUMMARY: " +:+ summary)
                  (drop n (chan_name <$> ws_channels workspace)) summaries.*2).
Proof.
  revert n acc. induction summaries as [|[k v] d IH]; intros n acc Hkeys Hlen.
  - simpl. destruct (drop n _); simpl; by rewrite app_nil_r.
  - rewrite imap_cons. cbn [result_for]. unfold channel_entry at 1.
    rewrite bool_decide_eq_true_2 by (apply (Hkeys (k, v)); by left).
    rewrite Nat.add_0_r.
    destruct (lookup_lt_is_Some_2 (ws_channels workspace) n) as [c Hc].
    { simpl in Hlen. lia. }
    rewrite Hc. cbn [bind ret].
    rewrite (imap_ext _ (fun i x => ((S n + i)%nat, x)))
      by (intros i x _; simpl; f_equal; lia).
    rewrite IH.
    + rewrite (drop_S _ (chan_name c) n) by (by rewrite list_lookup_fmap, Hc).
      rewrite fmap_cons. cbn [zip_with snd]. by rewrite <- (assoc_L (++)).
    + intros kv Hkv. apply Hkeys. by right.
    + simpl in Hlen. lia.
Qed.

(** X5. With the summary dictionary the channel loop produced for the same
    workspace, building the overall prompt never raises IndexError; the i-th
    summary of the dictionary is labelled with the name of the i-th channel
    of the workspace (by position, not by channel id); and the completion
    call receives these entries joined by blank lines, then the canvas
    entries if there are canvas summaries, and the instruction text. *)
Theorem workspace_summary_labels workspace summaries canvas_summaries
    custom_instruction :
  result_for (ws_channels workspace) (channel_summary_step env) []
  = ret summaries ->
  let entries :=
    zip_with
      (fun name summary =>
         "CHANNEL: " +:+ name +:+ Py.nl +:+ "SUMMARY: " +:+ summary)
      (chan_name <$> ws_channels workspace) summaries.*2 in
  result_for (imap pair summaries) (channel_entry workspace) [] = ret entries
  /\ length entries = length summaries
  /\ _generate_workspace_summary env workspace summaries canvas_summaries
       custom_instruction
     = chain_run env WorkspaceSummaryPrompt
         [("workspace_name", ws_name workspace);
          ("combined_summaries",
           match canvas_summaries with
           | [] => Py.join (Py.nl +:+ Py.nl) entries
           | _ =>
               Py.join (Py.nl +:+ Py.nl) entries +:+ Py.nl +:+ Py.nl
               +:+ Py.join (Py.nl +:+ Py.nl)
                     (canvas_summaries ≫= canvas_entries workspace)
           end);
          ("instruction_text", instruction_text custom_instruction)].
Proof.
  intros Hrun entries.
  destruct (channel_summaries_cover_core _ _ Hrun) as (_ & Hkeys & _ & Hlen).
  assert (Hentries : result_for (imap pair summaries)
                       (channel_entry workspace) [] = ret entries).
  { rewrite (imap_ext _ (fun i x => ((0 + i)%nat, x))) by done.
    rewrite channel_entries_by_position; [done| |simpl; lia].
    intros [k v] Hkv.
    assert (Hk : k ∈ summaries.*1) by (apply list_elem_of_fmap; by exists (k, v)).
    apply Hkeys in Hk as (c & Hc & <- & _). simpl.
    apply list_elem_of_fmap. eauto. }
  split_and!; [done| |].
  - unfold entries. rewrite length_zip_with, !length_fmap. lia.
  - unfold _generate_workspace_summary. rewrite Hentries. cbn [bind ret].
    by destruct canvas_summaries.
Qed.

End Steps.

(** ** User names *)




(** ** The worker and the registry *)

Lemma pipeline_all_or_nothing_core env item :
  (forall e, fetch_all_workspace_data env (wi_workspace_id item) = raise e ->
     pipeline env item = raise e)
  /\ (forall res, pipeline env item = ret res ->
       exists fetched workspace_data documents store channel_summaries
              canvas_summaries overall_summary key_insights topics,
         fetch_all_workspace_data env (wi_workspace_id item) = ret fetched
         /\ filter_by_age (now_at_filter env) (wi_max_age_days item)
              (filter_channels (wi_channels item) fetched) = ret workspace_data
         /\ _prepare_documents env workspace_data = ret documents
         /\ documents <> []
         /\ _create_vector_store env documents = ret store
         /\ result_for (ws_channels workspace_data) (channel_summary_step env) []
            = ret channel_summaries
         /\ canvas_summaries_of env (wi_include_canvases item) workspace_data
            = ret canvas_summaries
         /\ (wi_include_canvases item = false -> canvas_summaries = [])
         /\ _generate_workspace_summary env workspace_data channel_summaries
              canvas_summaries (wi_custom_instruction item) = ret overall_summary
         /\ _extract_key_insights env workspace_data overall_summary
            = ret key_insights
         /\ _identify_topics env store workspace_data = ret topics
         /\ validate_result env
              {| res_workspace_id := wi_workspace_id item;
                 res_summary := overall_summary;
                 res_channel_summaries := channel_summaries;
                 res_canvas_summaries := canvas_summaries;
                 res_key_insights := key_insights;
                 res_topics := topics;
                 res_processing_time := now_at_result env |} = ret res).
Proof.
  split.
  - intros e H. unfold pipeline. by rewrite H.
  - intros res. unfold pipeline.
    intros (fetched & Hfetch & H)%bind_ret_inv.
    apply bind_ret_inv in H as (workspace_data & Hage & H).
    apply bind_ret_inv in H as (documents & Hdocs & H).
    destruct documents as [|doc docs]; [done|].
    apply bind_ret_inv in H as (store & Hstore & H).
    apply bind_ret_inv in H as (channel_summaries & Hch & H).
    apply bind_ret_inv in H as (canvas_summaries & Hcv & H).
    apply bind_ret_inv in H as (overall_summary & Hov & H).
    apply bind_ret_inv in H as (key_insights & Hki & H).
    apply bind_ret_inv in H as (topics & Htp & H).
    exists fetched, workspace_data, (doc :: docs), store, channel_summaries,
      canvas_summaries, overall_summary, key_insights, topics.
    split_and!; try done.
    intros Hflag. rewrite Hflag in Hcv. simpl in Hcv. by injection Hcv as <-.
Qed.

(** X7. A result is produced only when every step of the worker body
    succeeded, each on what the steps before it produced: the fetch, the age
    filter, a non-empty corpus, the vector store, the channel summaries, the
    canvas summaries (empty when include_canvases is false), the overall
    summary, the insights, the topics and the validation of the assembled
    record.  An exception of the fetch is the exception of the body. *)
Theorem pipeline_all_or_nothing env item :
  (forall e, fetch_all_workspace_data env (wi_workspace_id item) = raise e ->
     pipeline env item = raise e)
  /\ (forall res, pipeline env item = ret res ->
       exists fetched workspace_data documents store channel_summaries
              canvas_summaries overall_summary key_insights topics,
         fetch_all_workspace_data env (wi_workspace_id item) = ret fetched
         /\ filter_by_age (now_at_filter env) (wi_max_age_days item)
              (filter_channels (wi_channels item) fetched) = ret workspace_data
         /\ _prepare_documents env workspace_data = ret documents
         /\ documents <> []
         /\ _create_vector_store env documents = ret store
         /\ result_for (ws_channels workspace_data) (channel_summary_step env) []
            = ret channel_summaries
         /\ canvas_summaries_of env (wi_include_canvases item) workspace_data
            = ret canvas_summaries
         /\ (wi_include_canvases item = false -> canvas_summaries = [])
         /\ _generate_workspace_summary env workspace_data channel_summaries
              canvas_summaries (wi_custom_instruction item) = ret overall_summary
         /\ _extract_key_insights env workspace_data overall_summary
            = ret key_insights
         /\ _identify_topics env store workspace_data = ret topics
         /\ validate_result env
              {| res_workspace_id := wi_workspace_id item;
                 res_summary := overall_summary;
                 res_channel_summaries := channel_summaries;
                 res_canvas_summaries := canvas_summaries;
                 res_key_insights := key_insights;
                 res_topics := topics;
                 res_processing_time := now_at_result env |} = ret res).
Proof. exact (pipeline_all_or_nothing_core env item). Qed.

Lemma worker_writes_one_entry_core env item tasks :
  (tasks !! wi_task_id item = None ->
     _process_workspace_data env item tasks = tasks)
  /\ (forall other, other <> wi_task_id item ->
       _process_workspace_data env item tasks !! other = tasks !! other)
  /\ (forall t, tasks !! wi_task_id item = Some t ->
       exists t',
         _process_workspace_data env item tasks !! wi_task_id item = Some t'
         /\ task_workspace_id t' = task_workspace_id t
         /\ task_started_at t' = task_started_at t
         /\ task_parameters t' = task_parameters t
         /\ task_completed_at t' = Some (now_at_end env)
         /\ match pipeline env item with
            | inr res =>
                task_status t' = "completed" /\ task_results t' = Some res
                /\ task_error t' = task_error t
            | inl e =>
                task_status t' = "failed" /\ task_error t' = Some (str_exn e)
                /\ task_results t' = task_results t
            end).
Proof.
  split_and!.
  - intros H. unfold _process_workspace_data. by rewrite H.
  - intros other Hne. unfold _process_workspace_data.
    destruct (tasks !! wi_task_id item); [|done].
    rewrite store_outcome_lookup, decide_False by done.
    by rewrite mark_processing_lookup, decide_False.
  - intros t Ht. eexists. split; [by apply process_workspace_data_entry|].
    destruct (pipeline env item); by split_and!.
Qed.

(** X8. [_process_workspace_data] changes one registry entry and nothing else.
    For a task id that is not registered it writes nothing.  For a registered
    one the entry ends completed with the result of the body stored and the
    error field as it was, or failed with the text of the exception stored
    and the results field as it was; either way the completion time is set,
    and the workspace id, start time and parameters are kept. *)
Theorem worker_writes_one_entry env item tasks :
  (tasks !! wi_task_id item = None ->
     _process_workspace_data env item tasks = tasks)
  /\ (forall other, other <> wi_task_id item ->
       _process_workspace_data env item tasks !! other = tasks !! other)
  /\ (forall t, tasks !! wi_task_id item = Some t ->
       exists t',
         _process_workspace_data env item tasks !! wi_task_id item = Some t'
         /\ task_workspace_id t' = task_workspace_id t
         /\ task_started_at t' = task_started_at t
         /\ task_parameters t' = task_parameters t
         /\ task_completed_at t' = Some (now_at_end env)
         /\ match pipeline env item with
            | inr res =>
                task_status t' = "completed" /\ task_results t' = Some res
                /\ task_error t' = task_error t
            | inl e =>
                task_status t' = "failed" /\ task_error t' = Some (str_exn e)
                /\ task_results t' = task_results t
            end).
Proof. exact (worker_writes_one_entry_core env item tasks). Qed.

(** X9. In every reachable state of the service the optional fields of a task
    follow its status: a queued or processing task has no completion time, no
    results and no error; results are present only on a completed task, which
    then has no error; an error is present only on a failed task, which then
    has no results. *)
Theorem task_fields_follow_status s task_id t :
  reachable s -> processing_tasks s !! task_id = Some t ->
  (task_status t = "queued" \/ task_status t = "processing" ->
     task_completed_at t = None /\ task_results t = None /\ task_error t = None)
  /\ (is_Some (task_results t) ->
       task_status t = "completed" /\ task_error t = None)
  /\ (is_Some (task_error t) ->
       task_status t = "failed" /\ task_results t = None)
  /\ (is_Some (task_completed_at t) -> terminal (task_status t)).
Proof.
  intros Hinv%reachable_inv Hl.
  assert (Hfresh : forall t', (task_status t' = "queued"
                               \/ task_status t' = "processing") ->
            fresh_fields t' ->
            (task_status t' = "queued" \/ task_status t' = "processing" ->
               task_completed_at t' = None /\ task_results t' = None
               /\ task_error t' = None)
            /\ (is_Some (task_results t') ->
                 task_status t' = "completed" /\ task_error t' = None)
            /\ (is_Some (task_error t') ->
                 task_status t' = "failed" /\ task_results t' = None)
            /\ (is_Some (task_completed_at t') -> terminal (task_status t'))).
  { intros t' Hst (Hc & Hr & He). rewrite Hc, Hr, He.
    split_and!; [done|by intros [? ?]..]. }
  destruct (decide (task_id ∈ pending_ids s)) as [Hin|Hout].
  - apply pending_ids_elem in Hin as [(item & <- & Hin)|(thread & <- & Hin)].
    + destruct (inv_submitted s Hinv item Hin) as (t' & Ht' & Hst & Hf).
      assert (t' = t) as -> by congruence. apply Hfresh; [by left|done].
    + destruct (inv_running s Hinv thread Hin) as (t' & Ht' & Hte).
      assert (t' = t) as -> by congruence.
      destruct thread as [item|item now outcome written]; simpl in Hte.
      * destruct Hte as [Hst Hf]. apply Hfresh; [by right|done].
      * destruct Hte as (Hle & t0 & Hst0 & Hfr0 & ->).
        destruct (written_task_fields now outcome written t0 Hst0 Hfr0 Hle)
          as (_ & _ & _ & Hs & Hc & Hr & He).
        rewrite Hs, Hc, Hr, He. unfold terminal.
        destruct outcome; destruct written as [|[|[|[|n]]]]; try lia; simpl;
          (split_and!;
           [first [done|intros [?|?]; discriminate]
           |first [done|by intros [? ?]]
           |first [done|by intros [? ?]]
           |first [by intros [? ?]|intros _; by left|intros _; by right]]).
  - destruct (inv_closed s Hinv task_id t Hl Hout)
      as [(Hst & Hr & He & Hc)|(Hst & Hr & He & Hc)].
    + rewrite Hst, He. split_and!.
      * intros [?|?]; discriminate.
      * done.
      * by intros [? ?].
      * intros _. by left.
    + rewrite Hst, Hr. split_and!.
      * intros [?|?]; discriminate.
      * by intros [? ?].
      * done.
      * intros _. by right.
Qed.

(** X10. Submitting a task, running the worker on the work item the
    submission queued, and then asking: when the body returned a result,
    [get_task_status] reports completed and [get_task_results] returns that
    result; when the body raised, [get_task_status] reports failed with the
    exception's text as error and [get_task_results] raises the not-ready
    error; tasks registered before are as they were. *)
Theorem submit_run_read env task_id now workspace_id channels include_canvases
    max_age_days custom_instruction s :
  let submission :=
    start_processing_task task_id now workspace_id channels include_canvases
      max_age_days custom_instruction s in
  exists item,
    last (submitted submission.2) = Some item
    /\ wi_task_id item = submission.1
    /\ let s' :=
         {| processing_tasks :=
              _process_workspace_data env item (processing_tasks submission.2);
            submitted := submitted s;
            running := running s |} in
       (forall other, other <> task_id ->
          processing_tasks s' !! other = processing_tasks s !! other)
       /\ exists view,
            (get_task_status submission.1 s').1 = ret view
            /\ view_completed_at view = Some (now_at_end env)
            /\ match pipeline env item with
               | inr res =>
                   view_status view = "completed"
                   /\ view_error view = None
                   /\ (get_task_results submission.1 s').1 = ret (Some res)
               | inl e =>
                   view_status view = "failed"
                   /\ view_error view = Some (str_exn e)
                   /\ (get_task_results submission.1 s').1
                      = raise (NotReadyError task_id)
               end.
Proof.
  intros submission.
  set (item := {| wi_task_id := task_id; wi_workspace_id := workspace_id;
                  wi_channels := channels;
                  wi_include_canvases := include_canvases;
                  wi_max_age_days := max_age_days;
                  wi_custom_instruction := custom_instruction |}).
  set (queued := {| task_workspace_id := workspace_id; task_status := "queued";
                    task_started_at := now; task_completed_at := None;
                    task_parameters :=
                      {| par_channels := channels;
                         par_include_canvases := include_canvases;
                         par_max_age_days := max_age_days;
                         par_custom_instruction := custom_instruction |};
                    task_results := None; task_error := None |}).
  exists item. split; [simpl; by rewrite last_snoc|].
  split; [done|]. intros s'. split.
  - intros other Hne.
    destruct (worker_writes_one_entry_core env item (processing_tasks submission.2))
      as (_ & Hframe & _).
    subst s'. cbn [processing_tasks]. rewrite Hframe by done.
    simpl. by rewrite lookup_insert_ne.
  - assert (Hentry : processing_tasks s' !! task_id =
                     Some (close_task (now_at_end env) (pipeline env item)
                             (set_status "processing" queued))).
    { apply (process_workspace_data_entry env item
               (processing_tasks submission.2) queued).
      apply lookup_insert_eq. }
    unfold get_task_status, get_task_results.
    change submission.1 with task_id. rewrite Hentry.
    eexists. split; [reflexivity|].
    destruct (pipeline env item) as [e|res]; simpl; by split_and!.
Qed.

(** ** The request layer *)

Section RouteProperties.

Context (str_http : Routes.HTTPException -> string).


(** X12. The submission route answers 500, not 404, for a workspace that has
    no registered client, and creates no task.  For a registered workspace it
    answers with the drawn task id and the status text "processing", while
    the task it has just registered is queued: [get_task_status] on that id
    reports queued.  The request's channel list is passed on as it is, so an
    empty list, not an absent one, stands for all channels. *)
Theorem submission_route clients task_id now request s :
  let answer :=
    Routes.process_workspace_data str_http clients task_id now request s in
  (clients !! Routes.request_workspace_id request = None ->
     answer.2 = s
     /\ answer.1 =
        inl {| Routes.status_code := 500;
               Routes.detail :=
                 "Failed to start processing: "
                 +:+ str_http
                       {| Routes.status_code := 404;
                          Routes.detail :=
                            "Workspace "
                            +:+ Routes.request_workspace_id request
                            +:+ " not found" |} |})
  /\ (is_Some (clients !! Routes.request_workspace_id request) ->
       answer.1 =
         inr {| Routes.started_task_id := task_id;
                Routes.started_status := "processing";
                Routes.started_message :=
                  "AI processing started in the background" |}
       /\ (exists t, processing_tasks answer.2 !! task_id = Some t
                     /\ task_status t = "queued"
                     /\ par_channels (task_parameters t)
                        = Some (Routes.request_process_channels request))
       /\ (exists view, (get_task_status task_id answer.2).1 = ret view
                        /\ view_status view = "queued")
       /\ exists item, last (submitted answer.2) = Some item
                       /\ wi_task_id item = task_id
                       /\ wi_channels item
                          = Some (Routes.request_process_channels request)).
Proof.
  intros answer. subst answer. unfold Routes.process_workspace_data. split.
  - intros ->. by split.
  - intros [client ->]. cbn [fst snd start_processing_task processing_tasks
                               submitted]. split_and!.
    + done.
    + eexists. rewrite lookup_insert_eq. by split_and!.
    + unfold get_task_status. cbn [processing_tasks].
      rewrite lookup_insert_eq. eexists. by split.
    + eexists. rewrite last_snoc. by split_and!.
Qed.

End RouteProperties.

(** ** The Slack integration service *)

Section IntegrationProperties.

Import SlackIntegration.

Context (platform : Platform).

Lemma and_then_answer {A B : Type} (o : outcome A) (k : A -> outcome B) (b : B) :
  and_then o k = Answer b -> exists a, o = Answer a /\ k a = Answer b.
Proof. destruct o; simpl; [eauto|done..]. Qed.

Lemma collect_answer {A B : Type} (l : list A) (f : A -> outcome (list B))
    (acc out : list B) :
  collect l f acc = Answer out <->
  exists parts, Forall2 (fun a p => f a = Answer p) l parts
                /\ out = acc ++ concat parts.
Proof.
  revert acc. induction l as [|a l IH]; intros acc; simpl.
  - split.
    + intros [= <-]. exists []. split; [constructor|]. by rewrite app_nil_r.
    + intros (parts & Hf & ->). apply Forall2_nil_inv_l in Hf as ->.
      by rewrite app_nil_r.
  - split.
    + intros (p & Hp & Hrest)%and_then_answer.
      apply IH in Hrest as (parts & Hf & ->). exists (p :: parts).
      split; [by constructor|]. simpl. by rewrite (assoc_L (++)).
    + intros (parts & Hf & ->).
      apply Forall2_cons_inv_l in Hf as (p & parts' & Hp & Hf & ->).
      rewrite Hp. simpl. apply IH. exists parts'. split; [done|].
      simpl. by rewrite (assoc_L (++)).
Qed.

Lemma last_fold_some {A B : Type} (g : A -> B) (l : list A) (acc : option B) :
  foldl (fun _ a => Some (g a)) acc l =
  match last l with Some a => Some (g a) | None => acc end.
Proof.
  revert acc. induction l as [|a l IH]; intros acc; [done|].
  cbn [foldl]. rewrite IH, last_cons. by destruct (last l).
Qed.

Lemma forall2_elem_r {A B : Type} (P : A -> B -> Prop) l k y :
  Forall2 P l k -> y ∈ k -> exists x, x ∈ l /\ P x y.
Proof.
  induction 1 as [|x y' l k Hxy Hrest IH]; intros Hin;
    [by apply elem_of_nil in Hin|].
  apply elem_of_cons in Hin as [->|Hin].
  - exists x. split; [by left|done].
  - destruct (IH Hin) as (x' & Hx' & HP). exists x'. split; [by right|done].
Qed.

(** X13. Attachments are processed one for one, in order, with "unknown" as
    the type and empty strings for the title, text and fallback that are
    missing; a message without an "attachments" key has none, whatever files
    it carries.  The "file" entry is the same on every attachment of a
    message: the last of the message's files, with empty strings and size 0
    for what it lacks, and absent when the message has no file. *)
Theorem attachments_processed message :
  (raw_attachments message = None -> _process_attachments message = [])
  /\ (forall attachments, raw_attachments message = Some attachments ->
       length (_process_attachments message) = length attachments
       /\ (attachment_type ∘ pa_fields <$> _process_attachments message)
          = (default "unknown" ∘ rawatt_type <$> attachments)
       /\ (attachment_title ∘ pa_fields <$> _process_attachments message)
          = (default EmptyString ∘ rawatt_title <$> attachments)
       /\ (attachment_text ∘ pa_fields <$> _process_attachments message)
          = (default EmptyString ∘ rawatt_text <$> attachments)
       /\ (attachment_fallback ∘ pa_fields <$> _process_attachments message)
          = (default EmptyString ∘ rawatt_fallback <$> attachments))
  /\ (forall pa, pa ∈ _process_attachments message ->
       pa_file pa =
       match raw_files message with
       | Some files => file_info <$> last files
       | None => None
       end)
  /\ (forall file,
       file_name (file_info file) = default EmptyString (rawfile_name file)
       /\ file_filetype (file_info file)
          = default EmptyString (rawfile_filetype file)
       /\ file_size (file_info file) = default 0 (rawfile_size file)
       /\ file_url_private (file_info file)
          = default EmptyString (rawfile_url_private file)).
Proof.
  unfold _process_attachments. split_and!.
  - by intros ->.
  - intros attachments ->. split_and!.
    + by rewrite length_fmap.
    + by rewrite <- list_fmap_compose.
    + by rewrite <- list_fmap_compose.
    + by rewrite <- list_fmap_compose.
    + by rewrite <- list_fmap_compose.
  - intros pa Hpa.
    assert (Hfile : pa_file pa = attached_file message).
    { destruct (raw_attachments message); [|by apply elem_of_nil in Hpa].
      by apply list_elem_of_fmap in Hpa as (a & -> & _). }
    rewrite Hfile. unfold attached_file.
    destruct (raw_files message) as [files|]; [|done].
    rewrite last_fold_some. by destruct (last files).
  - done.
Qed.

Lemma thread_replies_flat client channel_id msg replies :
  thread_replies platform client channel_id msg = Answer replies ->
  match raw_thread_ts msg with
  | Some thread_ts =>
      if Py.truthy thread_ts && (0 <? default 0 (raw_reply_count msg))
      then exists thread,
             conversations_replies client channel_id thread_ts = Answer thread
             /\ replies = (reply_of platform <$> drop 1 thread)
      else replies = []
  | None => replies = []
  end
  /\ forall r, r ∈ replies -> msg_replies r = [] /\ msg_reactions r = [].
Proof.
  unfold thread_replies, has_thread.
  destruct (raw_thread_ts msg) as [thread_ts|].
  - destruct (Py.truthy thread_ts && (0 <? default 0 (raw_reply_count msg))).
    + intros (thread & Hthread & [= <-])%and_then_answer. split.
      * eauto.
      * by intros r (raw & -> & _)%list_elem_of_fmap.
    + intros [= <-]. split; [done|]. by intros r ?%elem_of_nil.
  - intros [= <-]. split; [done|]. by intros r ?%elem_of_nil.
Qed.

Lemma fetch_message_parts client channel_id raw parts :
  Forall2 (fun msg p => fetch_message platform client channel_id msg = Answer p)
    raw parts ->
  Forall2 (fun msg m =>
             exists replies,
               thread_replies platform client channel_id msg = Answer replies
               /\ m = message_of platform msg replies)
    (filter (fun msg => join_or_leave msg = false) raw) (concat parts).
Proof.
  induction 1 as [|msg p raw parts Hp Hrest IH]; [constructor|].
  unfold fetch_message in Hp. rewrite filter_cons. cbn [concat].
  destruct (join_or_leave msg) eqn:Hj.
  - injection Hp as <-. by rewrite decide_False.
  - apply and_then_answer in Hp as (replies & Hreplies & [= <-]).
    rewrite decide_True by done. cbn [app]. constructor; [eauto|done].
Qed.

Lemma fetch_messages_flat_core client channel_id limit messages :
  fetch_messages platform client channel_id limit = ret messages ->
  exists raw,
    conversations_history client channel_id limit = Answer raw
    /\ Forall2 (fun msg m =>
         msg_id m = raw_ts msg
         /\ msg_text m = raw_text msg
         /\ msg_user m = default EmptyString (raw_user msg)
         /\ msg_timestamp m = fromtimestamp_text platform (raw_ts msg)
         /\ msg_thread_ts m = Some (default EmptyString (raw_thread_ts msg))
         /\ msg_reactions m = (reaction_of <$> default [] (raw_reactions msg))
         /\ msg_attachments m = (pa_fields <$> _process_attachments msg)
         /\ match raw_thread_ts msg with
            | Some thread_ts =>
                if Py.truthy thread_ts
                   && (0 <? default 0 (raw_reply_count msg))
                then exists thread,
                       conversations_replies client channel_id thread_ts
                       = Answer thread
                       /\ msg_replies m = (reply_of platform <$> drop 1 thread)
                else msg_replies m = []
            | None => msg_replies m = []
            end)
         (filter (fun msg => join_or_leave msg = false) raw) messages
    /\ (forall m r, m ∈ messages -> r ∈ msg_replies m ->
          msg_replies r = [] /\ msg_reactions r = []).
Proof.
  unfold fetch_messages, except_api.
  destruct (and_then _ _) as [out|error|e] eqn:Hbody; [|done..].
  intros [= <-].
  apply and_then_answer in Hbody as (raw & Hhistory & Hcollect).
  apply collect_answer in Hcollect as (parts & Hparts & ->).
  exists raw. split; [done|]. cbn [app].
  pose proof (fetch_message_parts _ _ _ _ Hparts) as Hall. split.
  - eapply Forall2_impl; [exact Hall|].
    intros msg m (replies & Hreplies & ->).
    destruct (thread_replies_flat _ _ _ _ Hreplies) as [Hshape _].
    cbn [message_of msg_id msg_text msg_user msg_timestamp msg_thread_ts
           msg_reactions msg_replies msg_attachments].
    split_and!; [done..| |done|done]. by destruct (raw_reactions msg).
  - intros m r Hm Hr.
    destruct (forall2_elem_r _ _ _ _ Hall Hm)
      as (msg & _ & replies & Hreplies & ->).
    destruct (thread_replies_flat _ _ _ _ Hreplies) as [_ Hflat].
    by apply Hflat.
Qed.

(** X14. When [fetch_messages] returns, the channel history was answered and
    the returned messages are, in order, the history's messages other than
    channel_join and channel_leave ones.  Each has the ts of its message as
    id, its text, its user (the empty string when absent), the time of its
    ts, its reactions, its processed attachments, and as thread_ts the
    message's own, the empty string when it has none.  Its replies are the messages of its own thread without
    the first when the message has a non-empty thread_ts and a positive
    reply_count, and none otherwise.  Every reply takes id, text, user and
    thread_ts in the same way and has no replies of its own and no
    reactions: the threads are flat. *)
Theorem fetch_messages_flat client channel_id limit messages :
  fetch_messages platform client channel_id limit = ret messages ->
  exists raw,
    conversations_history client channel_id limit = Answer raw
    /\ Forall2 (fun msg m =>
         msg_id m = raw_ts msg
         /\ msg_text m = raw_text msg
         /\ msg_user m = default EmptyString (raw_user msg)
         /\ msg_timestamp m = fromtimestamp_text platform (raw_ts msg)
         /\ msg_thread_ts m = Some (default EmptyString (raw_thread_ts msg))
         /\ msg_reactions m = (reaction_of <$> default [] (raw_reactions msg))
         /\ msg_attachments m = (pa_fields <$> _process_attachments msg)
         /\ match raw_thread_ts msg with
            | Some thread_ts =>
                if Py.truthy thread_ts
                   && (0 <? default 0 (raw_reply_count msg))
                then exists thread,
                       conversations_replies client channel_id thread_ts
                       = Answer thread
                       /\ msg_replies m = (reply_of platform <$> drop 1 thread)
                else msg_replies m = []
            | None => msg_replies m = []
            end)
         (filter (fun msg => join_or_leave msg = false) raw) messages
    /\ (forall m r, m ∈ messages -> r ∈ msg_replies m ->
          msg_replies r = [] /\ msg_reactions r = [])
    /\ (forall msg,
          join_or_leave msg = true <->
          raw_subtype msg = Some "channel_join"
          \/ raw_subtype msg = Some "channel_leave")
    /\ (forall reply,
          msg_id (reply_of platform reply) = raw_ts reply
          /\ msg_text (reply_of platform reply) = raw_text reply
          /\ msg_user (reply_of platform reply)
             = default EmptyString (raw_user reply)
          /\ msg_timestamp (reply_of platform reply)
             = fromtimestamp_text platform (raw_ts reply)
          /\ msg_thread_ts (reply_of platform reply)
             = Some (default EmptyString (raw_thread_ts reply))
          /\ msg_attachments (reply_of platform reply)
             = (pa_fields <$> _process_attachments reply)).
Proof.
  intros (raw & Hhistory & Hall & Hflat)%fetch_messages_flat_core.
  exists raw. split_and!; [done..| |done].
  intros msg. unfold join_or_leave.
  destruct (raw_subtype msg) as [subtype|].
  - rewrite bool_decide_eq_true, !elem_of_cons, elem_of_nil. split.
    + intros [->|[->|[]]]; [by left|by right].
    + intros [[= ->]|[= ->]]; [by left|right; by left].
  - split; [done|]. by intros [?|?].
Qed.

Lemma collect_api_error {A B : Type} (f : A -> outcome (list B))
    (before after : list A) (a : A) (acc : list B) (error : string) :
  (forall b, b ∈ before -> exists p, f b = Answer p) ->
  f a = SlackApiError error ->
  collect (before ++ a :: after) f acc = SlackApiError error.
Proof.
  revert acc. induction before as [|b before IH]; intros acc Hbefore Ha; simpl.
  - by rewrite Ha.
  - destruct (Hbefore b) as [p ->]; [by left|]. simpl. apply IH; [|done].
    intros b' Hb'. apply Hbefore. by right.
Qed.

(** X15. [fetch_messages] turns a [SlackApiError] of the history call into
    the IntegrationError "Failed to fetch Slack messages: <error>" and lets
    any other exception through unchanged.  A [SlackApiError] on the replies
    of one thread, after the messages before it were read, ends the whole
    call with the same IntegrationError: no message of the channel is
    returned. *)
Theorem fetch_messages_errors client channel_id limit :
  (forall error,
     conversations_history client channel_id limit = SlackApiError error ->
     fetch_messages platform client channel_id limit
     = raise (IntegrationError ("Failed to fetch Slack messages: " +:+ error)))
  /\ (forall e,
       conversations_history client channel_id limit = Raised e ->
       fetch_messages platform client channel_id limit = raise e)
  /\ (forall before msg after thread_ts error,
       conversations_history client channel_id limit
       = Answer (before ++ msg :: after) ->
       (forall m, m ∈ before ->
          exists p, fetch_message platform client channel_id m = Answer p) ->
       join_or_leave msg = false -> has_thread msg = true ->
       raw_thread_ts msg = Some thread_ts ->
       conversations_replies client channel_id thread_ts = SlackApiError error ->
       fetch_messages platform client channel_id limit
       = raise (IntegrationError ("Failed to fetch Slack messages: " +:+ error))).
Proof.
  unfold fetch_messages. split_and!.
  - by intros error ->.
  - by intros e ->.
  - intros before msg after thread_ts error -> Hbefore Hj Ht Hts Hreplies.
    simpl. rewrite (collect_api_error _ before after msg [] error); [done..|].
    unfold fetch_message, thread_replies. by rewrite Hj, Hts, Ht, Hreplies.
Qed.


(** X17. [fetch_channels] returns the public channels followed by the private
    ones, all with an empty message list.  A [SlackApiError] on the private
    listing is swallowed and the public channels alone are returned; one on
    the public listing becomes "Failed to fetch Slack channels: <error>"; any
    other exception, on either listing, passes unchanged. *)
Theorem fetch_channels_degrades client :
  (forall public, conversations_list client "public_channel" = Answer public ->
     (forall private,
        conversations_list client "private_channel" = Answer private ->
        fetch_channels platform client
        = ret ((channel_of platform <$> public)
               ++ (channel_of platform <$> private)))
     /\ (forall error,
          conversations_list client "private_channel" = SlackApiError error ->
          fetch_channels platform client = ret (channel_of platform <$> public))
     /\ (forall e,
          conversations_list client "private_channel" = Raised e ->
          fetch_channels platform client = raise e))
  /\ (forall error,
       conversations_list client "public_channel" = SlackApiError error ->
       fetch_channels platform client
       = raise (IntegrationError ("Failed to fetch Slack channels: " +:+ error)))
  /\ (forall e, conversations_list client "public_channel" = Raised e ->
       fetch_channels platform client = raise e)
  /\ (forall channels, fetch_channels platform client = ret channels ->
       forall c, c ∈ channels ->
                 chan_messages c = [] /\ is_Some (chan_creator c)).
Proof.
  unfold fetch_channels, with_private_channels. split_and!.
  - intros public ->. simpl. split_and!.
    + by intros private ->.
    + by intros error ->.
    + by intros e ->.
  - by intros error ->.
  - by intros e ->.
  - intros channels.
    destruct (conversations_list client "public_channel") as [public| |];
      simpl; [|done..].
    destruct (conversations_list client "private_channel") as [private| |];
      simpl; [| |done]; intros [= <-] c.
    + intros [(r & -> & _)%list_elem_of_fmap|(r & -> & _)%list_elem_of_fmap]
        %elem_of_app; by split.
    + intros (r & -> & _)%list_elem_of_fmap. by split.
Qed.

Lemma fetch_canvas_parts client listed parts :
  Forall2 (fun canvas p => fetch_canvas platform client canvas = Answer p)
    listed parts ->
  exists infos,
    Forall2 (fun canvas info => canvas_get client (rawcanvas_id canvas)
                                = Answer info) listed infos
    /\ concat parts = zip_with (canvas_of platform) listed infos.
Proof.
  induction 1 as [|canvas p listed parts Hp Hrest (infos & IH1 & IH2)].
  - exists []. split; [constructor|done].
  - unfold fetch_canvas in Hp.
    apply and_then_answer in Hp as (info & Hinfo & [= <-]).
    exists (info :: infos). split; [by constructor|].
    cbn [concat app zip_with]. by rewrite IH2.
Qed.

Lemma fetch_canvas_all client listed infos :
  Forall2 (fun canvas info => canvas_get client (rawcanvas_id canvas)
                              = Answer info) listed infos ->
  forall acc,
    collect listed (fetch_canvas platform client) acc
    = Answer (acc ++ zip_with (canvas_of platform) listed infos).
Proof.
  induction 1 as [|canvas info listed infos Hinfo Hrest IH]; intros acc.
  - simpl. by rewrite app_nil_r.
  - cbn [collect]. unfold fetch_canvas at 1. rewrite Hinfo. cbn [and_then].
    rewrite IH. cbn [zip_with]. by rewrite <- (assoc_L (++)).
Qed.

(** X18. [fetch_canvases] gives the empty list when the canvas listing fails
    with a [SlackApiError], and also when, after a successful listing,
    reading one canvas fails with one: the canvases read before it are
    dropped, and the failure cannot be told from a workspace without
    canvases.  A listing without a "canvases" key gives the empty list too.
    When the listing and every reading are answered, the result has one
    canvas per listed canvas, in order, built from the entry of the listing
    and the blocks of what was read; a list that is returned is empty or of
    this kind.  Any other exception of the listing passes unchanged. *)
Theorem canvases_all_or_none client :
  (forall error, canvas_list client = SlackApiError error ->
     fetch_canvases platform client = ret [])
  /\ (forall listed before canvas after error,
       canvas_list client = Answer listed ->
       default [] listed = before ++ canvas :: after ->
       (forall c, c ∈ before ->
          exists info, canvas_get client (rawcanvas_id c) = Answer info) ->
       canvas_get client (rawcanvas_id canvas) = SlackApiError error ->
       fetch_canvases platform client = ret [])
  /\ (canvas_list client = Answer None ->
       fetch_canvases platform client = ret [])
  /\ (forall listed infos,
       canvas_list client = Answer listed ->
       Forall2 (fun canvas info => canvas_get client (rawcanvas_id canvas)
                                   = Answer info) (default [] listed) infos ->
       fetch_canvases platform client
       = ret (zip_with (canvas_of platform) (default [] listed) infos))
  /\ (forall canvases, fetch_canvases platform client = ret canvases ->
       canvases = []
       \/ exists listed infos,
            canvas_list client = Answer listed
            /\ Forall2 (fun canvas info =>
                          canvas_get client (rawcanvas_id canvas) = Answer info)
                 (default [] listed) infos
            /\ canvases = zip_with (canvas_of platform) (default [] listed)
                            infos)
  /\ (forall e, canvas_list client = Raised e ->
       fetch_canvases platform client = raise e)
  /\ (forall canvas info,
       canvas_id (canvas_of platform canvas info) = rawcanvas_id canvas
       /\ canvas_title (canvas_of platform canvas info) = rawcanvas_title canvas
       /\ canvas_created (canvas_of platform canvas info)
          = fromtimestamp_int platform (rawcanvas_date_created canvas)
       /\ canvas_creator (canvas_of platform canvas info)
          = rawcanvas_created_by canvas
       /\ canvas_channel_id (canvas_of platform canvas info)
          = Some (default EmptyString (rawcanvas_channel_id canvas))
       /\ canvas_content (canvas_of platform canvas info)
          = default [] (default None (info_content info))).
Proof.
  unfold fetch_canvases. split_and!.
  - by intros error ->.
  - intros listed before canvas after error -> Hlisted Hbefore Hcanvas.
    cbn [and_then]. rewrite Hlisted.
    rewrite (collect_api_error _ before after canvas [] error); [done| |].
    + intros c Hc. destruct (Hbefore c Hc) as [info Hinfo].
      unfold fetch_canvas. rewrite Hinfo. simpl. eauto.
    + unfold fetch_canvas. by rewrite Hcanvas.
  - by intros ->.
  - intros listed infos -> Hall. cbn [and_then].
    by rewrite (fetch_canvas_all client _ _ Hall).
  - intros canvases.
    destruct (and_then _ _) as [out|error|e] eqn:Hbody; [| |done].
    + intros [= <-].
      apply and_then_answer in Hbody as (listed & Hlist & Hcollect).
      apply collect_answer in Hcollect as (parts & Hparts & ->).
      destruct (fetch_canvas_parts client _ _ Hparts) as (infos & Hall & ->).
      right. exists listed, infos. by split_and!.
    + intros [= <-]. by left.
  - by intros e ->.
  - intros canvas info. split_and!; try done.
    cbn [canvas_of canvas_content]. unfold canvas_blocks.
    by destruct (info_content info) as [[blocks|]|].
Qed.

Lemma except_api_ret {A : Type} (wrap : string -> exn) (body : outcome A) a :
  except_api wrap body = ret a -> body = Answer a.
Proof. destruct body; simpl; [by intros [= ->]|done..]. Qed.

Lemma called_answer {A : Type} (r : result A) a :
  called r = Answer a -> r = ret a.
Proof. destruct r; simpl; [done|by intros [= ->]]. Qed.

Lemma with_messages_parts client channels parts :
  Forall2 (fun c p => with_messages platform client c = Answer p)
    channels parts ->
  Forall2 (fun channel c =>
             exists messages,
               fetch_messages platform client (chan_id channel) 1000
               = ret messages
               /\ c = set_messages messages channel)
    channels (concat parts).
Proof.
  induction 1 as [|c p channels parts Hp Hrest IH]; [constructor|].
  unfold with_messages in Hp.
  apply and_then_answer in Hp as (messages & Hm%called_answer & [= <-]).
  cbn [concat app]. constructor; [eauto|done].
Qed.

(** X19. When [fetch_all_workspace_data] returns a workspace, the workspace
    id has a registered client; the workspace carries the requested id, the
    team's name and domain and the given extraction time; its users are what
    [fetch_users] returned; its channels are those [fetch_channels]
    returned, in order and with the id, name, privacy flag, creation time and
    creator they were returned with (those of the listing), each with the
    messages [fetch_messages] returned for its id with limit 1000; its
    canvases are the list [fetch_canvases] returned; and no reply in it has
    replies of its own. *)
Theorem fetched_workspace_shape clients now workspace_id workspace :
  fetch_all_workspace_data platform clients now workspace_id = ret workspace ->
  exists client info listed,
    clients !! workspace_id = Some client
    /\ team_info client workspace_id = Answer info
    /\ ws_id workspace = workspace_id
    /\ ws_name workspace = team_name info
    /\ ws_domain workspace = team_domain info
    /\ ws_extraction_time workspace = now
    /\ fetch_users client = ret (ws_users workspace)
    /\ fetch_channels platform client = ret listed
    /\ Forall2 (fun channel c =>
                  chan_id c = chan_id channel
                  /\ chan_name c = chan_name channel
                  /\ chan_is_private c = chan_is_private channel
                  /\ chan_created c = chan_created channel
                  /\ chan_creator c = chan_creator channel
                  /\ fetch_messages platform client (chan_id channel) 1000
                     = ret (chan_messages c))
         listed (ws_channels workspace)
    /\ fetch_canvases platform client = ret (ws_canvases workspace)
    /\ (forall c m r, c ∈ ws_channels workspace -> m ∈ chan_messages c ->
          r ∈ msg_replies m -> msg_replies r = [])
    /\ (forall channel,
          chan_id (channel_of platform channel) = rawchan_id channel
          /\ chan_name (channel_of platform channel) = rawchan_name channel
          /\ chan_is_private (channel_of platform channel)
             = rawchan_is_private channel
          /\ chan_created (channel_of platform channel)
             = fromtimestamp_int platform (rawchan_created channel)
          /\ chan_creator (channel_of platform channel)
             = Some (default EmptyString (rawchan_creator channel))
          /\ chan_messages (channel_of platform channel) = []).
Proof.
  unfold fetch_all_workspace_data.
  destruct (clients !! workspace_id) as [client|]; [|done].
  intros Hbody%except_api_ret.
  apply and_then_answer in Hbody as (info & Hinfo & Hbody).
  apply and_then_answer in Hbody as (users & Husers%called_answer & Hbody).
  apply and_then_answer in Hbody as (listed & Hlisted%called_answer & Hbody).
  apply and_then_answer in Hbody as (channels & Hchannels & Hbody).
  apply and_then_answer in Hbody as (canvases & Hcanvases%called_answer & Hbody).
  injection Hbody as <-.
  apply collect_answer in Hchannels as (parts & Hparts & ->).
  pose proof (with_messages_parts _ _ _ Hparts) as Hall.
  exists client, info, listed. cbn [new_workspace ws_id ws_name ws_domain
    ws_users ws_channels ws_canvases ws_extraction_time app].
  split_and!; try done.
  { eapply Forall2_impl; [exact Hall|].
    by intros channel c (messages & Hmsgs & ->). }
  intros c m r Hc Hm Hr.
  destruct (forall2_elem_r _ _ _ _ Hall Hc)
    as (channel & _ & messages & Hmsgs & ->).
  destruct (fetch_messages_flat_core _ _ _ _ Hmsgs) as (raw & _ & _ & Hflat).
  by destruct (Hflat m r Hm Hr).
Qed.

Lemma fetch_all_failures_core clients now workspace_id :
  (clients !! workspace_id = None ->
     fetch_all_workspace_data platform clients now workspace_id
     = raise (IntegrationError
                ("Workspace " +:+ workspace_id +:+ " not registered")))
  /\ (forall client error,
       clients !! workspace_id = Some client ->
       team_info client workspace_id = SlackApiError error ->
       fetch_all_workspace_data platform clients now workspace_id
       = raise (IntegrationError
                  ("Failed to fetch Slack workspace data: " +:+ error)))
  /\ (forall client info e,
       clients !! workspace_id = Some client ->
       team_info client workspace_id = Answer info ->
       fetch_users client = raise e ->
       fetch_all_workspace_data platform clients now workspace_id = raise e).
Proof.
  unfold fetch_all_workspace_data. split_and!.
  - by intros ->.
  - by intros client error -> ->.
  - intros client info e -> -> Hu. simpl. by rewrite Hu.
Qed.

(** X20. [fetch_all_workspace_data] raises "Workspace <id> not registered"
    for a workspace without a client, before any call.  A [SlackApiError] of
    the team call becomes "Failed to fetch Slack workspace data: <error>".
    An exception of [fetch_users], its own IntegrationError included, passes
    unchanged and is not wrapped again. *)
Theorem fetch_all_failures clients now workspace_id :
  (clients !! workspace_id = None ->
     fetch_all_workspace_data platform clients now workspace_id
     = raise (IntegrationError
                ("Workspace " +:+ workspace_id +:+ " not registered")))
  /\ (forall client error,
       clients !! workspace_id = Some client ->
       team_info client workspace_id = SlackApiError error ->
       fetch_all_workspace_data platform clients now workspace_id
       = raise (IntegrationError
                  ("Failed to fetch Slack workspace data: " +:+ error)))
  /\ (forall client info e,
       clients !! workspace_id = Some client ->
       team_info client workspace_id = Answer info ->
       fetch_users client = raise e ->
       fetch_all_workspace_data platform clients now workspace_id = raise e).
Proof. exact (fetch_all_failures_core clients now workspace_id). Qed.

End IntegrationProperties.

(** ** Registration, extraction and the worker on the real fetch *)

Section Composition.

Context (platform : SlackIntegration.Platform).

(** X21. A successful [register_workspace] returns the team id of the
    authentication test and stores the new client under it, leaving the
    other clients alone; the connect route then answers with that id, and the
    submission route accepts a request for it.  When the authentication test
    fails with a [SlackApiError] nothing is stored, the service raises
    "Failed to connect to Slack API: <error>" and the route answers 400 with
    that text. *)
Theorem registration_round_trip connect bot_token clients :
  let registered :=
    SlackIntegration.register_workspace connect bot_token clients in
  let connected := Routes.connect_slack_workspace connect bot_token clients in
  connected.2 = registered.2
  /\ (forall workspace_id,
       SlackIntegration.auth_test (connect bot_token)
       = SlackIntegration.Answer workspace_id ->
       registered.1 = ret workspace_id
       /\ registered.2 !! workspace_id = Some (connect bot_token)
       /\ (forall other, other <> workspace_id ->
             registered.2 !! other = clients !! other)
       /\ connected.1 =
          inr {| Routes.connected_workspace_id := workspace_id;
                 Routes.connected_message :=
                   "Successfully connected to Slack workspace" |}
       /\ forall str_http task_id now request s,
            Routes.request_workspace_id request = workspace_id ->
            exists started,
              (Routes.process_workspace_data str_http registered.2 task_id now
                 request s).1 = inr started
              /\ Routes.started_task_id started = task_id)
  /\ (forall error,
       SlackIntegration.auth_test (connect bot_token)
       = SlackIntegration.SlackApiError error ->
       registered.1 =
         raise (IntegrationError ("Failed to connect to Slack API: " +:+ error))
       /\ registered.2 = clients
       /\ connected.1 =
          inl (Routes.FromRoute
                 {| Routes.status_code := 400;
                    Routes.detail :=
                      "Failed to connect to Slack API: " +:+ error |})).
Proof.
  intros registered connected. subst registered connected.
  unfold Routes.connect_slack_workspace, SlackIntegration.register_workspace.
  destruct (SlackIntegration.auth_test (connect bot_token))
    as [wid|error|e] eqn:Hauth; cbn [fst snd].
  - split_and!; [done| |done]. intros workspace_id [= <-]. split_and!.
    + done.
    + apply lookup_insert_eq.
    + intros other Hne. by apply lookup_insert_ne.
    + done.
    + intros str_http task_id now request s Hreq.
      unfold Routes.process_workspace_data.
      rewrite Hreq, lookup_insert_eq. eexists. by split.
  - split_and!; [done|done|]. by intros error' [= <-].
  - split_and!; [by destruct e|done|done].
Qed.

(** X22. The extraction route returns the fetched workspace; an
    IntegrationError of the fetch becomes a 400 whose detail is the error's
    message, so an unregistered workspace answers 400 "Workspace <id> not
    registered"; every other exception becomes a 500 "Failed to extract
    workspace data: <text>". *)
Theorem extraction_route_statuses clients now workspace_id :
  let fetched :=
    SlackIntegration.fetch_all_workspace_data platform clients now
      workspace_id in
  let answer :=
    Routes.extract_workspace_data platform clients now workspace_id in
  (forall workspace, fetched = ret workspace -> answer = inr workspace)
  /\ (forall msg, fetched = raise (IntegrationError msg) ->
       answer = inl {| Routes.status_code := 400; Routes.detail := msg |})
  /\ (forall e, fetched = raise e -> (forall msg, e <> IntegrationError msg) ->
       answer =
         inl {| Routes.status_code := 500;
                Routes.detail :=
                  "Failed to extract workspace data: " +:+ str_exn e |})
  /\ (clients !! workspace_id = None ->
       answer =
         inl {| Routes.status_code := 400;
                Routes.detail :=
                  "Workspace " +:+ workspace_id +:+ " not registered" |}).
Proof.
  intros fetched answer. subst fetched answer.
  unfold Routes.extract_workspace_data. split_and!.
  - by intros workspace ->.
  - by intros msg ->.
  - intros e -> Hne. destruct e; try done. by destruct (Hne msg).
  - intros Hnone.
    destruct (fetch_all_failures_core platform clients now workspace_id)
      as (Hfail & _).
    by rewrite (Hfail Hnone).
Qed.

(** X23. When the worker's fetch is the integration service's, a task for a
    workspace without a registered client ends failed with the error
    "Workspace <id> not registered", its results as they were. *)
Theorem task_fails_when_fetch_fails env clients now item tasks t :
  (forall workspace_id,
     fetch_all_workspace_data env workspace_id
     = SlackIntegration.fetch_all_workspace_data platform clients now
         workspace_id) ->
  tasks !! wi_task_id item = Some t ->
  clients !! wi_workspace_id item = None ->
  exists t',
    _process_workspace_data env item tasks !! wi_task_id item = Some t'
    /\ task_status t' = "failed"
    /\ task_error t' =
       Some ("Workspace " +:+ wi_workspace_id item +:+ " not registered")
    /\ task_results t' = task_results t.
Proof.
  intros Hfetch Ht Hc.
  destruct (fetch_all_failures_core platform clients now (wi_workspace_id item))
    as (Hnone & _).
  destruct (pipeline_all_or_nothing_core env item) as [Hraise _].
  eexists. split; [by apply process_workspace_data_entry|].
  rewrite (Hraise _ (eq_trans (Hfetch _) (Hnone Hc))). by split_and!.
Qed.

Lemma filter_by_age_canvases now max_age_days workspace workspace_data :
  filter_by_age now max_age_days workspace = ret workspace_data ->
  ws_canvases workspace_data = ws_canvases workspace.
Proof.
  unfold filter_by_age. destruct max_age_days as [d|]; [|by intros [= <-]].
  case_bool_decide; [by intros [= <-]|].
  by intros (cutoff & _ & [= <-])%bind_ret_inv.
Qed.

(** X24. A refused canvas listing does not fail the fetch.  When the client
    is registered and the team, user, channel and message calls all succeed,
    a [SlackApiError] of the canvas listing leaves [fetch_all_workspace_data]
    returning the workspace with an empty canvas list, as it does when the
    listing is answered with no canvas; the extraction route answers with
    that workspace; and a worker whose fetch this is goes on without
    canvases: after its filters the workspace still has none, and it makes no
    canvas summary whatever include_canvases says. *)
Theorem refused_canvases_are_no_canvases clients now workspace_id client info
    users listed channels error :
  clients !! workspace_id = Some client ->
  SlackIntegration.team_info client workspace_id
  = SlackIntegration.Answer info ->
  SlackIntegration.fetch_users client = ret users ->
  SlackIntegration.fetch_channels platform client = ret listed ->
  SlackIntegration.collect listed
    (SlackIntegration.with_messages platform client) []
  = SlackIntegration.Answer channels ->
  SlackIntegration.canvas_list client = SlackIntegration.SlackApiError error ->
  let workspace :=
    {| ws_id := workspace_id; ws_name := SlackIntegration.team_name info;
       ws_domain := SlackIntegration.team_domain info; ws_users := users;
       ws_channels := channels; ws_canvases := [];
       ws_extraction_time := now |} in
  SlackIntegration.fetch_canvases platform client = ret []
  /\ SlackIntegration.fetch_all_workspace_data platform clients now
       workspace_id = ret workspace
  /\ Routes.extract_workspace_data platform clients now workspace_id
     = inr workspace
  /\ forall env item workspace_data,
       (forall wid, fetch_all_workspace_data env wid
                    = SlackIntegration.fetch_all_workspace_data platform
                        clients now wid) ->
       wi_workspace_id item = workspace_id ->
       filter_by_age (now_at_filter env) (wi_max_age_days item)
         (filter_channels (wi_channels item) workspace) = ret workspace_data ->
       fetch_all_workspace_data env (wi_workspace_id item) = ret workspace
       /\ ws_canvases workspace_data = []
       /\ canvas_summaries_of env (wi_include_canvases item) workspace_data
          = ret [].
Proof.
  intros Hc Hi Hu Hl Hm Hcv workspace.
  assert (Hnone : SlackIntegration.fetch_canvases platform client = ret []).
  { unfold SlackIntegration.fetch_canvases. by rewrite Hcv. }
  assert (Hfetch : SlackIntegration.fetch_all_workspace_data platform clients
                     now workspace_id = ret workspace).
  { unfold SlackIntegration.fetch_all_workspace_data. rewrite Hc, Hi. simpl.
    rewrite Hu. simpl. rewrite Hl. simpl. rewrite Hm. simpl.
    by rewrite Hnone. }
  split_and!.
  - done.
  - done.
  - unfold Routes.extract_workspace_data. by rewrite Hfetch.
  - intros env item workspace_data Henv Hwid Hage.
    assert (Hcanvases : ws_canvases workspace_data = []).
    { rewrite (filter_by_age_canvases _ _ _ _ Hage).
      unfold filter_channels. by destruct (wi_channels item) as [[|i ids]|]. }
    split_and!.
    + by rewrite Henv, Hwid.
    + done.
    + unfold canvas_summaries_of. rewrite Hcanvases.
      by destruct (wi_include_canvases item).
Qed.

(** X25. The constructor of the integration service never fails and leaves
    at most one client.  Without a bot token in the environment, or with an
    empty one, it starts with no client, whatever the client library would
    answer; with a token it starts with the one client registered under the
    team id of the authentication test, and with none when that test fails
    in any way.  A service that starts with no client refuses every request:
    the extraction route answers 400 "Workspace <id> not registered", and the
    submission route answers 500 and creates no task. *)
Theorem default_client_registration connect bot_token :
  let clients := SlackIntegration.__init__ connect bot_token in
  (size clients <= 1)%nat
  /\ (default false (Py.truthy <$> bot_token) = false ->
       forall connect', SlackIntegration.__init__ connect' bot_token = ∅)
  /\ (forall token workspace_id,
       bot_token = Some token -> Py.truthy token = true ->
       SlackIntegration.auth_test (connect token)
       = SlackIntegration.Answer workspace_id ->
       clients = {[ workspace_id := connect token ]})
  /\ (forall token,
       bot_token = Some token ->
       (forall workspace_id,
          SlackIntegration.auth_test (connect token)
          <> SlackIntegration.Answer workspace_id) ->
       clients = ∅)
  /\ (clients = ∅ ->
       forall str_http now workspace_id task_id request s,
         Routes.extract_workspace_data platform clients now workspace_id
         = inl {| Routes.status_code := 400;
                  Routes.detail :=
                    "Workspace " +:+ workspace_id +:+ " not registered" |}
         /\ (Routes.process_workspace_data str_http clients task_id now
               request s).2 = s
         /\ exists h,
              (Routes.process_workspace_data str_http clients task_id now
                 request s).1 = inl h
              /\ Routes.status_code h = 500%nat).
Proof.
  intros clients. subst clients. unfold SlackIntegration.__init__.
  split_and!.
  - destruct bot_token as [token|]; [|by rewrite map_size_empty; lia].
    destruct (Py.truthy token); [|by rewrite map_size_empty; lia].
    unfold SlackIntegration.register_workspace.
    destruct (SlackIntegration.auth_test (connect token)); cbn [snd].
    + rewrite insert_empty, map_size_singleton. lia.
    + rewrite map_size_empty. lia.
    + rewrite map_size_empty. lia.
  - intros Hfalsy connect'. destruct bot_token as [token|]; [|done].
    cbn in Hfalsy. by rewrite Hfalsy.
  - intros token workspace_id -> Htruthy Hauth. rewrite Htruthy.
    unfold SlackIntegration.register_workspace. rewrite Hauth. cbn [snd].
    apply insert_empty.
  - intros token -> Hfails. destruct (Py.truthy token); [|done].
    unfold SlackIntegration.register_workspace.
    destruct (SlackIntegration.auth_test (connect token)) as [wid| |] eqn:Hauth;
      [by destruct (Hfails wid)|done|done].
  - intros -> str_http now workspace_id task_id request s.
    unfold Routes.extract_workspace_data, Routes.process_workspace_data,
      SlackIntegration.fetch_all_workspace_data.
    rewrite !lookup_empty. cbn [fst snd]. split_and!; [done|done|].
    eexists. by split.
Qed.

End Composition.

(** ** Instances of the further properties *)

(** The channel loop on the [threads] workspace: one entry, for the channel
    that has messages. *)
Lemma channel_summaries_cover_witness :
  let env := Demo.services Demo.threads "ok" in
  result_for [Demo.general; Demo.random] (channel_summary_step env) []
  = ret [("C1", "ok")]
  /\ NoDup [("C1", "ok")].*1
  /\ (length [("C1", "ok")] <= length [Demo.general; Demo.random])%nat.
Proof.
  intros env.
  assert (H : result_for [Demo.general; Demo.random] (channel_summary_step env) []
              = ret [("C1", "ok")]) by reflexivity.
  destruct (channel_summaries_cover env _ _ H) as (Hnd & _ & _ & Hlen).
  split_and!; [exact H|exact Hnd|exact Hlen].
Defined.

(** The overall prompt on a workspace whose first channel is empty: the
    summary of the second channel, "general", is labelled "random". *)
Lemma workspace_summary_labels_witness :
  let env := Demo.services Fixture.shifted "ok" in
  result_for (ws_channels Fixture.shifted) (channel_summary_step env) []
  = ret [("C1", "ok")]
  /\ chan_name <$> ws_channels Fixture.shifted = ["random"; "general"]
  /\ result_for (imap pair [("C1", "ok")]) (channel_entry Fixture.shifted) []
     = ret ["CHANNEL: random" +:+ Py.nl +:+ "SUMMARY: ok"].
Proof.
  intros env.
  assert (H : result_for (ws_channels Fixture.shifted) (channel_summary_step env) []
              = ret [("C1", "ok")]) by reflexivity.
  destruct (workspace_summary_labels env Fixture.shifted _ [] None H)
    as (Hentries & _ & _).
  split_and!; [exact H|reflexivity|exact Hentries].
Defined.

(** The failed sample task: an error, no results. *)
Lemma task_fields_follow_status_witness :
  exists t,
    reachable Demo.finished
    /\ processing_tasks Demo.finished !! "t1" = Some t
    /\ (is_Some (task_error t) ->
          task_status t = "failed" /\ task_results t = None).
Proof.
  eexists. split; [apply demo_finished_reachable|].
  assert (H : processing_tasks Demo.finished !! "t1" =
              Some (close_task Demo.now
                      (pipeline (Demo.services Demo.only_blank "ok")
                         (Demo.work true))
                      (set_status "processing"
                         {| task_workspace_id := "T1"; task_status := "queued";
                            task_started_at := Demo.now;
                            task_completed_at := None;
                            task_parameters :=
                              {| par_channels := None;
                                 par_include_canvases := true;
                                 par_max_age_days := None;
                                 par_custom_instruction := None |};
                            task_results := None; task_error := None |})))
    by reflexivity.
  split; [exact H|].
  exact (proj1 (proj2 (proj2 (task_fields_follow_status Demo.finished "t1" _
                                demo_finished_reachable H)))).
Defined.

(** The sample channel history: the join notice is dropped and the thread's
    reply has no replies. *)
Lemma fetch_messages_flat_witness :
  exists messages,
    SlackIntegration.fetch_messages Fixture.platform
      (Fixture.client (SlackIntegration.Answer None)) "C1" 1000 = ret messages
    /\ (msg_id <$> messages) = ["100.1"]
    /\ forall m, m ∈ messages ->
         forall r, r ∈ msg_replies m ->
                   msg_replies r = [] /\ msg_reactions r = [].
Proof.
  eexists.
  assert (H : SlackIntegration.fetch_messages Fixture.platform
                (Fixture.client (SlackIntegration.Answer None)) "C1" 1000
              = ret [SlackIntegration.message_of Fixture.platform Fixture.parent
                       [SlackIntegration.reply_of Fixture.platform
                          Fixture.reply]])
    by reflexivity.
  split; [exact H|].
  destruct (fetch_messages_flat Fixture.platform _ _ _ _ H)
    as (raw & _ & _ & Hflat & _).
  split; [reflexivity|]. intros m Hm r Hr. exact (Hflat m r Hm Hr).
Defined.

(** The sample workspace, fetched. *)
Lemma fetched_workspace_shape_witness :
  exists workspace,
    SlackIntegration.fetch_all_workspace_data Fixture.platform
      (Fixture.clients (SlackIntegration.Answer None)) Demo.now "T1"
    = ret workspace
    /\ ws_id workspace = "T1"
    /\ forall c m r, c ∈ ws_channels workspace -> m ∈ chan_messages c ->
                     r ∈ msg_replies m -> msg_replies r = [].
Proof.
  assert (H : exists workspace,
                SlackIntegration.fetch_all_workspace_data Fixture.platform
                  (Fixture.clients (SlackIntegration.Answer None)) Demo.now "T1"
                = ret workspace)
    by (eexists; vm_compute; reflexivity).
  destruct H as [workspace H]. exists workspace. split; [exact H|].
  destruct (fetched_workspace_shape Fixture.platform _ _ _ _ H)
    as (client & info & listed & _ & _ & Hid & _ & _ & _ & _ & _ & _ & _
        & Hflat & _).
  split; [exact Hid|exact Hflat].
Defined.

(** A task for a workspace nobody registered. *)
Lemma task_fails_when_fetch_fails_witness :
  exists t',
    processing_tasks Demo.accepted !! "t1" <> None
    /\ (∅ : gmap string SlackIntegration.WebClient) !! "T1" = None
    /\ _process_workspace_data (Fixture.services ∅) (Demo.work true)
         (processing_tasks Demo.accepted) !! "t1" = Some t'
    /\ task_status t' = "failed"
    /\ task_error t' = Some "Workspace T1 not registered".
Proof.
  assert (Hfetch : forall workspace_id,
            fetch_all_workspace_data (Fixture.services ∅) workspace_id
            = SlackIntegration.fetch_all_workspace_data Fixture.platform ∅
                Demo.now workspace_id) by reflexivity.
  assert (Ht : processing_tasks Demo.accepted !! wi_task_id (Demo.work true) =
               Some {| task_workspace_id := "T1"; task_status := "queued";
                       task_started_at := Demo.now; task_completed_at := None;
                       task_parameters :=
                         {| par_channels := None; par_include_canvases := true;
                            par_max_age_days := None;
                            par_custom_instruction := None |};
                       task_results := None; task_error := None |})
    by reflexivity.
  assert (Hnone : (∅ : gmap string SlackIntegration.WebClient)
                    !! wi_workspace_id (Demo.work true) = None) by reflexivity.
  destruct (task_fails_when_fetch_fails Fixture.platform (Fixture.services ∅) ∅
              Demo.now (Demo.work true) _ _ Hfetch Ht Hnone)
    as (t' & Hl & Hst & Herr & _).
  exists t'.
  split_and!; [vm_compute; discriminate|exact Hnone|exact Hl|exact Hst|exact Herr].
Defined.

(** Attachments of a message with two files and two attachments. *)
Example attachments_example :
  let message :=
    {| SlackIntegration.raw_ts := "1.0"; SlackIntegration.raw_text := "files";
       SlackIntegration.raw_user := None; SlackIntegration.raw_subtype := None;
       SlackIntegration.raw_thread_ts := None;
       SlackIntegration.raw_reply_count := None;
       SlackIntegration.raw_reactions := None;
       SlackIntegration.raw_attachments :=
         Some [ {| SlackIntegration.rawatt_type := None;
                   SlackIntegration.rawatt_title := Some "a";
                   SlackIntegration.rawatt_text := None;
                   SlackIntegration.rawatt_fallback := None |};
                {| SlackIntegration.rawatt_type := Some "image";
                   SlackIntegration.rawatt_title := Some "b";
                   SlackIntegration.rawatt_text := None;
                   SlackIntegration.rawatt_fallback := None |} ];
       SlackIntegration.raw_files :=
         Some [ {| SlackIntegration.rawfile_name := Some "first.txt";
                   SlackIntegration.rawfile_filetype := None;
                   SlackIntegration.rawfile_size := None;
                   SlackIntegration.rawfile_url_private := None |};
                {| SlackIntegration.rawfile_name := Some "second.txt";
                   SlackIntegration.rawfile_filetype := None;
                   SlackIntegration.rawfile_size := None;
                   SlackIntegration.rawfile_url_private := None |} ] |} in
  (attachment_type ∘ SlackIntegration.pa_fields
     <$> SlackIntegration._process_attachments message) = ["unknown"; "image"]
  /\ (fmap SlackIntegration.file_name ∘ SlackIntegration.pa_file
        <$> SlackIntegration._process_attachments message)
     = [Some "second.txt"; Some "second.txt"].
Proof. split; reflexivity. Qed.

Example canvases_refused_example :
  SlackIntegration.fetch_canvases Fixture.platform
    (Fixture.client (SlackIntegration.SlackApiError "not_allowed_token_type"))
  = ret []
  /\ SlackIntegration.fetch_all_workspace_data Fixture.platform
       (Fixture.clients
          (SlackIntegration.SlackApiError "not_allowed_token_type"))
       Demo.now "T1"
     = SlackIntegration.fetch_all_workspace_data Fixture.platform
         (Fixture.clients (SlackIntegration.Answer None)) Demo.now "T1".
Proof. split; vm_compute; reflexivity. Qed.

(** The sample workspace with a refused canvas listing. *)
Lemma refused_canvases_are_no_canvases_witness :
  let refused := SlackIntegration.SlackApiError "not_allowed_token_type" in
  exists workspace,
    SlackIntegration.canvas_list (Fixture.client refused) = refused
    /\ SlackIntegration.fetch_all_workspace_data Fixture.platform
         (Fixture.clients refused) Demo.now "T1" = ret workspace
    /\ ws_canvases workspace = []
    /\ Routes.extract_workspace_data Fixture.platform (Fixture.clients refused)
         Demo.now "T1" = inr workspace.
Proof.
  intros refused. eexists.
  assert (Hcv : SlackIntegration.canvas_list (Fixture.client refused) = refused)
    by reflexivity.
  destruct (refused_canvases_are_no_canvases Fixture.platform
              (Fixture.clients refused) Demo.now "T1"
              (Fixture.client refused) _ _ _ _ _ eq_refl eq_refl eq_refl
              eq_refl eq_refl Hcv) as (_ & Hfetch & Hroute & _).
  split_and!; [exact Hcv|exact Hfetch|reflexivity|exact Hroute].
Defined.
